(** * Zoho Creator MCP server: metadata cache, API client and resource router

    A shallow embedding of [src/models.py], [src/service.py] and
    [src/scaflog_zoho_mcp_server/server.py], and the properties of the
    specification checked against it.

    Conventions of the embedding:
    - Python [str] is [string]; the values [response.json()] produces are
      [pyval].
    - A Python [dict] is an insertion-ordered association list with unique
      keys ([dict_set] overwrites in place or appends a new key).
    - An exception is a value of [exn]; code that may raise returns [result].
    - The service object (its cache, its [httpx.AsyncClient], and what it has
      done to the outside so far) is a [State] threaded through the monad
      [M]; mutations made before an exception are kept, as in Python.
    - [datetime.now()] is a reading of a wall clock counted in microseconds,
      the resolution of [datetime]; [timedelta.total_seconds()] is the
      binary64 nearest to the microseconds divided by [10**6], as Python's
      true division of integers gives it, and [> ttl] compares that float
      with the integer exactly.
    - Logging is not modelled. *)

From Stdlib Require Import String Ascii List ZArith Bool Lia.
Import ListNotations.

Local Open Scope string_scope.
Local Open Scope list_scope.

(** ** Python values, exceptions *)

Set Warnings "-register-all".
Inductive pyval : Type :=
| PNone
| PBool (b : bool)
| PInt (n : Z)
| PStr (s : string)
| PList (l : list pyval)
| PDict (d : list (string * pyval)).
Set Warnings "register-all".

Inductive exn : Type :=
| HTTPStatusError (url : string) (params : list (string * pyval)) (status : Z)
    (* httpx: raise_for_status; [request.url] is [url] with [params] encoded
       as its query, [response.status_code] is [status] *)
| RequestError (url : string)                   (* httpx: transport failure, timeout *)
| JSONDecodeError                               (* response.json() *)
| KeyError (key : string)
| TypeError
| AttributeError
| ValidationError                               (* pydantic *)
| ValueError (msg : string)
| RuntimeError (msg : string)
| AuthError.                                    (* raised by the auth collaborator *)

Inductive result (A : Type) : Type :=
| Ok (a : A)
| Raise (e : exn).
Arguments Ok {A} a.
Arguments Raise {A} e.

(** ** Insertion-ordered dictionaries *)

Definition dict (V : Type) : Type := list (string * V).

Fixpoint dict_get {V} (d : dict V) (k : string) : option V :=
  match d with
  | [] => None
  | (k', v) :: d' => if String.eqb k' k then Some v else dict_get d' k
  end.

(** [d[k] = v] *)
Fixpoint dict_set {V} (d : dict V) (k : string) (v : V) : dict V :=
  match d with
  | [] => [(k, v)]
  | (k', v') :: d' =>
      if String.eqb k' k then (k', v) :: d' else (k', v') :: dict_set d' k v
  end.

(** [list(d.values())] *)
Definition dict_values {V} (d : dict V) : list V := map snd d.

(** ** Operations on JSON-derived values *)

(** [v[k]] for a string key: only a dict can be subscripted by a string. *)
Definition getitem (v : pyval) (k : string) : result pyval :=
  match v with
  | PDict d => match dict_get d k with
               | Some x => Ok x
               | None => Raise (KeyError k)
               end
  | _ => Raise TypeError
  end.

(** [v.get(k, default)]: a method of dicts only. *)
Definition py_get (v : pyval) (k : string) (default : pyval) : result pyval :=
  match v with
  | PDict d => match dict_get d k with
               | Some x => Ok x
               | None => Ok default
               end
  | _ => Raise AttributeError
  end.

Fixpoint chars_of (s : string) : list pyval :=
  match s with
  | EmptyString => []
  | String c s' => PStr (String c EmptyString) :: chars_of s'
  end.

(** The items a [for] loop or a comprehension draws from [v]: the elements
    of a list, the keys of a dict, the characters of a string. *)
Definition py_iter (v : pyval) : result (list pyval) :=
  match v with
  | PList l => Ok l
  | PDict d => Ok (map (fun kv => PStr (fst kv)) d)
  | PStr s => Ok (chars_of s)
  | _ => Raise TypeError
  end.

(** ** Strings *)

Fixpoint lstrip (p : ascii -> bool) (s : string) : string :=
  match s with
  | EmptyString => EmptyString
  | String c s' => if p c then lstrip p s' else s
  end.

Fixpoint rstrip (p : ascii -> bool) (s : string) : string :=
  match s with
  | EmptyString => EmptyString
  | String c s' =>
      match rstrip p s' with
      | EmptyString => if p c then EmptyString else String c EmptyString
      | r => String c r
      end
  end.

(** [s.strip(chars)] *)
Definition strip (p : ascii -> bool) (s : string) : string :=
  lstrip p (rstrip p s).

(** [s.split(sep)] for a one-character separator. *)
Fixpoint split (sep : ascii) (s : string) : list string :=
  match s with
  | EmptyString => [EmptyString]
  | String c s' =>
      if Ascii.eqb c sep then EmptyString :: split sep s'
      else match split sep s' with
           | w :: ws => String c w :: ws
           | [] => [String c EmptyString]
           end
  end.

(** [s.replace(old, new)] for a one-character [old]. *)
Fixpoint replace (old : ascii) (new : string) (s : string) : string :=
  match s with
  | EmptyString => EmptyString
  | String c s' =>
      if Ascii.eqb c old then new ++ replace old new s'
      else String c (replace old new s')
  end.

Fixpoint remove_chars (p : ascii -> bool) (s : string) : string :=
  match s with
  | EmptyString => EmptyString
  | String c s' => if p c then remove_chars p s' else String c (remove_chars p s')
  end.

Fixpoint string_forallb (p : ascii -> bool) (s : string) : bool :=
  match s with
  | EmptyString => true
  | String c s' => p c && string_forallb p s'
  end.

Definition string_existsb (p : ascii -> bool) (s : string) : bool :=
  negb (string_forallb (fun c => negb (p c)) s).

(** The part of [s] before the first character satisfying [p], and the rest
    of [s] from that character on (empty when there is none): the two slices
    [s[:i]] and [s[i:]] at [i = s.find(...)]. *)
Fixpoint break (p : ascii -> bool) (s : string) : string * string :=
  match s with
  | EmptyString => (EmptyString, EmptyString)
  | String c s' =>
      if p c then (EmptyString, s)
      else let (a, b) := break p s' in (String c a, b)
  end.

Definition is_char (c : ascii) : ascii -> bool := Ascii.eqb c.

Definition nonempty (s : string) : bool :=
  match s with
  | EmptyString => false
  | _ => true
  end.

Definition ascii_in (lo hi : nat) (c : ascii) : bool :=
  (lo <=? nat_of_ascii c)%nat && (nat_of_ascii c <=? hi)%nat.

Definition is_upper (c : ascii) : bool := ascii_in 65 90 c.
Definition is_lower (c : ascii) : bool := ascii_in 97 122 c.
Definition is_digit (c : ascii) : bool := ascii_in 48 57 c.

Definition lower_char (c : ascii) : ascii :=
  if is_upper c then ascii_of_nat (nat_of_ascii c + 32) else c.

(** [s.lower()] on ASCII text. *)
Fixpoint lower (s : string) : string :=
  match s with
  | EmptyString => EmptyString
  | String c s' => String (lower_char c) (lower s')
  end.

(** ** Python's [int / int], as far as [timedelta.total_seconds] needs it

    True division of two integers is correctly rounded: the result is the
    binary64 nearest to the exact quotient, ties going to the even mantissa.
    A finite binary64 is written as a pair [(m, e)], the number [m * 2^e].
    The exponent range of binary64 is not modelled: the quotients formed
    here lie between [10**-6] and [2**47] in magnitude, far from the
    subnormal numbers and from overflow. *)

Section Binary64.
Local Open Scope Z_scope.

(** [num / den] rounded to the nearest integer, ties to the even one. *)
Definition div_rne (num den : Z) : Z :=
  let q := num / den in
  let r := num mod den in
  if 2 * r <? den then q
  else if den <? 2 * r then q + 1
  else if Z.even q then q else q + 1.

(** The exponent of the power of two at or below [n / d], for positive [n]
    and [d]: the floor of [log2 (n / d)]. *)
Definition binade (n d : Z) : Z :=
  let k := Z.log2 d + 1 in
  Z.log2 (n * 2 ^ k / d) - k.

(** The binary64 nearest to [n / d] for positive [n] and [d]: a mantissa
    of 53 bits at the exponent of the quotient. *)
Definition round_div (n d : Z) : Z * Z :=
  let e := binade n d - 52 in
  if e <? 0 then (div_rne (n * 2 ^ (- e)) d, e)
  else (div_rne n (d * 2 ^ e), e).

(** [n / d] for a positive [d]. *)
Definition truediv (n d : Z) : Z * Z :=
  if n =? 0 then (0, 0)
  else if 0 <? n then round_div n d
  else let (m, e) := round_div (- n) d in (- m, e).

(** [f > k] for a float [f] and an integer [k]; Python compares the two
    exactly. *)
Definition float_gt_int (f : Z * Z) (k : Z) : bool :=
  let (m, e) := f in
  if e <? 0 then k * 2 ^ (- e) <? m else k <? m * 2 ^ e.

(** ** datetime.timedelta *)

(** [timedelta.min] and [timedelta.max], in microseconds: 999999999 days
    either way. *)
Definition timedelta_min : Z := -86399999913600000000.
Definition timedelta_max : Z := 86399999999999999999.

Definition is_timedelta (us : Z) : bool :=
  (timedelta_min <=? us) && (us <=? timedelta_max).

(** [delta.total_seconds()]:
    [((days * 86400 + seconds) * 10**6 + microseconds) / 10**6]. *)
Definition total_seconds (delta_us : Z) : Z * Z := truediv delta_us 1000000.

End Binary64.

(** ** models.py *)

Module ZohoField.
Record t : Type := {
  api_name : string;
  display_name : string;
  field_type : string;
  max_length : option Z;
  required : bool;
  lookup : option (dict pyval);
  choices : option (list string)
}.
End ZohoField.

Module ZohoForm.
Record t : Type := {
  link_name : string;
  display_name : string;
  fields : list ZohoField.t;
  access_type : string;
  last_modified : Z
}.
End ZohoForm.

(** A parsed [datetime]: the civil fields and the UTC offset in seconds
    ([None] for a naive value). *)
Record datetime : Type := {
  year : Z; month : Z; day : Z;
  hour : Z; minute : Z; second : Z; microsecond : Z;
  utcoffset : option Z
}.

Module ZohoRecord.
Record t : Type := {
  id : string;
  form_link_name : string;
  created_time : datetime;
  modified_time : datetime;
  data : dict pyval
}.
End ZohoRecord.

Module Cache.
Record t : Type := {
  forms : dict ZohoForm.t;
  ttl : Z;                      (* seconds *)
  last_refresh : option Z       (* clock reading, microseconds *)
}.

(** [Cache.__init__] *)
Definition init (ttl_seconds : Z) : t :=
  {| forms := []; ttl := ttl_seconds; last_refresh := None |}.

(** [delta.total_seconds() > ttl] for a difference of [delta_us]
    microseconds.  The difference of two [datetime] values is a
    [timedelta]; the clock of this model is not bounded, and where it gives
    a difference that no [timedelta] holds the exact quotient is
    compared. *)
Definition total_seconds_gt (delta_us ttl_s : Z) : bool :=
  if is_timedelta delta_us
  then float_gt_int (total_seconds delta_us) ttl_s
  else (ttl_s * 1000000 <? delta_us)%Z.

(** [needs_refresh]; [now] is what [datetime.now()] returns when the second
    line reads it.  A [datetime] is always truthy, so [not self.last_refresh]
    tests for [None]. *)
Definition needs_refresh (self : t) (now : Z) : bool :=
  match last_refresh self with
  | None => true
  | Some t0 => total_seconds_gt (now - t0) (ttl self)
  end.

(** [{form.link_name: form for form in forms}] *)
Definition forms_by_link_name (fs : list ZohoForm.t) : dict ZohoForm.t :=
  fold_left (fun d form => dict_set d (ZohoForm.link_name form) form) fs [].

(** [update_forms]; [now] is the clock reading of its second line. *)
Definition update_forms (self : t) (fs : list ZohoForm.t) (now : Z) : t :=
  {| forms := forms_by_link_name fs;
     ttl := ttl self;
     last_refresh := Some now |}.

Definition get_form (self : t) (link_name : string) : option ZohoForm.t :=
  dict_get (forms self) link_name.
End Cache.

(** ** The outside of the program *)

Inductive verb : Type := GET | POST | PATCH.

Record request : Type := {
  method : verb;
  url : string;
  headers : dict string;
  params : dict pyval;
  json : option pyval
}.

(** An HTTP response: its status and its body as [response.json()] decodes
    it ([None] when the body is not JSON). *)
Record response : Type := {
  status_code : Z;
  body : option pyval
}.

(** A request the client sent, with what came back. *)
Definition exchange : Type := (request * result response)%type.

(** Library functions the code calls and that are not part of the
    repository, kept as parameters of the model. *)
Record Library : Type := {
  (* datetime.fromisoformat; None is its ValueError *)
  fromisoformat : string -> option datetime;
  (* pydantic's lax conversions to int and bool of a value that is not
     already of that type; None is a validation error *)
  lax_int : pyval -> option Z;
  lax_bool : pyval -> option bool;
  (* str(v) of a value that is not a string, as an f-string renders it *)
  format_value : pyval -> string;
  (* urllib.parse: _check_bracketed_netloc and the NFKC check of
     _checknetloc on a non-ASCII netloc; None is their ValueError *)
  check_bracketed_netloc : string -> option unit;
  checknetloc_nfkc : string -> option unit
}.

(** The environment of one run: configuration, clock, the auth collaborator
    and the upstream service.  The collaborators may answer differently as
    the run proceeds, so they see the exchanges made so far. *)
Record Env : Type := {
  base_url : string;                      (* API_BASE_URL[auth.config.environment] *)
  now : nat -> Z;                         (* the n-th reading of datetime.now() *)
  get_authorized_headers : list exchange -> result (dict string);
  upstream : list exchange -> request -> result response
}.

(** ** The service object and the monad of its methods *)

(** [httpx.AsyncClient._state] *)
Inductive ClientState : Type := UNOPENED | OPENED | CLOSED.

Record State : Type := {
  cache : Cache.t;                (* self.cache *)
  _client : ClientState;          (* self._client *)
  clock_reads : nat;              (* readings of datetime.now() so far *)
  exchanges : list exchange       (* requests sent so far, oldest first *)
}.

Definition M (A : Type) : Type := State -> result A * State.

Definition ret {A} (a : A) : M A := fun st => (Ok a, st).

Definition raise {A} (e : exn) : M A := fun st => (Raise e, st).

Definition lift {A} (r : result A) : M A := fun st => (r, st).

Definition bind {A B} (m : M A) (k : A -> M B) : M B :=
  fun st =>
    match m st with
    | (Ok a, st') => k a st'
    | (Raise e, st') => (Raise e, st')
    end.

Notation "x <- m ;; k" := (bind m (fun x => k))
  (at level 61, m at next level, right associativity).

(** A [for] loop or comprehension that builds a list, stopping at the first
    exception. *)
Fixpoint for_each {A B} (l : list A) (f : A -> M B) : M (list B) :=
  match l with
  | [] => ret []
  | x :: l' => y <- f x ;; ys <- for_each l' f ;; ret (y :: ys)
  end.

Definition with_client (st : State) (c : ClientState) : State :=
  {| cache := cache st; _client := c;
     clock_reads := clock_reads st; exchanges := exchanges st |}.

Definition with_cache (st : State) (c : Cache.t) : State :=
  {| cache := c; _client := _client st;
     clock_reads := clock_reads st; exchanges := exchanges st |}.

Definition tick (st : State) : State :=
  {| cache := cache st; _client := _client st;
     clock_reads := S (clock_reads st); exchanges := exchanges st |}.

(** [ZohoCreatorService.__init__]: [Cache()] has the default ttl of 300
    seconds and the client is constructed, not yet opened. *)
Definition init_service : State :=
  {| cache := Cache.init 300; _client := UNOPENED;
     clock_reads := 0; exchanges := [] |}.

(** ** httpx.AsyncClient, as far as the service uses it *)

(** [__aenter__]: a client can be entered once, and only before first use. *)
Definition aenter : M unit :=
  fun st =>
    match _client st with
    | UNOPENED => (Ok tt, with_client st OPENED)
    | OPENED =>
        (Raise (RuntimeError "Cannot open a client instance more than once."), st)
    | CLOSED =>
        (Raise (RuntimeError "Cannot reopen a client instance, once it has been closed."), st)
    end.

(** [__aexit__] closes the client, whether the block raised or not. *)
Definition aexit (st : State) : State := with_client st CLOSED.

(** [async with self._client as client: body] *)
Definition async_with_client {A} (body : M A) : M A :=
  fun st =>
    match aenter st with
    | (Raise e, st1) => (Raise e, st1)
    | (Ok _, st1) => let (r, st2) := body st1 in (r, aexit st2)
    end.

(** [aclose] *)
Definition aclose : M unit := fun st => (Ok tt, with_client st CLOSED).

Definition is_success (status : Z) : bool :=
  ((200 <=? status) && (status <=? 299))%Z.

(** [response.raise_for_status()] *)
Definition raise_for_status (rq : request) (rp : response) : M unit :=
  if is_success (status_code rp) then ret tt
  else raise (HTTPStatusError (url rq) (params rq) (status_code rp)).

(** [response.json()] *)
Definition response_json (rp : response) : M pyval :=
  match body rp with
  | Some v => ret v
  | None => raise JSONDecodeError
  end.

(** ** pydantic validation of the model constructors *)

Definition validate_str (v : pyval) : option string :=
  match v with
  | PStr s => Some s
  | _ => None
  end.

Definition validate_dict (v : pyval) : option (dict pyval) :=
  match v with
  | PDict d => Some d
  | _ => None
  end.

Fixpoint validate_strs (l : list pyval) : option (list string) :=
  match l with
  | [] => Some []
  | v :: l' =>
      match validate_str v, validate_strs l' with
      | Some s, Some ss => Some (s :: ss)
      | _, _ => None
      end
  end.

Definition validate_list_str (v : pyval) : option (list string) :=
  match v with
  | PList l => validate_strs l
  | _ => None
  end.

(** [Optional[T]] *)
Definition validate_optional {A} (f : pyval -> option A) (v : pyval)
  : option (option A) :=
  match v with
  | PNone => Some None
  | _ => option_map Some (f v)
  end.

Section Service.
Variable L : Library.
Variable E : Env.

Definition validate_int (v : pyval) : option Z :=
  match v with
  | PInt n => Some n
  | _ => lax_int L v
  end.

Definition validate_bool (v : pyval) : option bool :=
  match v with
  | PBool b => Some b
  | _ => lax_bool L v
  end.

(** [ZohoField(api_name=.., display_name=.., field_type=.., max_length=..,
    required=.., lookup=.., choices=..)] *)
Definition new_ZohoField
  (api_name display_name field_type max_length required lookup choices : pyval)
  : result ZohoField.t :=
  match validate_str api_name, validate_str display_name,
        validate_str field_type,
        validate_optional validate_int max_length,
        validate_bool required,
        validate_optional validate_dict lookup,
        validate_optional validate_list_str choices with
  | Some a, Some d, Some t, Some m, Some r, Some l, Some c =>
      Ok {| ZohoField.api_name := a; ZohoField.display_name := d;
            ZohoField.field_type := t; ZohoField.max_length := m;
            ZohoField.required := r; ZohoField.lookup := l;
            ZohoField.choices := c |}
  | _, _, _, _, _, _, _ => Raise ValidationError
  end.

(** [datetime.now()] *)
Definition datetime_now : M Z :=
  fun st => (Ok (now E (clock_reads st)), tick st).

(** [ZohoForm(link_name=.., display_name=.., fields=.., access_type=..)];
    [last_modified] takes its default, a reading of the clock. *)
Definition new_ZohoForm (link_name display_name : pyval)
  (fields : list ZohoField.t) (access_type : pyval) : M ZohoForm.t :=
  t <- datetime_now ;;
  match validate_str link_name, validate_str display_name,
        validate_str access_type with
  | Some l, Some d, Some a =>
      ret {| ZohoForm.link_name := l; ZohoForm.display_name := d;
             ZohoForm.fields := fields; ZohoForm.access_type := a;
             ZohoForm.last_modified := t |}
  | _, _, _ => raise ValidationError
  end.

(** [ZohoRecord(id=.., form_link_name=.., created_time=.., modified_time=..,
    data=..)] *)
Definition new_ZohoRecord (id : pyval) (form_link_name : string)
  (created_time modified_time : datetime) (data : pyval) : result ZohoRecord.t :=
  match validate_str id, validate_dict data with
  | Some i, Some d =>
      Ok {| ZohoRecord.id := i; ZohoRecord.form_link_name := form_link_name;
            ZohoRecord.created_time := created_time;
            ZohoRecord.modified_time := modified_time;
            ZohoRecord.data := d |}
  | _, _ => Raise ValidationError
  end.

(** [datetime.fromisoformat(v.replace('Z', '+00:00'))] *)
Definition parse_timestamp (v : pyval) : result datetime :=
  match v with
  | PStr s =>
      match fromisoformat L (replace "Z" "+00:00" s) with
      | Some d => Ok d
      | None => Raise (ValueError "Invalid isoformat string")
      end
  | _ => Raise AttributeError
  end.

(** The text an f-string inserts for [v]. *)
Definition fstr (v : pyval) : string :=
  match v with
  | PStr s => s
  | _ => format_value L v
  end.

(** ** service.py *)

(** [await self.auth.get_authorized_headers()] *)
Definition auth_get_authorized_headers : M (dict string) :=
  fun st => (get_authorized_headers E (exchanges st), st).

(** [await client.get(..)], [client.post(..)], [client.patch(..)]: a closed
    client refuses to send; otherwise the request goes out and the client
    counts as opened. *)
Definition client_send (rq : request) : M response :=
  fun st =>
    match _client st with
    | CLOSED =>
        (Raise (RuntimeError "Cannot send a request, as the client has been closed."), st)
    | _ =>
        let rp := upstream E (exchanges st) rq in
        (rp, {| cache := cache st; _client := OPENED;
                clock_reads := clock_reads st;
                exchanges := exchanges st ++ [(rq, rp)] |})
    end.

(** [self.cache.needs_refresh()] *)
Definition cache_needs_refresh : M bool :=
  fun st =>
    match Cache.last_refresh (cache st) with
    | None => (Ok true, st)
    | Some _ =>
        (Ok (Cache.needs_refresh (cache st) (now E (clock_reads st))), tick st)
    end.

(** [self.cache.update_forms(forms)] *)
Definition cache_update_forms (forms : list ZohoForm.t) : M unit :=
  fun st =>
    (Ok tt,
     tick (with_cache st
             (Cache.update_forms (cache st) forms (now E (clock_reads st))))).

Definition _get_form_fields (form_link_name : pyval) (hdrs : dict string)
  : M (list ZohoField.t) :=
  let rq := {| method := GET;
               url := base_url E ++ "/forms/" ++ fstr form_link_name ++ "/fields";
               headers := hdrs; params := []; json := None |} in
  async_with_client (
    response <- client_send rq ;;
    _ <- raise_for_status rq response ;;
    data <- response_json response ;;
    fields_json <- lift (getitem data "fields") ;;
    items <- lift (py_iter fields_json) ;;
    for_each items (fun field =>
      api_name <- lift (getitem field "api_name") ;;
      display_name <- lift (getitem field "display_name") ;;
      field_type <- lift (getitem field "type") ;;
      max_length <- lift (py_get field "max_length" PNone) ;;
      required <- lift (py_get field "required" (PBool false)) ;;
      lookup <- lift (py_get field "lookup" PNone) ;;
      choices <- lift (py_get field "choices" PNone) ;;
      lift (new_ZohoField api_name display_name field_type max_length
              required lookup choices))).

Definition list_forms (force_refresh : bool) : M (list ZohoForm.t) :=
  (* not force_refresh and not self.cache.needs_refresh(), left to right *)
  refresh <- (if force_refresh then ret true else cache_needs_refresh) ;;
  if negb refresh then
    fun st => (Ok (dict_values (Cache.forms (cache st))), st)
  else
    hdrs <- auth_get_authorized_headers ;;
    let rq := {| method := GET; url := base_url E ++ "/forms";
                 headers := hdrs; params := []; json := None |} in
    async_with_client (
      response <- client_send rq ;;
      _ <- raise_for_status rq response ;;
      data <- response_json response ;;
      forms_json <- lift (getitem data "forms") ;;
      items <- lift (py_iter forms_json) ;;
      forms <- for_each items (fun form_data =>
        link <- lift (getitem form_data "link_name") ;;
        fields <- _get_form_fields link hdrs ;;
        link_name <- lift (getitem form_data "link_name") ;;
        display_name <- lift (getitem form_data "display_name") ;;
        access_type <- lift (py_get form_data "access_type" (PStr "read")) ;;
        new_ZohoForm link_name display_name fields access_type) ;;
      _ <- cache_update_forms forms ;;
      ret forms).

(** Python truthiness of the two optional arguments of [get_records]. *)
Definition truthy_str (o : option string) : bool :=
  match o with
  | Some s => nonempty s
  | None => false
  end.

Definition truthy_int (o : option Z) : bool :=
  match o with
  | Some n => negb (n =? 0)%Z
  | None => false
  end.

(** The [params] dict [get_records] builds:
    [if criteria: params['criteria'] = criteria] and
    [if limit: params['limit'] = limit]. *)
Definition get_records_params (criteria : option string) (limit : option Z)
  : dict pyval :=
  let params := [] in
  let params :=
    match criteria with
    | Some c => if truthy_str criteria
                then dict_set params "criteria" (PStr c) else params
    | None => params
    end in
  match limit with
  | Some n => if truthy_int limit
              then dict_set params "limit" (PInt n) else params
  | None => params
  end.

Definition get_records (form_link_name : string) (criteria : option string)
  (limit : option Z) : M (list ZohoRecord.t) :=
  hdrs <- auth_get_authorized_headers ;;
  let rq := {| method := GET;
               url := base_url E ++ "/forms/" ++ form_link_name ++ "/records";
               headers := hdrs;
               params := get_records_params criteria limit;
               json := None |} in
  async_with_client (
    response <- client_send rq ;;
    _ <- raise_for_status rq response ;;
    data <- response_json response ;;
    records_json <- lift (getitem data "records") ;;
    items <- lift (py_iter records_json) ;;
    for_each items (fun record =>
      id <- lift (getitem record "ID") ;;
      created_raw <- lift (getitem record "Created_Time") ;;
      created_time <- lift (parse_timestamp created_raw) ;;
      modified_raw <- lift (getitem record "Modified_Time") ;;
      modified_time <- lift (parse_timestamp modified_raw) ;;
      lift (new_ZohoRecord id form_link_name created_time modified_time record))).

Definition get_record (form_link_name record_id : string) : M ZohoRecord.t :=
  hdrs <- auth_get_authorized_headers ;;
  let rq := {| method := GET;
               url := base_url E ++ "/forms/" ++ form_link_name
                        ++ "/records/" ++ record_id;
               headers := hdrs; params := []; json := None |} in
  async_with_client (
    response <- client_send rq ;;
    _ <- raise_for_status rq response ;;
    result <- response_json response ;;
    record <- lift (getitem result "record") ;;
    created_raw <- lift (getitem record "Created_Time") ;;
    created_time <- lift (parse_timestamp created_raw) ;;
    record' <- lift (getitem result "record") ;;
    modified_raw <- lift (getitem record' "Modified_Time") ;;
    modified_time <- lift (parse_timestamp modified_raw) ;;
    data <- lift (getitem result "record") ;;
    lift (new_ZohoRecord (PStr record_id) form_link_name
            created_time modified_time data)).

Definition create_record (form_link_name : string) (data : dict pyval)
  : M ZohoRecord.t :=
  hdrs <- auth_get_authorized_headers ;;
  let rq := {| method := POST;
               url := base_url E ++ "/forms/" ++ form_link_name ++ "/records";
               headers := hdrs; params := [];
               json := Some (PDict [("data", PDict data)]) |} in
  async_with_client (
    response <- client_send rq ;;
    _ <- raise_for_status rq response ;;
    result <- response_json response ;;
    record <- lift (getitem result "record") ;;
    id <- lift (getitem record "ID") ;;
    record1 <- lift (getitem result "record") ;;
    created_raw <- lift (getitem record1 "Created_Time") ;;
    created_time <- lift (parse_timestamp created_raw) ;;
    record2 <- lift (getitem result "record") ;;
    modified_raw <- lift (getitem record2 "Modified_Time") ;;
    modified_time <- lift (parse_timestamp modified_raw) ;;
    lift (new_ZohoRecord id form_link_name created_time modified_time
            (PDict data))).

Definition update_record (form_link_name record_id : string)
  (data : dict pyval) : M ZohoRecord.t :=
  hdrs <- auth_get_authorized_headers ;;
  let rq := {| method := PATCH;
               url := base_url E ++ "/forms/" ++ form_link_name
                        ++ "/records/" ++ record_id;
               headers := hdrs; params := [];
               json := Some (PDict [("data", PDict data)]) |} in
  async_with_client (
    response <- client_send rq ;;
    _ <- raise_for_status rq response ;;
    result <- response_json response ;;
    record <- lift (getitem result "record") ;;
    created_raw <- lift (getitem record "Created_Time") ;;
    created_time <- lift (parse_timestamp created_raw) ;;
    record' <- lift (getitem result "record") ;;
    modified_raw <- lift (getitem record' "Modified_Time") ;;
    modified_time <- lift (parse_timestamp modified_raw) ;;
    lift (new_ZohoRecord (PStr record_id) form_link_name
            created_time modified_time (PDict data))).

(** [close] *)
Definition close : M unit := aclose.

End Service.

(** ** urllib.parse.urlparse (CPython 3.12)

    The handler reads [scheme], [netloc] and [path].  For a scheme outside
    [uses_params], the only kind the handler lets through, [urlparse] is
    [urlsplit] with empty [params]; the split of [params] is left out. *)

Record ParseResult : Type := {
  scheme : string;
  netloc : string;
  path : string;
  query : string;
  fragment : string
}.

(** [_WHATWG_C0_CONTROL_OR_SPACE] *)
Definition is_c0_control_or_space (c : ascii) : bool :=
  (nat_of_ascii c <=? 32)%nat.

(** [_UNSAFE_URL_BYTES_TO_REMOVE]: tab, carriage return, line feed. *)
Definition is_unsafe_url_byte (c : ascii) : bool :=
  (nat_of_ascii c =? 9)%nat || (nat_of_ascii c =? 13)%nat
  || (nat_of_ascii c =? 10)%nat.

Definition is_ascii_alpha (c : ascii) : bool := is_lower c || is_upper c.

(** [scheme_chars] *)
Definition is_scheme_char (c : ascii) : bool :=
  is_ascii_alpha c || is_digit c
  || is_char "+" c || is_char "-" c || is_char "." c.

(** The scheme and what follows its colon:
    [i = url.find(':')], accepted when [i > 0], [url[0]] is an ASCII letter
    and every character of [url[:i]] is a scheme character. *)
Definition split_scheme (url : string) : string * string :=
  let (pre, rest) := break (is_char ":") url in
  match rest, pre with
  | String _ after, String c0 _ =>
      if is_ascii_alpha c0 && string_forallb is_scheme_char pre
      then (lower pre, after)
      else (EmptyString, url)
  | _, _ => (EmptyString, url)
  end.

Definition is_netloc_delim (c : ascii) : bool :=
  is_char "/" c || is_char "?" c || is_char "#" c.

(** [if url[:2] == '//': netloc, url = _splitnetloc(url, 2)] *)
Definition split_netloc (url : string) : string * string :=
  match url with
  | String "/" (String "/" rest) => break is_netloc_delim rest
  | _ => (EmptyString, url)
  end.

(** [url, tail = url.split(c, 1)] when [c] occurs in [url]. *)
Definition split_at (c : ascii) (url : string) : string * string :=
  let (pre, rest) := break (is_char c) url in
  match rest with
  | String _ tail => (pre, tail)
  | EmptyString => (pre, EmptyString)
  end.

Definition is_ascii_char (c : ascii) : bool := (nat_of_ascii c <? 128)%nat.

Section Router.
Variable L : Library.
Variable E : Env.

(** The checks [urlsplit] makes on the netloc. *)
Definition check_brackets (netloc : string) : result unit :=
  let opens := string_existsb (is_char "[") netloc in
  let closes := string_existsb (is_char "]") netloc in
  if (opens && negb closes) || (closes && negb opens)
  then Raise (ValueError "Invalid IPv6 URL")
  else if opens && closes then
    match check_bracketed_netloc L netloc with
    | Some _ => Ok tt
    | None => Raise (ValueError "Invalid IPv6 URL")
    end
  else Ok tt.

Definition checknetloc (netloc : string) : result unit :=
  if negb (nonempty netloc) || string_forallb is_ascii_char netloc then Ok tt
  else match checknetloc_nfkc L netloc with
       | Some _ => Ok tt
       | None => Raise (ValueError "netloc contains invalid characters under NFKC normalization")
       end.

Definition urlparse (url0 : string) : result ParseResult :=
  let url := remove_chars is_unsafe_url_byte (lstrip is_c0_control_or_space url0) in
  let (scheme, url) := split_scheme url in
  let (netloc, url) := split_netloc url in
  match check_brackets netloc with
  | Raise e => Raise e
  | Ok _ =>
      let (url, fragment) := split_at "#" url in
      let (url, query) := split_at "?" url in
      match checknetloc netloc with
      | Raise e => Raise e
      | Ok _ =>
          Ok {| scheme := scheme; netloc := netloc; path := url;
                query := query; fragment := fragment |}
      end
  end.

(** ** scaflog_zoho_mcp_server/server.py *)

(** What [service.list_reports()] returns; the method is not in
    [service.py], so the router takes it as a parameter. *)
Record ZohoReport : Type := {
  report_link_name : string;
  report_display_name : string
}.

Variable list_reports : M (list ZohoReport).

(** The value handed to [json.dumps] in each branch. *)
Inductive resource_json : Type :=
| FormsJson (entries : list (string * string * nat))
    (* link_name, display_name, field_count; "reports" is always [] since a
       ZohoForm has no such attribute *)
| ReportsJson (entries : list (string * string))
| FormJson (link_name display_name : string) (fields : list ZohoField.t)
| ReportJson (report_name : string) (records : list ZohoRecord.t).

Record TextResourceContents : Type := {
  uri : string;
  mimeType : string;
  text : resource_json
}.

(** [[part for part in full_path.split("/") if part]] *)
Definition path_parts_of (parsed : ParseResult) : list string :=
  let full_path := strip (is_char "/") (netloc parsed ++ path parsed) in
  filter nonempty (split "/" full_path).

(** [handle_read_resource]; [address] is [str(uri)].  The [except] clause
    logs and re-raises, so it does not show here. *)
Definition handle_read_resource (address : string) : M TextResourceContents :=
  parsed <- lift (urlparse address) ;;
  if negb (String.eqb (scheme parsed) "zoho") then
    raise (ValueError ("Unsupported URI scheme: " ++ scheme parsed))
  else
    let path_parts := path_parts_of parsed in
    match path_parts with
    | [] => raise (ValueError "Empty resource path")
    | resource_type :: rest =>
        if negb (nonempty resource_type) then
          raise (ValueError "Empty resource path")
        else if String.eqb resource_type "forms" then
          forms <- list_forms L E false ;;
          ret {| uri := address; mimeType := "application/json";
                 text := FormsJson
                           (map (fun form =>
                                   (ZohoForm.link_name form,
                                    ZohoForm.display_name form,
                                    length (ZohoForm.fields form))) forms) |}
        else if String.eqb resource_type "reports" then
          reports <- list_reports ;;
          ret {| uri := address; mimeType := "application/json";
                 text := ReportsJson
                           (map (fun report =>
                                   (report_link_name report,
                                    report_display_name report)) reports) |}
        else
          match rest with
          | [] =>
              raise (ValueError ("Missing link name for resource type: "
                                   ++ resource_type))
          | link_name :: rest' =>
              if String.eqb resource_type "form" then
                forms <- list_forms L E false ;;
                match find (fun f => String.eqb (ZohoForm.link_name f) link_name)
                           forms with
                | None => raise (ValueError ("Form not found: " ++ link_name))
                | Some form =>
                    ret {| uri := address; mimeType := "application/json";
                           text := FormJson (ZohoForm.link_name form)
                                     (ZohoForm.display_name form)
                                     (ZohoForm.fields form) |}
                end
              else if String.eqb resource_type "report" then
                let criteria :=
                  match rest' with
                  | part2 :: part3 :: _ =>
                      if String.eqb part2 "filter" then Some part3 else None
                  | _ => None
                  end in
                records <- get_records L E link_name criteria None ;;
                ret {| uri := address; mimeType := "application/json";
                       text := ReportJson link_name records |}
              else
                raise (ValueError ("Unknown resource type: " ++ resource_type))
          end
    end.

End Router.

(** ** Vocabulary of the statements *)

(** The state after [rq] went out and [rp] came back, with the client left
    in state [c]. *)
Definition after_send (st : State) (rq : request) (rp : result response)
  (c : ClientState) : State :=
  {| cache := cache st; _client := c; clock_reads := clock_reads st;
     exchanges := exchanges st ++ [(rq, rp)] |}.

(** [x] is one of the exchanges made between [st] and [st']. *)
Definition made_during (st st' : State) (x : exchange) : Prop :=
  exists new, exchanges st' = exchanges st ++ new /\ In x new.

(** Between [st] and [st'] exactly one request went out, [rq], and it was
    answered with a success status and the JSON value [v]. *)
Definition answered_with (st st' : State) (rq : request) (v : pyval) : Prop :=
  exists rp,
    exchanges st' = exchanges st ++ [(rq, Ok rp)] /\
    is_success (status_code rp) = true /\
    body rp = Some v.

(** The timestamps of [r] are what [fromisoformat] makes of the
    [Created_Time] and [Modified_Time] strings of the upstream record [raw]
    once every [Z] in them is replaced by [+00:00]. *)
Definition timestamps_normalized (L : Library) (raw : pyval) (r : ZohoRecord.t)
  : Prop :=
  exists s1 s2,
    getitem raw "Created_Time" = Ok (PStr s1) /\
    getitem raw "Modified_Time" = Ok (PStr s2) /\
    fromisoformat L (replace "Z" "+00:00" s1) = Some (ZohoRecord.created_time r) /\
    fromisoformat L (replace "Z" "+00:00" s2) = Some (ZohoRecord.modified_time r).

(** The HTTP status and the endpoint an exception carries, if any:
    [HTTPStatusError] has [response.status_code] and [request.url], the
    endpoint followed by the query parameters of the request;
    [RequestError] has [request.url]. *)
Definition exn_status (e : exn) : option Z :=
  match e with
  | HTTPStatusError _ _ s => Some s
  | _ => None
  end.

Definition exn_endpoint (e : exn) : option string :=
  match e with
  | HTTPStatusError u _ _ => Some u
  | RequestError u => Some u
  | _ => None
  end.

Definition already_open : exn :=
  RuntimeError "Cannot open a client instance more than once.".

Definition already_closed : exn :=
  RuntimeError "Cannot reopen a client instance, once it has been closed.".

(** The first line of [list_forms]: whether to refresh, and the state after
    the clock reading that decision may take. *)
Definition decide_refresh (E : Env) (force : bool) (st : State) : bool * State :=
  if force then (true, st)
  else match Cache.last_refresh (cache st) with
       | None => (true, st)
       | Some _ =>
           (Cache.needs_refresh (cache st) (now E (clock_reads st)), tick st)
       end.

(** The requests of [list_forms], [_get_form_fields] and [get_records]. *)
Definition forms_rq (E : Env) (hdrs : dict string) : request :=
  {| method := GET; url := base_url E ++ "/forms";
     headers := hdrs; params := []; json := None |}.

Definition fields_rq (L : Library) (E : Env) (link : pyval) (hdrs : dict string)
  : request :=
  {| method := GET;
     url := base_url E ++ "/forms/" ++ fstr L link ++ "/fields";
     headers := hdrs; params := []; json := None |}.

Definition get_records_rq (E : Env) (hdrs : dict string) (form : string)
  (criteria : option string) (limit : option Z) : request :=
  {| method := GET;
     url := base_url E ++ "/forms/" ++ form ++ "/records";
     headers := hdrs;
     params := get_records_params criteria limit;
     json := None |}.

(** The bodies of the three loops, named. *)
Definition field_of_item (L : Library) (field : pyval) : M ZohoField.t :=
  api_name <- lift (getitem field "api_name") ;;
  display_name <- lift (getitem field "display_name") ;;
  field_type <- lift (getitem field "type") ;;
  max_length <- lift (py_get field "max_length" PNone) ;;
  required <- lift (py_get field "required" (PBool false)) ;;
  lookup <- lift (py_get field "lookup" PNone) ;;
  choices <- lift (py_get field "choices" PNone) ;;
  lift (new_ZohoField L api_name display_name field_type max_length
          required lookup choices).

Definition form_of_item (L : Library) (E : Env) (hdrs : dict string)
  (form_data : pyval) : M ZohoForm.t :=
  link <- lift (getitem form_data "link_name") ;;
  fields <- _get_form_fields L E link hdrs ;;
  link_name <- lift (getitem form_data "link_name") ;;
  display_name <- lift (getitem form_data "display_name") ;;
  access_type <- lift (py_get form_data "access_type" (PStr "read")) ;;
  new_ZohoForm E link_name display_name fields access_type.

Definition record_of_item (L : Library) (form : string) (record : pyval)
  : M ZohoRecord.t :=
  id <- lift (getitem record "ID") ;;
  created_raw <- lift (getitem record "Created_Time") ;;
  created_time <- lift (parse_timestamp L created_raw) ;;
  modified_raw <- lift (getitem record "Modified_Time") ;;
  modified_time <- lift (parse_timestamp L modified_raw) ;;
  lift (new_ZohoRecord id form created_time modified_time record).

(** The error kinds of the router, read off the message of the
    [ValueError] it raises. *)
Inductive RouterError : Type :=
| UnsupportedScheme
| EmptyPath
| MissingLinkName
| NotFound
| UnknownResourceType.

Definition router_error_of (e : exn) : option RouterError :=
  match e with
  | ValueError msg =>
      if prefix "Unsupported URI scheme: " msg then Some UnsupportedScheme
      else if String.eqb msg "Empty resource path" then Some EmptyPath
      else if prefix "Missing link name for resource type: " msg
      then Some MissingLinkName
      else if prefix "Form not found: " msg then Some NotFound
      else if prefix "Unknown resource type: " msg
      then Some UnknownResourceType
      else None
  | _ => None
  end.

(** A path segment of an address: not empty, and free of the characters
    that end the path ([/], [?], [#]) or that [urlsplit] removes (tab, CR,
    LF). *)
Definition is_segment (s : string) : bool :=
  nonempty s
  && string_forallb (fun c => negb (is_netloc_delim c || is_unsafe_url_byte c)) s.

Definition url_clean (s : string) : bool :=
  string_forallb
    (fun c => negb (is_char "?" c || is_char "#" c || is_unsafe_url_byte c)) s.

(** Segments written one after the other with [/] between them. *)
Fixpoint join_slash (segs : list string) : string :=
  match segs with
  | [] => EmptyString
  | [s] => s
  | s :: rest => s ++ "/" ++ join_slash rest
  end.

(** The criteria the [report] branch takes from the parts after the link
    name: [path_parts[3]] when there are more than three parts and
    [path_parts[2] == "filter"]. *)
Definition criteria_of (rest : list string) : option string :=
  match rest with
  | part2 :: part3 :: _ => if String.eqb part2 "filter" then Some part3 else None
  | _ => None
  end.

Definition report_contents (address link : string) (records : list ZohoRecord.t)
  : TextResourceContents :=
  {| uri := address; mimeType := "application/json";
     text := ReportJson link records |}.

(** ** Scenarios

    A library instance and a few upstream services to run the model on.  The
    instance agrees with the real libraries on what the scenarios feed them:
    timestamps in the shape [YYYY-MM-DDTHH:MM:SS] with an optional
    [+HH:MM] or [-HH:MM], values of the declared types, string link names
    and URLs without brackets or non-ASCII hosts. *)

Definition digit_value (c : ascii) : option Z :=
  if is_digit c then Some (Z.of_nat (nat_of_ascii c - 48)) else None.

Fixpoint digits_value (acc : Z) (s : string) : option Z :=
  match s with
  | EmptyString => Some acc
  | String c s' =>
      match digit_value c with
      | Some d => digits_value (acc * 10 + d) s'
      | None => None
      end
  end.

(** The number written by the [n] digits of [s] at position [i]. *)
Definition number_at (i n : nat) (s : string) : option Z :=
  let w := substring i n s in
  if (String.length w =? n)%nat then digits_value 0 w else None.

Definition char_at (i : nat) (c : ascii) (s : string) : bool :=
  match String.get i s with
  | Some c' => Ascii.eqb c c'
  | None => false
  end.

Definition is_leap (y : Z) : bool :=
  ((y mod 4 =? 0) && (negb (y mod 100 =? 0) || (y mod 400 =? 0)))%Z.

Definition days_in_month (y m : Z) : Z :=
  if (m =? 2)%Z then (if is_leap y then 29 else 28)%Z
  else if ((m =? 4) || (m =? 6) || (m =? 9) || (m =? 11))%Z then 30%Z
  else 31%Z.

Definition parse_offset (s : string) : option (option Z) :=
  if (String.length s =? 19)%nat then Some None
  else if (String.length s =? 25)%nat && char_at 22 ":" s then
    match number_at 20 2 s, number_at 23 2 s with
    | Some hh, Some mm =>
        if ((hh <? 24) && (mm <? 60))%Z then
          if char_at 19 "+" s then Some (Some (hh * 3600 + mm * 60)%Z)
          else if char_at 19 "-" s then Some (Some (- (hh * 3600 + mm * 60))%Z)
          else None
        else None
    | _, _ => None
    end
  else None.

Definition fromisoformat_basic (s : string) : option datetime :=
  match number_at 0 4 s, number_at 5 2 s, number_at 8 2 s,
        number_at 11 2 s, number_at 14 2 s, number_at 17 2 s,
        parse_offset s with
  | Some y, Some mo, Some d, Some h, Some mi, Some sec, Some off =>
      if char_at 4 "-" s && char_at 7 "-" s && char_at 10 "T" s
         && char_at 13 ":" s && char_at 16 ":" s
         && ((1 <=? y) && (1 <=? mo) && (mo <=? 12) && (1 <=? d)
             && (d <=? days_in_month y mo)
             && (h <? 24) && (mi <? 60) && (sec <? 60))%Z
      then Some {| year := y; month := mo; day := d;
                   hour := h; minute := mi; second := sec; microsecond := 0;
                   utcoffset := off |}
      else None
  | _, _, _, _, _, _, _ => None
  end.

Definition lib0 : Library :=
  {| fromisoformat := fromisoformat_basic;
     lax_int := fun _ => None;
     lax_bool := fun _ => None;
     format_value := fun _ => EmptyString;
     check_bracketed_netloc := fun _ => None;
     checknetloc_nfkc := fun _ => Some tt |}.

Definition base0 : string := "https://creator.example/api/v2".

Definition headers0 : dict string :=
  [("Authorization", "Bearer test_token"); ("Content-Type", "application/json")].

Definition ok_json (v : pyval) : result response :=
  Ok {| status_code := 200; body := Some v |}.

Definition forms_body0 : pyval :=
  PDict [("forms",
          PList [PDict [("link_name", PStr "test_form");
                        ("display_name", PStr "Test Form");
                        ("access_type", PStr "read")];
                 PDict [("link_name", PStr "orders");
                        ("display_name", PStr "Orders")]])].

Definition fields_body0 : pyval :=
  PDict [("fields",
          PList [PDict [("api_name", PStr "test_field");
                        ("display_name", PStr "Test Field");
                        ("type", PStr "text");
                        ("required", PBool true)]])].

Definition record0 : dict pyval :=
  [("ID", PStr "123");
   ("Created_Time", PStr "2024-01-01T00:00:00Z");
   ("Modified_Time", PStr "2024-01-02T08:30:00Z");
   ("test_field", PStr "test_value")].

(** What upstream answers to a PATCH: the timestamps of the record, and no
    [ID]. *)
Definition patched0 : dict pyval :=
  [("Created_Time", PStr "2024-01-01T00:00:00Z");
   ("Modified_Time", PStr "2024-03-05T12:00:00Z")].

(** A healthy upstream with two forms and one record. *)
Definition upstream0 (_ : list exchange) (rq : request) : result response :=
  match method rq with
  | GET =>
      if String.eqb (url rq) (base0 ++ "/forms") then ok_json forms_body0
      else if String.eqb (url rq) (base0 ++ "/forms/test_form/fields")
              || String.eqb (url rq) (base0 ++ "/forms/orders/fields")
      then ok_json fields_body0
      else if String.eqb (url rq) (base0 ++ "/forms/test_form/records")
      then ok_json (PDict [("records", PList [PDict record0])])
      else if String.eqb (url rq) (base0 ++ "/forms/test_form/records/123")
      then ok_json (PDict [("record", PDict record0)])
      else Ok {| status_code := 404; body := None |}
  | POST =>
      if String.eqb (url rq) (base0 ++ "/forms/test_form/records")
      then ok_json (PDict [("record", PDict record0)])
      else Ok {| status_code := 404; body := None |}
  | PATCH =>
      if String.eqb (url rq) (base0 ++ "/forms/test_form/records/123")
      then ok_json (PDict [("record", PDict patched0)])
      else Ok {| status_code := 404; body := None |}
  end.

Definition env_of (up : list exchange -> request -> result response) : Env :=
  {| base_url := base0;
     now := fun n => (Z.of_nat n * 1000000)%Z;
     get_authorized_headers := fun _ => Ok headers0;
     upstream := up |}.

Definition env0 : Env := env_of upstream0.

(** An upstream with no forms at all. *)
Definition env_empty : Env :=
  env_of (fun _ _ => ok_json (PDict [("forms", PList [])])).

(** An upstream that is down. *)
Definition env_503 : Env :=
  env_of (fun _ _ => Ok {| status_code := 503; body := None |}).

(** An upstream that answers 200 with a body that is not JSON. *)
Definition env_not_json : Env :=
  env_of (fun _ _ => Ok {| status_code := 200; body := None |}).

(** An upstream whose forms collection answers 200 with an object that has
    no [forms] member. *)
Definition malformed_body0 : pyval := PDict [("error", PStr "maintenance")].

Definition env_malformed : Env :=
  env_of (fun _ _ => ok_json malformed_body0).

(** The router's [list_reports] in the scenarios: [service.py] has no such
    method, so the attribute lookup fails. *)
Definition list_reports0 : M (list ZohoReport) := raise AttributeError.

Definition forms_rq0 : request :=
  {| method := GET; url := base0 ++ "/forms"; headers := headers0;
     params := []; json := None |}.


Definition form_named (name : string) : ZohoForm.t :=
  {| ZohoForm.link_name := name; ZohoForm.display_name := name;
     ZohoForm.fields := []; ZohoForm.access_type := "read";
     ZohoForm.last_modified := 0 |}.

(** The double quote character, and the criteria [Status=="Open"] of the
    specification's scenario. *)
Definition dquote : ascii := ascii_of_nat 34.

Definition status_open : string :=
  "Status==" ++ String dquote ("Open" ++ String dquote EmptyString).

Definition new_data0 : dict pyval := [("test_field", PStr "new_value")].

Definition updated_data0 : dict pyval := [("test_field", PStr "updated_value")].

Definition fields_rq0 : request :=
  {| method := GET; url := base0 ++ "/forms/test_form/fields";
     headers := headers0; params := []; json := None |}.

(** ** src/server.py: the earlier server

    Its [handle_read_resource] reads the path of the address only, and
    indexes the parts without a length check, so it can raise [IndexError]
    besides the exceptions of [exn]. *)

Module LegacyServer.

Inductive raised : Type :=
| Exn (e : exn)
| IndexError.

Inductive outcome (A : Type) : Type :=
| Returned (a : A)
| Raised (r : raised).
Arguments Returned {A} a.
Arguments Raised {A} r.

(** What a method of the service gives, seen from a handler. *)
Definition of_result {A} (r : result A) : outcome A :=
  match r with
  | Ok a => Returned a
  | Raise e => Raised (Exn e)
  end.

(** The one payload [handle_read_resource] builds: the value handed to
    [json.dumps] for the list of forms, an entry of link name, display name
    and field count per form. *)
Record FormsContents : Type := {
  uri : string;
  mimeType : string;
  text : list (string * string * nat)
}.

(** The payload of the [create-record] tool; [created_time] is the value
    [str] is applied to. *)
Record RecordCreated : Type := {
  message : string;
  record_id : string;
  created_time : datetime
}.

Section Handlers.
Variable L : Library.
Variable E : Env.

(** [parsed.path.strip("/").split("/")] *)
Definition path_parts_of (parsed : ParseResult) : list string :=
  split "/" (strip (is_char "/") (path parsed)).

(** [handle_read_resource]; [address] is [str(uri)]. *)
Definition handle_read_resource (address : string) (st : State)
  : outcome FormsContents * State :=
  match urlparse L address with
  | Raise e => (Raised (Exn e), st)
  | Ok parsed =>
      if negb (String.eqb (scheme parsed) "zoho") then
        (Raised (Exn (ValueError ("Unsupported URI scheme: " ++ scheme parsed))),
         st)
      else
        match path_parts_of parsed with
        | [] => (Raised IndexError, st)            (* path_parts[0] *)
        | part0 :: rest =>
            if negb (String.eqb part0 "forms") then
              (Raised (Exn (ValueError ("Unknown resource type: " ++ part0))), st)
            else
              match rest with
              | [] =>
                  (* len(path_parts) == 1 *)
                  match list_forms L E false st with
                  | (Raise e, st1) => (Raised (Exn e), st1)
                  | (Ok forms, st1) =>
                      (Returned
                         {| uri := address; mimeType := "application/json";
                            text := map (fun form =>
                                           (ZohoForm.link_name form,
                                            ZohoForm.display_name form,
                                            length (ZohoForm.fields form)))
                                        forms |}, st1)
                  end
              | form_link_name :: rest' =>
                  match list_forms L E false st with
                  | (Raise e, st1) => (Raised (Exn e), st1)
                  | (Ok [], st1) =>
                      (* if not form *)
                      (Raised (Exn (ValueError ("Form not found: "
                                                  ++ form_link_name))), st1)
                  | (Ok (_ :: _), st1) =>
                      let criteria :=
                        match rest' with
                        | part2 :: rest'' =>
                            if String.eqb part2 "filter" then
                              match rest'' with
                              | part3 :: _ => Returned (Some part3)
                              | [] => Raised IndexError    (* path_parts[3] *)
                              end
                            else Returned None
                        | [] => Returned None
                        end in
                      match criteria with
                      | Raised r => (Raised r, st1)
                      | Returned criteria =>
                          match get_records L E form_link_name criteria None st1 with
                          | (Raise e, st2) => (Raised (Exn e), st2)
                          | (Ok _, st2) =>
                              (* form.display_name: form is a list *)
                              (Raised (Exn AttributeError), st2)
                          end
                      end
                  end
              end
        end
  end.

(** [create_record] as Python runs it on arguments of any type: the
    annotations [str] and [Dict] are not checked at the call, the model
    constructor validates [form_link_name] and [data] at the end. *)
Definition create_record_dyn (form_link_name data : pyval) : M ZohoRecord.t :=
  hdrs <- auth_get_authorized_headers E ;;
  let rq := {| method := POST;
               url := base_url E ++ "/forms/" ++ fstr L form_link_name
                        ++ "/records";
               headers := hdrs; params := [];
               json := Some (PDict [("data", data)]) |} in
  async_with_client (
    response <- client_send E rq ;;
    _ <- raise_for_status rq response ;;
    result <- response_json response ;;
    record <- lift (getitem result "record") ;;
    id <- lift (getitem record "ID") ;;
    record1 <- lift (getitem result "record") ;;
    created_raw <- lift (getitem record1 "Created_Time") ;;
    created_time <- lift (parse_timestamp L created_raw) ;;
    record2 <- lift (getitem result "record") ;;
    modified_raw <- lift (getitem record2 "Modified_Time") ;;
    modified_time <- lift (parse_timestamp L modified_raw) ;;
    match validate_str form_link_name with
    | Some form => lift (new_ZohoRecord id form created_time modified_time data)
    | None => raise ValidationError
    end).

(** [handle_call_tool] *)
Definition handle_call_tool (name : string) (arguments : dict pyval)
  : M (list RecordCreated) :=
  if String.eqb name "create-record" then
    form_name <- lift (getitem (PDict arguments) "form_name") ;;
    data <- lift (getitem (PDict arguments) "data") ;;
    record <- create_record_dyn form_name data ;;
    ret [{| message := "Record created successfully";
            record_id := ZohoRecord.id record;
            created_time := ZohoRecord.created_time record |}]
  else
    raise (ValueError ("Unknown tool: " ++ name)).

End Handlers.
End LegacyServer.

(** ** More vocabulary *)

(** [item] converts to the record [r] of form [form]: an object with a
    string [ID] and two timestamps that parse, kept whole as the data. *)
Definition converts (L : Library) (form : string) (item : pyval)
  (r : ZohoRecord.t) : Prop :=
  getitem item "ID" = Ok (PStr (ZohoRecord.id r)) /\
  item = PDict (ZohoRecord.data r) /\
  ZohoRecord.form_link_name r = form /\
  timestamps_normalized L item r.

(** A host of an address that [urlsplit] takes as it is: ASCII, without
    delimiters, brackets or removed characters. *)
Definition is_plain_host (s : string) : bool :=
  string_forallb
    (fun c => is_ascii_char c
              && negb (is_netloc_delim c || is_unsafe_url_byte c
                       || is_char "[" c || is_char "]" c)) s.

Definition no_unsafe_bytes (s : string) : bool :=
  string_forallb (fun c => negb (is_unsafe_url_byte c)) s.

(** The non-empty parts of a path. *)
Definition parts (s : string) : list string :=
  filter nonempty (split "/" s).

(** The requests of [get_record], [create_record] and [update_record]. *)
Definition get_record_rq (E : Env) (hdrs : dict string) (form rid : string)
  : request :=
  {| method := GET;
     url := base_url E ++ "/forms/" ++ form ++ "/records/" ++ rid;
     headers := hdrs; params := []; json := None |}.

Definition create_record_rq (E : Env) (hdrs : dict string) (form : string)
  (data : dict pyval) : request :=
  {| method := POST;
     url := base_url E ++ "/forms/" ++ form ++ "/records";
     headers := hdrs; params := [];
     json := Some (PDict [("data", PDict data)]) |}.

Definition update_record_rq (E : Env) (hdrs : dict string) (form rid : string)
  (data : dict pyval) : request :=
  {| method := PATCH;
     url := base_url E ++ "/forms/" ++ form ++ "/records/" ++ rid;
     headers := hdrs; params := [];
     json := Some (PDict [("data", PDict data)]) |}.

(** The exception a reply makes the client raise before its body is read:
    the transport's own, or the status error of [raise_for_status]. *)
Definition failure_of (rq : request) (reply : result response) : option exn :=
  match reply with
  | Raise e => Some e
  | Ok rp =>
      if is_success (status_code rp) then None
      else Some (HTTPStatusError (url rq) (params rq) (status_code rp))
  end.

Definition keys_of {V} (d : dict V) : list string := map fst d.

(** One step of the comprehension of [update_forms]. *)
Definition file_form (d : dict ZohoForm.t) (form : ZohoForm.t) : dict ZohoForm.t :=
  dict_set d (ZohoForm.link_name form) form.

(** [item] is the JSON of the field [f] with its optional members left
    out, but for [required], which may be given as a JSON boolean. *)
Definition is_field_json (item : pyval) (f : ZohoField.t) : Prop :=
  exists d,
    item = PDict d /\
    dict_get d "api_name" = Some (PStr (ZohoField.api_name f)) /\
    dict_get d "display_name" = Some (PStr (ZohoField.display_name f)) /\
    dict_get d "type" = Some (PStr (ZohoField.field_type f)) /\
    (dict_get d "required" = Some (PBool (ZohoField.required f)) \/
     (dict_get d "required" = None /\ ZohoField.required f = false)) /\
    dict_get d "max_length" = None /\ ZohoField.max_length f = None /\
    dict_get d "lookup" = None /\ ZohoField.lookup f = None /\
    dict_get d "choices" = None /\ ZohoField.choices f = None.

(** ** More scenarios *)

(** The auth collaborator cannot produce headers. *)
Definition env_auth_down : Env :=
  {| base_url := base0;
     now := fun n => (Z.of_nat n * 1000000)%Z;
     get_authorized_headers := fun _ => Raise AuthError;
     upstream := upstream0 |}.

(** The upstream cannot be reached. *)
Definition env_unreachable : Env :=
  env_of (fun _ rq => Raise (RequestError (url rq))).

(** An upstream whose [forms] member is an empty string. *)
Definition env_forms_empty_string : Env :=
  env_of (fun _ _ => ok_json (PDict [("forms", PStr EmptyString)])).

(** An upstream whose second record has no [ID]. *)
Definition env_record_without_id : Env :=
  env_of (fun _ _ =>
            ok_json (PDict [("records",
                             PList [PDict record0; PDict patched0])])).

(** A service whose cache holds the given forms as of clock reading [0],
    and whose client is closed. *)
Definition cached_service (fs : list ZohoForm.t) : State :=
  {| cache := Cache.update_forms (Cache.init 300) fs 0;
     _client := CLOSED; clock_reads := 1; exchanges := [] |}.

Definition orders_form : ZohoForm.t :=
  {| ZohoForm.link_name := "orders"; ZohoForm.display_name := "Orders";
     ZohoForm.fields := []; ZohoForm.access_type := "read";
     ZohoForm.last_modified := 0 |}.


Definition record0_converted : ZohoRecord.t :=
  {| ZohoRecord.id := "123"; ZohoRecord.form_link_name := "test_form";
            ZohoRecord.created_time :=
              {| year := 2024; month := 1; day := 1; hour := 0; minute := 0;
                 second := 0; microsecond := 0; utcoffset := Some 0%Z |};
            ZohoRecord.modified_time :=
              {| year := 2024; month := 1; day := 2; hour := 8; minute := 30;
                 second := 0; microsecond := 0; utcoffset := Some 0%Z |};
            ZohoRecord.data := record0 |}.

(** The calls of the service that go to the network, and what a call leaves
    behind: the exception it raised, if any, and the state. *)
Inductive call : Type :=
| GetRecords (form : string) (criteria : option string) (limit : option Z)
| GetRecord (form rid : string)
| CreateRecord (form : string) (data : dict pyval)
| UpdateRecord (form rid : string) (data : dict pyval)
| RefreshForms.

Definition raised_by {A} (r : result A * State) : option exn * State :=
  match r with
  | (Ok _, st) => (None, st)
  | (Raise e, st) => (Some e, st)
  end.

Definition run_call (L : Library) (E : Env) (c : call) (st : State)
  : option exn * State :=
  match c with
  | GetRecords form criteria limit =>
      raised_by (get_records L E form criteria limit st)
  | GetRecord form rid => raised_by (get_record L E form rid st)
  | CreateRecord form data => raised_by (create_record L E form data st)
  | UpdateRecord form rid data =>
      raised_by (update_record L E form rid data st)
  | RefreshForms => raised_by (list_forms L E true st)
  end.

(** Two outcomes of the router that differ at most in the [uri] they
    echo. *)
Definition same_answer (r1 r2 : result TextResourceContents * State) : Prop :=
  snd r1 = snd r2 /\
  match fst r1, fst r2 with
  | Ok a, Ok b => mimeType a = mimeType b /\ text a = text b
  | Raise e1, Raise e2 => e1 = e2
  | _, _ => False
  end.

(** The ways to write a [zoho] address with given segments: the scheme in
    any case, up to three slashes after the colon, a slash or none after
    the last segment, and then nothing, a query or a fragment. *)
Definition is_zoho_scheme (sch : string) : bool := String.eqb (lower sch) "zoho".

Definition is_lead (s : string) : bool :=
  existsb (String.eqb s) [""; "/"; "//"; "///"].

Definition is_trail (s : string) : bool := existsb (String.eqb s) [""; "/"].

Definition is_suffix (s : string) : bool :=
  match s with
  | EmptyString => true
  | String c _ => is_char "?" c || is_char "#" c
  end.

Definition spelled (sch lead : string) (segs : list string)
  (trail suffix : string) : string :=
  sch ++ ":" ++ lead ++ join_slash segs ++ trail ++ suffix.

(** The states a service reaches from its construction by calls of its
    methods, whatever they return or raise. *)
Inductive reachable (L : Library) (E : Env) : State -> Prop :=
| reach_init : reachable L E init_service
| reach_call c st :
    reachable L E st -> reachable L E (snd (run_call L E c st))
| reach_list_forms st :
    reachable L E st -> reachable L E (snd (list_forms L E false st))
| reach_close st :
    reachable L E st -> reachable L E (snd (close st)).

(** What a call does to the client and to the exchanges: nothing, or it
    takes the client from unopened to closed and makes one exchange. *)
Definition one_step (st st' : State) : Prop :=
  (_client st' = _client st /\ exchanges st' = exchanges st) \/
  (_client st = UNOPENED /\ _client st' = CLOSED /\
   exists x, exchanges st' = (exchanges st ++ [x])%list).
(** * Properties *)

(** ** The cache *)

Lemma dict_get_set {V} (d : dict V) (k k' : string) (v : V) :
  dict_get (dict_set d k v) k' =
  if String.eqb k k' then Some v else dict_get d k'.
Proof.
  induction d as [|[k0 v0] d IH]; simpl.
  - reflexivity.
  - destruct (String.eqb k0 k) eqn:E0; simpl.
    + apply String.eqb_eq in E0; subst k0.
      destruct (String.eqb k k'); reflexivity.
    + destruct (String.eqb k0 k') eqn:E1.
      * apply String.eqb_eq in E1; subst k0.
        rewrite String.eqb_sym, E0. reflexivity.
      * exact IH.
Qed.

Lemma find_app_last {A} (p : A -> bool) (l : list A) (x : A) :
  find p (l ++ [x]) =
  match find p l with
  | Some y => Some y
  | None => if p x then Some x else None
  end.
Proof.
  induction l as [|a l IH]; simpl.
  - reflexivity.
  - destruct (p a); [reflexivity | exact IH].
Qed.

(** A lookup in the comprehension's dictionary finds the last form of the
    sequence that carries the key. *)
Lemma dict_get_fold (fs : list ZohoForm.t) (d : dict ZohoForm.t) (k : string) :
  dict_get
    (fold_left (fun d form => dict_set d (ZohoForm.link_name form) form) fs d) k =
  match find (fun f => String.eqb (ZohoForm.link_name f) k) (rev fs) with
  | Some f => Some f
  | None => dict_get d k
  end.
Proof.
  revert d; induction fs as [|f fs IH]; intro d; simpl.
  - reflexivity.
  - rewrite IH, find_app_last, dict_get_set.
    destruct (find _ (rev fs)); [reflexivity|].
    destruct (String.eqb (ZohoForm.link_name f) k); reflexivity.
Qed.

Lemma get_form_update_forms (c : Cache.t) (fs : list ZohoForm.t) (t0 : Z)
  (k : string) :
  Cache.get_form (Cache.update_forms c fs t0) k =
  find (fun f => String.eqb (ZohoForm.link_name f) k) (rev fs).
Proof.
  unfold Cache.get_form, Cache.update_forms, Cache.forms_by_link_name; simpl.
  rewrite dict_get_fold. destruct (find _ (rev fs)); reflexivity.
Qed.

(** ** Rounding to binary64 *)

Section Binary64Facts.
Local Open Scope Z_scope.

Lemma div_rne_mono num num' den :
  0 < den -> num <= num' -> div_rne num den <= div_rne num' den.
Proof.
  intros Hd Hle. unfold div_rne.
  pose proof (Z.div_mod num den ltac:(lia)) as E1.
  pose proof (Z.div_mod num' den ltac:(lia)) as E2.
  pose proof (Z.mod_pos_bound num den Hd) as B1.
  pose proof (Z.mod_pos_bound num' den Hd) as B2.
  pose proof (Z.div_le_mono num num' den Hd Hle) as Hq.
  set (q := num / den) in *. set (q' := num' / den) in *.
  set (r := num mod den) in *. set (r' := num' mod den) in *.
  assert (Hcases : q < q' \/ (q = q' /\ r <= r')) by nia.
  destruct (2 * r <? den) eqn:C1; destruct (den <? 2 * r) eqn:C2;
    destruct (2 * r' <? den) eqn:C3; destruct (den <? 2 * r') eqn:C4;
    destruct (Z.even q) eqn:Ev; destruct (Z.even q') eqn:Ev';
    try apply Z.ltb_lt in C1; try apply Z.ltb_ge in C1;
    try apply Z.ltb_lt in C2; try apply Z.ltb_ge in C2;
    try apply Z.ltb_lt in C3; try apply Z.ltb_ge in C3;
    try apply Z.ltb_lt in C4; try apply Z.ltb_ge in C4;
    try lia;
    destruct Hcases as [Hlt | [Heq Hr]]; try lia;
    subst q'; congruence.
Qed.

Lemma div_rne_exact q den : 0 < den -> div_rne (q * den) den = q.
Proof.
  intro Hd. unfold div_rne.
  rewrite Z.div_mul, Z.mod_mul by lia.
  destruct (2 * 0 <? den) eqn:C; [reflexivity|].
  apply Z.ltb_ge in C. lia.
Qed.

Lemma div_rne_above num den q t :
  0 < den -> q * den + t <= num -> den < 2 * t -> q + 1 <= div_rne num den.
Proof.
  intros Hd Hnum Ht. unfold div_rne.
  pose proof (Z.div_mod num den ltac:(lia)) as E1.
  pose proof (Z.mod_pos_bound num den Hd) as B1.
  set (q1 := num / den) in *. set (r := num mod den) in *.
  assert (Hq : q <= q1) by nia.
  destruct (2 * r <? den) eqn:C1; destruct (den <? 2 * r) eqn:C2;
    destruct (Z.even q1);
    try apply Z.ltb_lt in C1; try apply Z.ltb_ge in C1;
    try apply Z.ltb_lt in C2; try apply Z.ltb_ge in C2; nia.
Qed.

Lemma div_rne_le num den hi :
  0 < den -> num <= hi * den -> div_rne num den <= hi.
Proof.
  intros Hd H. rewrite <- (div_rne_exact hi den Hd).
  apply div_rne_mono; assumption.
Qed.

Lemma div_rne_ge num den lo :
  0 < den -> lo * den <= num -> lo <= div_rne num den.
Proof.
  intros Hd H. rewrite <- (div_rne_exact lo den Hd) at 1.
  apply div_rne_mono; assumption.
Qed.

Lemma binade_spec n d :
  0 < n -> 0 < d ->
  let k := Z.log2 d + 1 in
  let l := binade n d + k in
  0 <= l /\ 2 ^ l * d <= n * 2 ^ k /\ n * 2 ^ k < 2 ^ (l + 1) * d.
Proof.
  intros Hn Hd k l. unfold l, binade. fold k.
  replace (Z.log2 (n * 2 ^ k / d) - k + k) with (Z.log2 (n * 2 ^ k / d)) by lia.
  assert (Hk : 0 <= Z.log2 d) by apply Z.log2_nonneg.
  assert (Hdk : d < 2 ^ k).
  { unfold k. pose proof (Z.log2_spec d Hd) as [_ H].
    replace (Z.log2 d + 1) with (Z.succ (Z.log2 d)) by lia. exact H. }
  assert (Hpk : 0 < 2 ^ k) by (apply Z.pow_pos_nonneg; lia).
  set (y := n * 2 ^ k / d).
  assert (Hy : 1 <= y).
  { unfold y. apply Z.div_le_lower_bound; [exact Hd|]. nia. }
  pose proof (Z.log2_spec y ltac:(lia)) as [Hlo Hhi].
  pose proof (Z.mul_div_le (n * 2 ^ k) d Hd) as Hfloor.
  pose proof (Z.mul_succ_div_gt (n * 2 ^ k) d Hd) as Hceil.
  fold y in Hfloor, Hceil.
  replace (Z.log2 y + 1) with (Z.succ (Z.log2 y)) by lia.
  split; [apply Z.log2_nonneg|]. split; nia.
Qed.

Lemma binade_mono n n' d :
  0 < n -> n <= n' -> 0 < d -> binade n d <= binade n' d.
Proof.
  intros Hn Hle Hd. unfold binade.
  assert (Hp : 0 < 2 ^ (Z.log2 d + 1)).
  { apply Z.pow_pos_nonneg; [lia|]. pose proof (Z.log2_nonneg d). lia. }
  assert (H : n * 2 ^ (Z.log2 d + 1) / d <= n' * 2 ^ (Z.log2 d + 1) / d).
  { apply Z.div_le_mono; [exact Hd|]. nia. }
  apply Z.log2_le_mono in H. lia.
Qed.

(** The quotient of a positive timedelta by [10^6] has an exponent
    between -72 and -6, and a mantissa of 53 bits. *)
Lemma round_div_timedelta a :
  1 <= a <= timedelta_max ->
  exists s,
    6 <= s <= 72 /\ s = 52 - binade a 1000000 /\
    round_div a 1000000 = (div_rne (a * 2 ^ s) 1000000, - s) /\
    2 ^ 52 * 1000000 <= a * 2 ^ s /\ a * 2 ^ s < 2 ^ 53 * 1000000.
Proof.
  intros [Ha1 Ha2]. unfold timedelta_max in Ha2.
  destruct (binade_spec a 1000000 ltac:(lia) ltac:(lia)) as (Hl0 & Hlo & Hhi).
  change (Z.log2 1000000 + 1) with 20 in Hl0, Hlo, Hhi.
  set (l := binade a 1000000 + 20) in *.
  assert (Hl : l <= 66).
  { assert (H : 2 ^ l < 2 ^ 67).
    { change (2 ^ 20) with 1048576 in Hlo.
      change (2 ^ 67) with 147573952589676412928. lia. }
    apply Z.pow_lt_mono_r_iff in H; lia. }
  exists (72 - l).
  assert (Hb : binade a 1000000 = l - 20) by (unfold l; lia).
  split; [lia|]. split; [lia|].
  assert (Hpl : 0 < 2 ^ l) by (apply Z.pow_pos_nonneg; lia).
  assert (Hps : 0 < 2 ^ (72 - l)) by (apply Z.pow_pos_nonneg; lia).
  assert (Hprod : 2 ^ (72 - l) * 2 ^ l = 2 ^ 20 * 2 ^ 52).
  { rewrite <- !Z.pow_add_r by lia. f_equal. lia. }
  assert (Hsucc : 2 ^ (l + 1) = 2 * 2 ^ l).
  { replace (l + 1) with (Z.succ l) by lia. apply Z.pow_succ_r. lia. }
  rewrite Hsucc in Hhi.
  split.
  - unfold round_div. rewrite Hb.
    replace (l - 20 - 52 <? 0) with true by (symmetry; apply Z.ltb_lt; lia).
    replace (- (l - 20 - 52)) with (72 - l) by lia.
    replace (l - 20 - 52) with (- (72 - l)) by lia. reflexivity.
  - assert (H52 : 0 < 2 ^ 52) by (apply Z.pow_pos_nonneg; lia).
    assert (H53 : 2 ^ 53 = 2 * 2 ^ 52) by reflexivity.
    rewrite H53.
    set (P := 2 ^ l) in *. set (Q := 2 ^ (72 - l)) in *.
    set (T := 2 ^ 20) in *. set (F := 2 ^ 52) in *.
    split.
    + apply (Z.mul_le_mono_pos_r _ _ P Hpl).
      replace (a * Q * P) with (a * T * F) by (rewrite <- !Z.mul_assoc, Hprod; ring).
      replace (F * 1000000 * P) with (P * 1000000 * F) by ring.
      apply Z.mul_le_mono_nonneg_r; lia.
    + apply (Z.mul_lt_mono_pos_r P _ _ Hpl).
      replace (a * Q * P) with (a * T * F) by (rewrite <- !Z.mul_assoc, Hprod; ring).
      replace (2 * F * 1000000 * P) with (2 * P * 1000000 * F) by ring.
      apply Z.mul_lt_mono_pos_r; lia.
Qed.

Lemma is_timedelta_iff n :
  is_timedelta n = true <-> timedelta_min <= n <= timedelta_max.
Proof.
  unfold is_timedelta. rewrite andb_true_iff, !Z.leb_le. tauto.
Qed.

(** The comparison of [total_seconds] with an integer, for a positive
    timedelta [a] and for its opposite. *)
Lemma total_seconds_view a :
  1 <= a <= timedelta_max ->
  exists s m,
    6 <= s <= 72 /\ s = 52 - binade a 1000000 /\
    m = div_rne (a * 2 ^ s) 1000000 /\
    2 ^ 52 <= m <= 2 ^ 53 /\
    (forall k, float_gt_int (total_seconds a) k = (k * 2 ^ s <? m)) /\
    (forall k, float_gt_int (total_seconds (- a)) k = (k * 2 ^ s <? - m)).
Proof.
  intro Ha.
  destruct (round_div_timedelta a Ha) as (s & Hs & Hsb & Hr & Hlo & Hhi).
  exists s, (div_rne (a * 2 ^ s) 1000000).
  split; [exact Hs|]. split; [exact Hsb|]. split; [reflexivity|].
  split.
  - split; [apply div_rne_ge | apply div_rne_le]; lia.
  - assert (Hneg : (- s <? 0) = true) by (apply Z.ltb_lt; lia).
    split; intro k; unfold total_seconds, truediv.
    + replace (a =? 0) with false by (symmetry; apply Z.eqb_neq; lia).
      replace (0 <? a) with true by (symmetry; apply Z.ltb_lt; lia).
      rewrite Hr. unfold float_gt_int. rewrite Hneg, Z.opp_involutive.
      reflexivity.
    + replace (- a =? 0) with false by (symmetry; apply Z.eqb_neq; lia).
      replace (0 <? - a) with false by (symmetry; apply Z.ltb_ge; lia).
      rewrite Z.opp_involutive, Hr. unfold float_gt_int.
      rewrite Hneg, Z.opp_involutive. reflexivity.
Qed.

Lemma total_seconds_zero k : float_gt_int (total_seconds 0) k = (k <? 0).
Proof. reflexivity. Qed.

Ltac in_range_cases n Hin :=
  apply is_timedelta_iff in Hin; unfold timedelta_min, timedelta_max in Hin;
  let Hneg := fresh "Hneg" in let Hz := fresh "Hz" in let Hpos := fresh "Hpos" in
  destruct (Z.lt_trichotomy n 0) as [Hneg | [Hz | Hpos]].

(** Not more than [k] seconds: not greater than [k]. *)
Lemma total_seconds_gt_le n k :
  n <= k * 1000000 -> Cache.total_seconds_gt n k = false.
Proof.
  intro Hle. unfold Cache.total_seconds_gt.
  destruct (is_timedelta n) eqn:Hin; [|apply Z.ltb_ge; lia].
  in_range_cases n Hin.
  - destruct (total_seconds_view (- n)) as (s & m & Hs & _ & Hm & _ & _ & Hv);
      [unfold timedelta_max; lia|].
    rewrite Z.opp_involutive in Hv. rewrite Hv. apply Z.ltb_ge.
    assert (Hp : 0 < 2 ^ s) by (apply Z.pow_pos_nonneg; lia).
    assert (H : - k * 2 ^ s <= m).
    { subst m. apply div_rne_ge; [lia|]. nia. }
    lia.
  - subst n. rewrite total_seconds_zero. apply Z.ltb_ge. lia.
  - destruct (total_seconds_view n) as (s & m & Hs & _ & Hm & _ & Hv & _);
      [unfold timedelta_max; lia|].
    rewrite Hv. apply Z.ltb_ge.
    assert (Hp : 0 < 2 ^ s) by (apply Z.pow_pos_nonneg; lia).
    subst m. apply div_rne_le; [lia|]. nia.
Qed.

(** At least [k + 1] seconds: greater than [k]. *)
Lemma total_seconds_gt_ge n k :
  (k + 1) * 1000000 <= n -> Cache.total_seconds_gt n k = true.
Proof.
  intro Hge. unfold Cache.total_seconds_gt.
  destruct (is_timedelta n) eqn:Hin; [|apply Z.ltb_lt; lia].
  in_range_cases n Hin.
  - destruct (total_seconds_view (- n)) as (s & m & Hs & _ & Hm & _ & _ & Hv);
      [unfold timedelta_max; lia|].
    rewrite Z.opp_involutive in Hv. rewrite Hv. apply Z.ltb_lt.
    assert (Hp : 0 < 2 ^ s) by (apply Z.pow_pos_nonneg; lia).
    assert (H : m <= - (k + 1) * 2 ^ s).
    { subst m. apply div_rne_le; [lia|]. nia. }
    nia.
  - subst n. rewrite total_seconds_zero. apply Z.ltb_lt. lia.
  - destruct (total_seconds_view n) as (s & m & Hs & _ & Hm & _ & Hv & _);
      [unfold timedelta_max; lia|].
    rewrite Hv. apply Z.ltb_lt.
    assert (Hp : 0 < 2 ^ s) by (apply Z.pow_pos_nonneg; lia).
    assert (H : (k + 1) * 2 ^ s <= m).
    { subst m. apply div_rne_ge; [lia|]. nia. }
    nia.
Qed.

(** The rounded quotient grows with the timedelta. *)
Lemma total_seconds_view_mono a a' s m s' m' :
  1 <= a -> a <= a' -> a' <= timedelta_max ->
  6 <= s <= 72 -> s = 52 - binade a 1000000 ->
  m = div_rne (a * 2 ^ s) 1000000 -> 2 ^ 52 <= m <= 2 ^ 53 ->
  6 <= s' <= 72 -> s' = 52 - binade a' 1000000 ->
  m' = div_rne (a' * 2 ^ s') 1000000 -> 2 ^ 52 <= m' <= 2 ^ 53 ->
  s' <= s /\
  (forall k, k * 2 ^ s < m -> k * 2 ^ s' < m') /\
  (forall k, m' < k * 2 ^ s' -> m < k * 2 ^ s).
Proof.
  intros Ha Hle Ha' Hs Hsb Hm Hmb Hs' Hsb' Hm' Hmb'.
  pose proof (binade_mono a a' 1000000 ltac:(lia) Hle ltac:(lia)) as Hb.
  assert (Hss : s' <= s) by lia.
  split; [exact Hss|].
  assert (Hp' : 0 < 2 ^ s') by (apply Z.pow_pos_nonneg; lia).
  destruct (Z.eq_dec s s') as [Heq | Hne].
  - assert (Hmm : m <= m').
    { rewrite Hm, Hm', <- Heq. apply div_rne_mono; [lia|].
      apply Z.mul_le_mono_nonneg_r; [|exact Hle].
      apply Z.pow_nonneg. lia. }
    rewrite <- Heq. split; intros k H; lia.
  - assert (Hd : 1 <= s - s') by lia.
    assert (Hsplit : 2 ^ s = 2 ^ s' * 2 ^ (s - s')).
    { rewrite <- Z.pow_add_r by lia. f_equal. lia. }
    assert (Hpd : 2 <= 2 ^ (s - s')).
    { change 2 with (2 ^ 1) at 1. apply Z.pow_le_mono_r; lia. }
    assert (H53 : 2 ^ 53 = 2 * 2 ^ 52) by reflexivity.
    assert (H52 : 0 < 2 ^ 52) by (apply Z.pow_pos_nonneg; lia).
    set (P := 2 ^ (s - s')) in *. set (Q := 2 ^ s') in *.
    set (F := 2 ^ 52) in *.
    split; intros k H; rewrite Hsplit in *.
    + (* k Q P < m <= 2 F, so k Q < F <= m' *)
      assert (k * Q < F) by nia. lia.
    + (* m' < k Q, so 2 F <= ... *)
      assert (F < k * Q) by lia. nia.
Qed.

Lemma total_seconds_gt_mono n n' k :
  n <= n' -> Cache.total_seconds_gt n k = true -> Cache.total_seconds_gt n' k = true.
Proof.
  intros Hle Hgt.
  assert (Hexact : k * 1000000 < n).
  { destruct (Z.lt_ge_cases (k * 1000000) n) as [H | H]; [exact H|].
    rewrite (total_seconds_gt_le n k) in Hgt by lia. discriminate Hgt. }
  unfold Cache.total_seconds_gt in *.
  destruct (is_timedelta n') eqn:Hin'; [|apply Z.ltb_lt; lia].
  destruct (is_timedelta n) eqn:Hin.
  2:{ (* n below the range *)
      apply is_timedelta_iff in Hin'. unfold timedelta_min, timedelta_max in Hin'.
      assert (Hlow : n < -86399999913600000000).
      { destruct (Z.lt_ge_cases n (-86399999913600000000)) as [H | H];
          [exact H|].
        assert (is_timedelta n = true)
          by (apply is_timedelta_iff; unfold timedelta_min, timedelta_max; lia).
        congruence. }
      pose proof (total_seconds_gt_ge n' k ltac:(lia)) as H.
      unfold Cache.total_seconds_gt in H.
      replace (is_timedelta n') with true in H
        by (symmetry; apply is_timedelta_iff; unfold timedelta_min, timedelta_max; lia).
      exact H. }
  in_range_cases n Hin; apply is_timedelta_iff in Hin';
    unfold timedelta_min, timedelta_max in Hin'.
  - (* n < 0 *)
    destruct (total_seconds_view (- n)) as (s & m & Hs & Hsb & Hm & Hmb & _ & Hv);
      [unfold timedelta_max; lia|].
    rewrite Z.opp_involutive in Hv. rewrite Hv in Hgt. apply Z.ltb_lt in Hgt.
    assert (Hp : 0 < 2 ^ s) by (apply Z.pow_pos_nonneg; lia).
    assert (H52 : 0 < 2 ^ 52) by (apply Z.pow_pos_nonneg; lia).
    assert (Hk : k < 0) by nia.
    destruct (Z.lt_trichotomy n' 0) as [Hn' | [Hn' | Hn']].
    + destruct (total_seconds_view (- n'))
        as (s' & m' & Hs' & Hsb' & Hm' & Hmb' & _ & Hv');
        [unfold timedelta_max; lia|].
      rewrite Z.opp_involutive in Hv'. rewrite Hv'. apply Z.ltb_lt.
      destruct (total_seconds_view_mono (- n') (- n) s' m' s m
                  ltac:(lia) ltac:(lia) ltac:(unfold timedelta_max; lia)
                  Hs' Hsb' Hm' Hmb' Hs Hsb Hm Hmb) as (_ & _ & Hdown).
      specialize (Hdown (- k)). lia.
    + subst n'. rewrite total_seconds_zero. apply Z.ltb_lt. exact Hk.
    + destruct (total_seconds_view n')
        as (s' & m' & Hs' & _ & _ & Hmb' & Hv' & _);
        [unfold timedelta_max; lia|].
      rewrite Hv'. apply Z.ltb_lt.
      assert (Hp' : 0 < 2 ^ s') by (apply Z.pow_pos_nonneg; lia). nia.
  - (* n = 0 *)
    subst n. rewrite total_seconds_zero in Hgt. apply Z.ltb_lt in Hgt.
    destruct (Z.eq_dec n' 0) as [-> | Hn'];
      [rewrite total_seconds_zero; apply Z.ltb_lt; exact Hgt|].
    destruct (total_seconds_view n')
      as (s' & m' & Hs' & _ & _ & Hmb' & Hv' & _);
      [unfold timedelta_max; lia|].
    rewrite Hv'. apply Z.ltb_lt.
    assert (Hp' : 0 < 2 ^ s') by (apply Z.pow_pos_nonneg; lia).
    assert (H52 : 0 < 2 ^ 52) by (apply Z.pow_pos_nonneg; lia). nia.
  - (* 0 < n *)
    destruct (total_seconds_view n) as (s & m & Hs & Hsb & Hm & Hmb & Hv & _);
      [unfold timedelta_max; lia|].
    destruct (total_seconds_view n')
      as (s' & m' & Hs' & Hsb' & Hm' & Hmb' & Hv' & _);
      [unfold timedelta_max; lia|].
    rewrite Hv in Hgt. apply Z.ltb_lt in Hgt. rewrite Hv'. apply Z.ltb_lt.
    destruct (total_seconds_view_mono n n' s m s' m'
                ltac:(lia) Hle ltac:(unfold timedelta_max; lia)
                Hs Hsb Hm Hmb Hs' Hsb' Hm' Hmb') as (_ & Hup & _).
    apply Hup. exact Hgt.
Qed.

(** Below [2^34] seconds the rounding is finer than a microsecond: the
    comparison is that of the exact quotient. *)
Lemma total_seconds_gt_exact n k :
  0 <= k < 2 ^ 34 ->
  Cache.total_seconds_gt n k = (k * 1000000 <? n).
Proof.
  intros [Hk0 Hk].
  destruct (Z.lt_ge_cases (k * 1000000) n) as [Hlt | Hge].
  2:{ rewrite (total_seconds_gt_le n k Hge). symmetry. apply Z.ltb_ge. lia. }
  replace (k * 1000000 <? n) with true by (symmetry; apply Z.ltb_lt; lia).
  unfold Cache.total_seconds_gt.
  destruct (is_timedelta n) eqn:Hin; [|apply Z.ltb_lt; lia].
  apply is_timedelta_iff in Hin.
  destruct (total_seconds_view n) as (s & m & Hs & Hsb & Hm & Hmb & Hv & _);
    [lia|].
  rewrite Hv. apply Z.ltb_lt.
  assert (Hp : 0 < 2 ^ s) by (apply Z.pow_pos_nonneg; lia).
  destruct (Z.le_gt_cases 19 s) as [Hfine | Hcoarse].
  - (* the unit is below two microseconds *)
    assert (H20 : 2 ^ 20 <= 2 * 2 ^ s).
    { replace (2 * 2 ^ s) with (2 ^ (s + 1))
        by (replace (s + 1) with (Z.succ s) by lia; apply Z.pow_succ_r; lia).
      apply Z.pow_le_mono_r; lia. }
    change (2 ^ 20) with 1048576 in H20.
    assert (H : k * 2 ^ s + 1 <= m).
    { subst m. apply (div_rne_above _ _ _ (2 ^ s)); [lia | nia | lia]. }
    lia.
  - (* more than [2^34] seconds *)
    assert (Hks : k * 2 ^ s < 2 ^ 34 * 2 ^ s) by nia.
    assert (Hpow : 2 ^ 34 * 2 ^ s <= 2 ^ 52).
    { rewrite <- Z.pow_add_r by lia. apply Z.pow_le_mono_r; lia. }
    lia.
Qed.

End Binary64Facts.

(** C6 (as amended).  [needs_refresh] is a function of the cache state and
    the clock reading alone, and calling it changes neither the cache nor
    the client nor what was sent.  It is true while there was no refresh;
    after a refresh it is true only when more than [ttl] seconds passed
    since, and it is true whenever a second more than [ttl] passed.  For a
    [ttl] below [2^34] seconds it is true exactly when more than [ttl]
    seconds passed, the float of [total_seconds] being finer than a
    microsecond there.  So for a positive [ttl] it is false right after
    [update_forms], and for a positive [ttl] below [2^34] it is true once
    the clock is more than [ttl] seconds past that call. *)
Theorem needs_refresh_iff_stale :
  forall (c : Cache.t) (now : Z),
    (Cache.last_refresh c = None -> Cache.needs_refresh c now = true)
    /\
    (forall t0,
        Cache.last_refresh c = Some t0 ->
        (Cache.needs_refresh c now = true ->
         (now - t0 > Cache.ttl c * 1000000)%Z) /\
        ((now - t0 >= (Cache.ttl c + 1) * 1000000)%Z ->
         Cache.needs_refresh c now = true))
    /\
    ((0 <= Cache.ttl c < 2 ^ 34)%Z ->
     (Cache.needs_refresh c now = true <->
        Cache.last_refresh c = None \/
        exists t0, Cache.last_refresh c = Some t0 /\
                   (now - t0 > Cache.ttl c * 1000000)%Z))
    /\
    (forall (E : Env) (st : State),
        cache (snd (cache_needs_refresh E st)) = cache st /\
        _client (snd (cache_needs_refresh E st)) = _client st /\
        exchanges (snd (cache_needs_refresh E st)) = exchanges st)
    /\
    forall (fs : list ZohoForm.t) (t1 : Z),
      (0 < Cache.ttl c)%Z ->
      Cache.needs_refresh (Cache.update_forms c fs t1) t1 = false /\
      forall later,
        (Cache.ttl c < 2 ^ 34)%Z ->
        (later - t1 > Cache.ttl c * 1000000)%Z ->
        Cache.needs_refresh (Cache.update_forms c fs t1) later = true.
Proof.
  intros c now; split; [|split; [|split; [|split]]].
  - intro Hl. unfold Cache.needs_refresh. rewrite Hl. reflexivity.
  - intros t0 Hl. unfold Cache.needs_refresh. rewrite Hl. split.
    + intro H.
      destruct (Z.lt_ge_cases (Cache.ttl c * 1000000) (now - t0))
        as [Hlt | Hge]; [lia|].
      rewrite (total_seconds_gt_le _ _ Hge) in H. discriminate H.
    + intro H. apply total_seconds_gt_ge. lia.
  - intro Httl. unfold Cache.needs_refresh.
    destruct (Cache.last_refresh c) as [t0|]; split.
    + intro H. right. exists t0. split; [reflexivity|].
      rewrite (total_seconds_gt_exact _ _ Httl) in H.
      apply Z.ltb_lt in H. lia.
    + intros [H | (t & Ht & Hgt)]; [discriminate|].
      injection Ht as <-. rewrite (total_seconds_gt_exact _ _ Httl).
      apply Z.ltb_lt. lia.
    + intros _. left. reflexivity.
    + reflexivity.
  - intros E st. unfold cache_needs_refresh.
    destruct (Cache.last_refresh (cache st)); repeat split.
  - intros fs t1 Httl.
    unfold Cache.needs_refresh; simpl. split.
    + apply total_seconds_gt_le. lia.
    + intros later Hb H. rewrite total_seconds_gt_exact by lia.
      apply Z.ltb_lt. lia.
Qed.

Lemma needs_refresh_iff_stale_witness :
  (0 < Cache.ttl (Cache.init 300) < 2 ^ 34)%Z /\
  Cache.needs_refresh (Cache.update_forms (Cache.init 300) [] 7000000) 7000000
    = false /\
  Cache.needs_refresh (Cache.update_forms (Cache.init 300) [] 7000000) 307000001
    = true.
Proof.
  assert (Httl : (0 < Cache.ttl (Cache.init 300) < 2 ^ 34)%Z)
    by (simpl; lia).
  split; [exact Httl|].
  destruct (needs_refresh_iff_stale (Cache.init 300) 0) as (_ & _ & _ & _ & H).
  destruct (H [] 7000000%Z (proj1 Httl)) as [Hnow Hlater].
  split; [exact Hnow|]. apply Hlater; [exact (proj2 Httl)|]. simpl. lia.
Defined.

(** C6 as stated fails for a large [ttl]: with a [ttl] of [2^34] seconds,
    one microsecond after [ttl] seconds have passed [total_seconds] is
    still the float [2^34], and [needs_refresh] is false. *)
Lemma needs_refresh_rounds_large_ttl :
  let c := Cache.update_forms (Cache.init (2 ^ 34)) [] 0 in
  let now := (2 ^ 34 * 1000000 + 1)%Z in
  (0 < Cache.ttl c)%Z /\
  (now - 0 > Cache.ttl c * 1000000)%Z /\
  total_seconds (now - 0) = ((2 ^ 52)%Z, (-18)%Z) /\
  float_gt_int (total_seconds (now - 0)) (Cache.ttl c) = false /\
  Cache.needs_refresh c now = false.
Proof.
  intros c now. repeat split; vm_compute; reflexivity.
Qed.

(** C7.  [update_forms] builds the mapping from its argument alone: after
    [update_forms forms1] then [update_forms forms2] the mapping is the one
    of [forms2]; [get_form k] can only return a form of [forms2] whose
    [link_name] is [k], and returns nothing when [forms2] has no such form,
    whatever [forms1] held. *)
Theorem update_forms_replaces_mapping :
  forall (c : Cache.t) (forms1 forms2 : list ZohoForm.t) (t1 t2 : Z) (k : string),
    let c2 := Cache.update_forms (Cache.update_forms c forms1 t1) forms2 t2 in
    Cache.forms c2 = Cache.forms_by_link_name forms2
    /\ (forall f, Cache.get_form c2 k = Some f ->
                  In f forms2 /\ ZohoForm.link_name f = k)
    /\ ((forall f, In f forms2 -> ZohoForm.link_name f <> k) ->
        Cache.get_form c2 k = None).
Proof.
  intros c forms1 forms2 t1 t2 k c2. split; [reflexivity|].
  unfold c2. rewrite get_form_update_forms. split.
  - intros f Hf. apply find_some in Hf. destruct Hf as [Hin Heq].
    split; [apply in_rev; exact Hin | apply String.eqb_eq; exact Heq].
  - intros Hno.
    destruct (find _ (rev forms2)) as [f|] eqn:Hf; [|reflexivity].
    apply find_some in Hf. destruct Hf as [Hin Heq].
    exfalso. apply (Hno f);
      [apply in_rev; exact Hin | apply String.eqb_eq; exact Heq].
Qed.

Lemma update_forms_replaces_mapping_witness :
  let c2 := Cache.update_forms
              (Cache.update_forms (Cache.init 300) [form_named "old"] 1)
              [form_named "new"] 2 in
  (In (form_named "new") [form_named "new"] /\
   ZohoForm.link_name (form_named "new") = "new") /\
  Cache.get_form c2 "old" = None.
Proof.
  intro c2. split.
  - destruct (update_forms_replaces_mapping (Cache.init 300)
                [form_named "old"] [form_named "new"] 1 2 "new")
      as (_ & Hsome & _).
    apply Hsome. reflexivity.
  - destruct (update_forms_replaces_mapping (Cache.init 300)
                [form_named "old"] [form_named "new"] 1 2 "old")
      as (_ & _ & Hnone).
    apply Hnone. intros f [<- | []]. simpl. discriminate.
Defined.

(** ** Running the methods of the service *)

(** Case analysis on the next [match] of a run. *)
Ltac run_step H :=
  match type of H with
  | context [match ?x with _ => _ end] =>
      lazymatch x with
      | context [match _ with _ => _ end] => fail
      | _ => destruct x eqn:?
      end
  end; cbn beta iota zeta in H; try discriminate H.

Ltac run_cases :=
  repeat match goal with
         | |- context [match ?x with _ => _ end] =>
             lazymatch x with
             | context [match _ with _ => _ end] => fail
             | _ => destruct x eqn:?
             end
         end.

Lemma made_during_none st st' x :
  exchanges st' = exchanges st -> ~ made_during st st' x.
Proof.
  intros Heq (new & Hnew & Hin). rewrite Heq in Hnew.
  rewrite <- (app_nil_r (exchanges st)) in Hnew at 1.
  apply app_inv_head in Hnew. subst new. exact Hin.
Qed.

Lemma made_during_one st st' y x :
  exchanges st' = exchanges st ++ [y] -> made_during st st' x -> x = y.
Proof.
  intros Heq (new & Hnew & Hin). rewrite Heq in Hnew.
  apply app_inv_head in Hnew. subst new. destruct Hin as [<- | []].
  reflexivity.
Qed.

(** The exchanges of a run are none, or the one the run shows. *)
Ltac exchange_cases :=
  match goal with
  | Hm : made_during ?st ?st' _ |- _ =>
      first
        [ exfalso; apply (made_during_none st st' _ eq_refl Hm)
        | apply (made_during_one st st' _ _ eq_refl) in Hm;
          inversion Hm; subst; clear Hm ]
  end.

Lemma getitem_raise v k e :
  getitem v k = Raise e -> e = KeyError k \/ e = TypeError.
Proof.
  destruct v; simpl; intro H; try (inversion H; auto; fail).
  destruct (dict_get d k); inversion H; auto.
Qed.

Lemma for_each_state {A B} (f : A -> M B) :
  (forall x st r st', f x st = (r, st') -> st' = st) ->
  forall l st r st', for_each l f st = (r, st') -> st' = st.
Proof.
  intros Hf l; induction l as [|x l IH]; intros st r st' H; simpl in H.
  - inversion H; reflexivity.
  - unfold bind in H. destruct (f x st) as [[y|e] st1] eqn:Hx.
    + apply Hf in Hx; subst st1.
      destruct (for_each l f st) as [[ys|e] st2] eqn:Hl;
        apply IH in Hl; subst st2; inversion H; reflexivity.
    + apply Hf in Hx; subst st1. inversion H; reflexivity.
Qed.

Lemma for_each_Forall2 {A B} (f : A -> M B) (P : A -> B -> Prop) :
  (forall x st y st', f x st = (Ok y, st') -> P x y) ->
  forall l st ys st', for_each l f st = (Ok ys, st') -> Forall2 P l ys.
Proof.
  intros Hf l; induction l as [|x l IH]; intros st ys st' H; simpl in H.
  - inversion H; constructor.
  - unfold bind in H. destruct (f x st) as [[y|e] st1] eqn:Hx; [|discriminate].
    destruct (for_each l f st1) as [[zs|e] st2] eqn:Hl; [|discriminate].
    inversion H; subst.
    constructor; [eapply Hf; eassumption | eapply IH; eassumption].
Qed.

Section ServiceFacts.
Variable L : Library.
Variable E : Env.

(** The three lines every method shares, inside its [async with]. *)
Lemma request_block {A} (rq : request) (post : pyval -> M A) (st : State) :
  async_with_client
    (response <- client_send E rq ;;
     _ <- raise_for_status rq response ;;
     data <- response_json response ;;
     post data) st =
  match _client st with
  | UNOPENED =>
      match upstream E (exchanges st) rq with
      | Raise e => (Raise e, after_send st rq (Raise e) CLOSED)
      | Ok rp =>
          if is_success (status_code rp) then
            match body rp with
            | Some v =>
                let (r, st2) := post v (after_send st rq (Ok rp) OPENED) in
                (r, aexit st2)
            | None => (Raise JSONDecodeError, after_send st rq (Ok rp) CLOSED)
            end
          else (Raise (HTTPStatusError (url rq) (params rq) (status_code rp)),
                after_send st rq (Ok rp) CLOSED)
      end
  | OPENED => (Raise already_open, st)
  | CLOSED => (Raise already_closed, st)
  end.
Proof.
  unfold async_with_client, aenter, bind, client_send, raise_for_status,
    response_json.
  destruct (_client st) eqn:Hc; try reflexivity.
  cbn. destruct (upstream E (exchanges st) rq) as [rp|e]; [|reflexivity].
  destruct (is_success (status_code rp)); [|reflexivity].
  cbn. destruct (body rp); reflexivity.
Qed.

Lemma parse_timestamp_ok v d :
  parse_timestamp L v = Ok d ->
  exists s, v = PStr s /\ fromisoformat L (replace "Z" "+00:00" s) = Some d.
Proof.
  unfold parse_timestamp. destruct v; try discriminate.
  destruct (fromisoformat L _) eqn:Hp; [|discriminate].
  intro H; inversion H; subst. eauto.
Qed.

Lemma new_ZohoRecord_ok idv form c m dv r :
  new_ZohoRecord idv form c m dv = Ok r ->
  idv = PStr (ZohoRecord.id r) /\ dv = PDict (ZohoRecord.data r) /\
  ZohoRecord.form_link_name r = form /\
  ZohoRecord.created_time r = c /\ ZohoRecord.modified_time r = m.
Proof.
  unfold new_ZohoRecord. destruct idv; try discriminate.
  destruct dv; try discriminate. simpl.
  intro H; inversion H; subst; simpl. auto.
Qed.

Ltac timestamps_ok :=
  repeat match goal with
         | Hp : parse_timestamp L _ = Ok _ |- _ =>
             apply parse_timestamp_ok in Hp; destruct Hp as (? & -> & ?)
         end.

Lemma record_of_item_state form x st r st' :
  record_of_item L form x st = (r, st') -> st' = st.
Proof.
  unfold record_of_item, bind, lift. intro H.
  repeat run_step H; inversion H; reflexivity.
Qed.

Lemma record_of_item_ok form x st r st' :
  record_of_item L form x st = (Ok r, st') ->
  getitem x "ID" = Ok (PStr (ZohoRecord.id r)) /\
  x = PDict (ZohoRecord.data r) /\
  ZohoRecord.form_link_name r = form /\
  timestamps_normalized L x r.
Proof.
  unfold record_of_item, bind, lift. intro H.
  repeat run_step H. injection H as Hn Hs.
  apply new_ZohoRecord_ok in Hn. destruct Hn as (-> & Hd & Hf & <- & <-).
  timestamps_ok.
  repeat split; try assumption.
  unfold timestamps_normalized. eauto 10.
Qed.

Lemma field_of_item_state x st r st' :
  field_of_item L x st = (r, st') -> st' = st.
Proof.
  unfold field_of_item, bind, lift. intro H.
  repeat run_step H; inversion H; reflexivity.
Qed.

Lemma get_records_run form criteria limit st :
  get_records L E form criteria limit st =
  match get_authorized_headers E (exchanges st) with
  | Raise e => (Raise e, st)
  | Ok hdrs =>
      let rq := get_records_rq E hdrs form criteria limit in
      match _client st with
      | UNOPENED =>
          match upstream E (exchanges st) rq with
          | Raise e => (Raise e, after_send st rq (Raise e) CLOSED)
          | Ok rp =>
              if is_success (status_code rp) then
                match body rp with
                | Some v =>
                    (match getitem v "records" with
                     | Raise e => Raise e
                     | Ok rj =>
                         match py_iter rj with
                         | Raise e => Raise e
                         | Ok items =>
                             fst (for_each items (record_of_item L form)
                                    (after_send st rq (Ok rp) OPENED))
                         end
                     end, after_send st rq (Ok rp) CLOSED)
                | None => (Raise JSONDecodeError, after_send st rq (Ok rp) CLOSED)
                end
              else (Raise (HTTPStatusError (url rq) (params rq) (status_code rp)),
                    after_send st rq (Ok rp) CLOSED)
          end
      | OPENED => (Raise already_open, st)
      | CLOSED => (Raise already_closed, st)
      end
  end.
Proof.
  unfold get_records. unfold bind at 1. unfold auth_get_authorized_headers.
  destruct (get_authorized_headers E (exchanges st)) as [hdrs|e]; [|reflexivity].
  rewrite request_block. fold (get_records_rq E hdrs form criteria limit).
  cbv zeta.
  destruct (_client st); try reflexivity.
  destruct (upstream E (exchanges st) _) as [rp|e]; [|reflexivity].
  destruct (is_success (status_code rp)); [|reflexivity].
  destruct (body rp) as [v|]; [|reflexivity].
  unfold bind, lift.
  destruct (getitem v "records") as [rj|e]; [|reflexivity].
  destruct (py_iter rj) as [items|e]; [|reflexivity].
  match goal with
  | |- context [for_each items ?f ?s] => change f with (record_of_item L form)
  end.
  destruct (for_each items (record_of_item L form) _) as [r st2] eqn:Hfe.
  pose proof (for_each_state _ (record_of_item_state form) _ _ _ _ Hfe) as ->.
  reflexivity.
Qed.

Lemma get_form_fields_run link hdrs st :
  _get_form_fields L E link hdrs st =
  let rq := fields_rq L E link hdrs in
  match _client st with
  | UNOPENED =>
      match upstream E (exchanges st) rq with
      | Raise e => (Raise e, after_send st rq (Raise e) CLOSED)
      | Ok rp =>
          if is_success (status_code rp) then
            match body rp with
            | Some v =>
                (match getitem v "fields" with
                 | Raise e => Raise e
                 | Ok fj =>
                     match py_iter fj with
                     | Raise e => Raise e
                     | Ok items =>
                         fst (for_each items (field_of_item L)
                                (after_send st rq (Ok rp) OPENED))
                     end
                 end, after_send st rq (Ok rp) CLOSED)
            | None => (Raise JSONDecodeError, after_send st rq (Ok rp) CLOSED)
            end
          else (Raise (HTTPStatusError (url rq) (params rq) (status_code rp)),
                after_send st rq (Ok rp) CLOSED)
      end
  | OPENED => (Raise already_open, st)
  | CLOSED => (Raise already_closed, st)
  end.
Proof.
  unfold _get_form_fields. cbv zeta. rewrite request_block.
  fold (fields_rq L E link hdrs).
  destruct (_client st); try reflexivity.
  destruct (upstream E (exchanges st) _) as [rp|e]; [|reflexivity].
  destruct (is_success (status_code rp)); [|reflexivity].
  destruct (body rp) as [v|]; [|reflexivity].
  unfold bind, lift.
  destruct (getitem v "fields") as [fj|e]; [|reflexivity].
  destruct (py_iter fj) as [items|e]; [|reflexivity].
  match goal with
  | |- context [for_each items ?f ?s] => change f with (field_of_item L)
  end.
  destruct (for_each items (field_of_item L) _) as [r st2] eqn:Hfe.
  pose proof (for_each_state _ field_of_item_state _ _ _ _ Hfe) as ->.
  reflexivity.
Qed.

(** Inside the block of [list_forms] the client is already open, so the
    first item of the loop cannot enter the block of [_get_form_fields]. *)
Lemma forms_loop_opened hdrs items st :
  _client st = OPENED ->
  for_each items (form_of_item L E hdrs) st =
  match items with
  | [] => (Ok [], st)
  | x :: _ =>
      (Raise match getitem x "link_name" with
             | Raise e => e
             | Ok _ => already_open
             end, st)
  end.
Proof.
  intro Hc. destruct items as [|x items]; [reflexivity|].
  simpl. unfold bind at 1. unfold form_of_item. unfold bind at 1, lift at 1.
  destruct (getitem x "link_name") as [link|e]; [|reflexivity].
  unfold bind at 1. rewrite get_form_fields_run. cbv zeta. rewrite Hc.
  reflexivity.
Qed.

Lemma list_forms_run force st :
  list_forms L E force st =
  let (refresh, st0) := decide_refresh E force st in
  if negb refresh then (Ok (dict_values (Cache.forms (cache st0))), st0)
  else
    match get_authorized_headers E (exchanges st0) with
    | Raise e => (Raise e, st0)
    | Ok hdrs =>
        let rq := forms_rq E hdrs in
        match _client st0 with
        | UNOPENED =>
            match upstream E (exchanges st0) rq with
            | Raise e => (Raise e, after_send st0 rq (Raise e) CLOSED)
            | Ok rp =>
                if is_success (status_code rp) then
                  match body rp with
                  | None =>
                      (Raise JSONDecodeError, after_send st0 rq (Ok rp) CLOSED)
                  | Some v =>
                      match getitem v "forms" with
                      | Raise e => (Raise e, after_send st0 rq (Ok rp) CLOSED)
                      | Ok fj =>
                          match py_iter fj with
                          | Raise e =>
                              (Raise e, after_send st0 rq (Ok rp) CLOSED)
                          | Ok [] =>
                              (Ok [],
                               tick (with_cache
                                       (after_send st0 rq (Ok rp) CLOSED)
                                       (Cache.update_forms (cache st0) []
                                          (now E (clock_reads st0)))))
                          | Ok (x :: _) =>
                              (Raise match getitem x "link_name" with
                                     | Raise e => e
                                     | Ok _ => already_open
                                     end,
                               after_send st0 rq (Ok rp) CLOSED)
                          end
                      end
                  end
                else (Raise (HTTPStatusError (url rq) (params rq) (status_code rp)),
                      after_send st0 rq (Ok rp) CLOSED)
            end
        | OPENED => (Raise already_open, st0)
        | CLOSED => (Raise already_closed, st0)
        end
    end.
Proof.
  unfold list_forms. unfold bind at 1.
  assert (Hd : (if force then ret true else cache_needs_refresh E) st =
               (Ok (fst (decide_refresh E force st)),
                snd (decide_refresh E force st))).
  { unfold decide_refresh, cache_needs_refresh, ret.
    destruct force; [reflexivity|].
    destruct (Cache.last_refresh (cache st)); reflexivity. }
  rewrite Hd. destruct (decide_refresh E force st) as [refresh st0].
  cbn [fst snd]. destruct refresh; cbn [negb]; cbv beta iota; [|reflexivity].
  unfold bind at 1. unfold auth_get_authorized_headers.
  destruct (get_authorized_headers E (exchanges st0)) as [hdrs|e]; [|reflexivity].
  rewrite request_block. fold (forms_rq E hdrs). cbv zeta.
  destruct (_client st0); try reflexivity.
  destruct (upstream E (exchanges st0) _) as [rp|e]; [|reflexivity].
  destruct (is_success (status_code rp)); [|reflexivity].
  destruct (body rp) as [v|]; [|reflexivity].
  unfold bind at 1. unfold lift at 1.
  destruct (getitem v "forms") as [fj|e]; [|reflexivity].
  unfold bind at 1. unfold lift at 1.
  destruct (py_iter fj) as [items|e]; [|reflexivity].
  unfold bind at 1.
  match goal with
  | |- context [for_each items ?f ?s] => change f with (form_of_item L E hdrs)
  end.
  rewrite forms_loop_opened by reflexivity.
  destruct items; reflexivity.
Qed.

(** Opening of a successful single-record call: headers, an unopened
    client, a success status and a JSON body. *)
Ltac open_block H :=
  unfold bind at 1 in H; unfold auth_get_authorized_headers in H;
  match type of H with
  | context [get_authorized_headers E ?x] =>
      destruct (get_authorized_headers E x) as [hdrs|?] eqn:Hauth;
      [|discriminate H]
  end;
  rewrite request_block in H;
  match type of H with
  | context [_client ?s] => destruct (_client s) eqn:Hclient; try discriminate H
  end;
  match type of H with
  | context [upstream E ?x ?q] =>
      destruct (upstream E x q) as [rp|?] eqn:Hup; [|discriminate H]
  end;
  match type of H with
  | context [is_success ?c] =>
      destruct (is_success c) eqn:Hstatus; [|discriminate H]
  end;
  match type of H with
  | context [body ?r] => destruct (body r) as [v|] eqn:Hbody; [|discriminate H]
  end;
  unfold bind, lift in H.

Lemma create_record_ok form data st r st' :
  create_record L E form data st = (Ok r, st') ->
  exists rq v raw,
    answered_with st st' rq v /\
    method rq = POST /\
    url rq = (base_url E ++ "/forms/" ++ form ++ "/records")%string /\
    json rq = Some (PDict [("data", PDict data)]) /\
    _client st = UNOPENED /\ _client st' = CLOSED /\
    getitem v "record" = Ok raw /\
    getitem raw "ID" = Ok (PStr (ZohoRecord.id r)) /\
    timestamps_normalized L raw r /\
    ZohoRecord.form_link_name r = form /\
    ZohoRecord.data r = data.
Proof.
  intro H. unfold create_record in H. open_block H.
  repeat run_step H. injection H as Hn Hs. subst st'.
  apply new_ZohoRecord_ok in Hn. destruct Hn as (-> & Hd & Hf & <- & <-).
  timestamps_ok.
  eexists _, v, _.
  split; [exists rp; split; [reflexivity | split; assumption]|].
  repeat split; try eassumption; try reflexivity.
  - unfold timestamps_normalized. eauto 10.
  - congruence.
Qed.

Lemma update_record_ok form rid data st r st' :
  update_record L E form rid data st = (Ok r, st') ->
  exists rq v raw,
    answered_with st st' rq v /\
    method rq = PATCH /\
    url rq = (base_url E ++ "/forms/" ++ form ++ "/records/" ++ rid)%string /\
    json rq = Some (PDict [("data", PDict data)]) /\
    _client st = UNOPENED /\ _client st' = CLOSED /\
    getitem v "record" = Ok raw /\
    ZohoRecord.id r = rid /\
    timestamps_normalized L raw r /\
    ZohoRecord.form_link_name r = form /\
    ZohoRecord.data r = data.
Proof.
  intro H. unfold update_record in H. open_block H.
  repeat run_step H. injection H as Hn Hs. subst r st'.
  timestamps_ok.
  eexists _, v, _.
  split; [exists rp; split; [reflexivity | split; assumption]|].
  repeat split; simpl; try eassumption; try reflexivity.
  unfold timestamps_normalized; simpl. eauto 10.
Qed.

Lemma get_record_ok form rid st r st' :
  get_record L E form rid st = (Ok r, st') ->
  exists rq v raw,
    answered_with st st' rq v /\
    method rq = GET /\
    url rq = (base_url E ++ "/forms/" ++ form ++ "/records/" ++ rid)%string /\
    _client st = UNOPENED /\ _client st' = CLOSED /\
    getitem v "record" = Ok raw /\
    ZohoRecord.id r = rid /\
    timestamps_normalized L raw r /\
    ZohoRecord.form_link_name r = form /\
    raw = PDict (ZohoRecord.data r).
Proof.
  intro H. unfold get_record in H. open_block H.
  repeat run_step H. injection H as Hn Hs. subst st'.
  apply new_ZohoRecord_ok in Hn. destruct Hn as (Hi & Hd & Hf & <- & <-).
  timestamps_ok.
  eexists _, v, _.
  split; [exists rp; split; [reflexivity | split; assumption]|].
  subst.
  repeat split; simpl; try eassumption; try reflexivity.
  - congruence.
  - unfold timestamps_normalized. eauto 10.
Qed.

Lemma get_records_ok form criteria limit st rs st' :
  get_records L E form criteria limit st = (Ok rs, st') ->
  exists rq v rj items,
    answered_with st st' rq v /\
    _client st = UNOPENED /\ _client st' = CLOSED /\
    getitem v "records" = Ok rj /\ py_iter rj = Ok items /\
    Forall2 (fun item r =>
               getitem item "ID" = Ok (PStr (ZohoRecord.id r)) /\
               item = PDict (ZohoRecord.data r) /\
               ZohoRecord.form_link_name r = form /\
               timestamps_normalized L item r) items rs.
Proof.
  intro H. rewrite get_records_run in H. cbv zeta in H.
  repeat run_step H. injection H as Hfe Hst. subst st'.
  match type of Hfe with
  | fst (for_each ?l ?f ?s) = _ =>
      destruct (for_each l f s) as [r1 s1] eqn:Hrun
  end.
  simpl in Hfe; subst r1.
  eexists _, _, _, _.
  split; [eexists; split; [reflexivity | split; eassumption]|].
  repeat split; try eassumption; try reflexivity.
  eapply for_each_Forall2; [|exact Hrun].
  intros x s y s' Hx. apply record_of_item_ok in Hx. exact Hx.
Qed.

Ltac enter_block :=
  unfold bind at 1; unfold auth_get_authorized_headers;
  match goal with
  | Hh : get_authorized_headers E _ = _ |- _ => rewrite Hh
  end;
  rewrite request_block.

(** Once the client is closed, every method that needs the network raises
    without sending anything. *)
Lemma closed_client_refuses st hdrs :
  _client st = CLOSED ->
  get_authorized_headers E (exchanges st) = Ok hdrs ->
  (forall form criteria limit,
      get_records L E form criteria limit st = (Raise already_closed, st)) /\
  (forall form rid, get_record L E form rid st = (Raise already_closed, st)) /\
  (forall form data,
      create_record L E form data st = (Raise already_closed, st)) /\
  (forall form rid data,
      update_record L E form rid data st = (Raise already_closed, st)) /\
  list_forms L E true st = (Raise already_closed, st).
Proof.
  intros Hc Hh. repeat split; intros.
  - unfold get_records. enter_block. rewrite Hc. reflexivity.
  - unfold get_record. enter_block. rewrite Hc. reflexivity.
  - unfold create_record. enter_block. rewrite Hc. reflexivity.
  - unfold update_record. enter_block. rewrite Hc. reflexivity.
  - rewrite list_forms_run. unfold decide_refresh. cbn [negb].
    cbv beta iota zeta. rewrite Hh, Hc. reflexivity.
Qed.

(** Every method that enters the [async with] block leaves the client
    closed, whether it returns or raises. *)
Lemma first_call_closes_client st hdrs :
  _client st = UNOPENED ->
  get_authorized_headers E (exchanges st) = Ok hdrs ->
  (forall form criteria limit,
      _client (snd (get_records L E form criteria limit st)) = CLOSED) /\
  (forall form rid, _client (snd (get_record L E form rid st)) = CLOSED) /\
  (forall form data, _client (snd (create_record L E form data st)) = CLOSED) /\
  (forall form rid data,
      _client (snd (update_record L E form rid data st)) = CLOSED) /\
  _client (snd (list_forms L E true st)) = CLOSED.
Proof.
  intros Hc Hh. repeat split; intros.
  - rewrite get_records_run, Hh. cbv zeta. rewrite Hc. run_cases; reflexivity.
  - unfold get_record. enter_block. rewrite Hc. run_cases; reflexivity.
  - unfold create_record. enter_block. rewrite Hc. run_cases; reflexivity.
  - unfold update_record. enter_block. rewrite Hc. run_cases; reflexivity.
  - rewrite list_forms_run. unfold decide_refresh. cbn [negb].
    cbv beta iota zeta. rewrite Hh, Hc. run_cases; reflexivity.
Qed.

(** While the cache is fresh, [list_forms()] answers from it and sends
    nothing. *)
Lemma list_forms_cached st t0 :
  Cache.last_refresh (cache st) = Some t0 ->
  Cache.needs_refresh (cache st) (now E (clock_reads st)) = false ->
  list_forms L E false st =
  (Ok (dict_values (Cache.forms (cache st))), tick st).
Proof.
  intros Hl Hn. rewrite list_forms_run. unfold decide_refresh.
  rewrite Hl, Hn. reflexivity.
Qed.

(** A refresh returns only when upstream listed no form at all. *)
Lemma list_forms_refresh_returns_nothing force st forms st' :
  fst (decide_refresh E force st) = true ->
  list_forms L E force st = (Ok forms, st') ->
  forms = [].
Proof.
  intros Hd H. rewrite list_forms_run in H.
  destruct (decide_refresh E force st) as [refresh st0].
  cbn [fst] in Hd. subst refresh. cbn [negb] in H. cbv beta iota zeta in H.
  repeat run_step H; injection H as ? ?; subst; reflexivity.
Qed.

End ServiceFacts.

(** ** The API client *)

(** C1 (as amended).  A request made during [list_forms] that comes back
    with a non-success status makes [list_forms] raise the HTTP status error
    that carries that request's endpoint and that status; a forms response
    whose body is not JSON, or has no [forms] member to read, makes it raise
    the decoder's or the lookup's own error, which carries neither.
    Whenever [list_forms] raises, the cache is what it was: [update_forms]
    was not called.  [_get_form_fields] on its own behaves the same way for
    its request and never touches the cache. *)
Theorem list_forms_failure_keeps_snapshot :
  forall (L : Library) (E : Env),
    (forall (force : bool) (st st' : State) (r : result (list ZohoForm.t)),
        list_forms L E force st = (r, st') ->
        (forall e, r = Raise e -> cache st' = cache st) /\
        (forall rq rp,
            made_during st st' (rq, Ok rp) ->
            (is_success (status_code rp) = false ->
             r = Raise (HTTPStatusError (url rq) (params rq) (status_code rp))) /\
            (url rq = (base_url E ++ "/forms")%string ->
             is_success (status_code rp) = true ->
             (body rp = None -> r = Raise JSONDecodeError) /\
             (forall v e,
                 body rp = Some v -> getitem v "forms" = Raise e ->
                 r = Raise e /\ exn_endpoint e = None /\ exn_status e = None))))
    /\
    (forall (link : pyval) (hdrs : dict string) (st st' : State)
            (r : result (list ZohoField.t)),
        _get_form_fields L E link hdrs st = (r, st') ->
        cache st' = cache st /\
        (forall rq rp,
            made_during st st' (rq, Ok rp) ->
            is_success (status_code rp) = false ->
            r = Raise (HTTPStatusError (url rq) (params rq) (status_code rp)))).
Proof.
  intros L E. split.
  - intros force st st' r H. rewrite list_forms_run in H.
    assert (Hd : cache (snd (decide_refresh E force st)) = cache st /\
                 exchanges (snd (decide_refresh E force st)) = exchanges st).
    { unfold decide_refresh. destruct force; [split; reflexivity|].
      destruct (Cache.last_refresh (cache st)); split; reflexivity. }
    destruct (decide_refresh E force st) as [refresh st0].
    cbn [fst snd] in Hd. destruct Hd as [Hcache Hex].
    assert (Hmd : forall x, made_during st st' x -> made_during st0 st' x).
    { intros x (new & Hnew & Hin). exists new. rewrite Hex. auto. }
    rewrite <- Hcache.
    split.
    + intros e ->.
      repeat run_step H; injection H as ? ?; subst; try reflexivity; discriminate.
    + intros rq rp Hm. apply Hmd in Hm. clear Hmd Hcache Hex.
      repeat run_step H; injection H as ? ?; subst; exchange_cases.
      all: split; [intro; try reflexivity; congruence|].
      all: intros _ Hs; split; [intro; try reflexivity; congruence|].
      all: intros v' e' Hv He; split; [congruence|].
      all: destruct (getitem_raise _ _ _ He) as [-> | ->]; split; reflexivity.
  - intros link hdrs st st' r H. rewrite get_form_fields_run in H.
    cbv zeta in H. split.
    + repeat run_step H; injection H as ? ?; subst; reflexivity.
    + intros rq rp Hm Hs.
      repeat run_step H; injection H as ? ?; subst; exchange_cases;
        try reflexivity; congruence.
Qed.

Lemma list_forms_failure_keeps_snapshot_witness :
  (let run := list_forms lib0 env_503 false init_service in
   fst run = Raise (HTTPStatusError (base0 ++ "/forms") [] 503) /\
   cache (snd run) = cache init_service) /\
  fst (list_forms lib0 env_not_json false init_service) = Raise JSONDecodeError /\
  fst (list_forms lib0 env_malformed false init_service)
    = Raise (KeyError "forms") /\
  (let run := _get_form_fields lib0 env_503 (PStr "test_form") headers0
                init_service in
   fst run = Raise (HTTPStatusError (base0 ++ "/forms/test_form/fields") [] 503) /\
   cache (snd run) = cache init_service).
Proof.
  split; [|split; [|split]].
  - intro run.
    destruct (list_forms_failure_keeps_snapshot lib0 env_503) as [H _].
    destruct (H false init_service (snd run) (fst run) eq_refl) as [Hcache Hrq].
    split.
    + apply (Hrq forms_rq0 {| status_code := 503; body := None |}).
      * exists [(forms_rq0, Ok {| status_code := 503; body := None |})].
        split; [reflexivity | left; reflexivity].
      * reflexivity.
    + apply (Hcache (HTTPStatusError (base0 ++ "/forms") [] 503)). reflexivity.
  - destruct (list_forms_failure_keeps_snapshot lib0 env_not_json) as [H _].
    destruct (H false init_service
                (snd (list_forms lib0 env_not_json false init_service))
                (fst (list_forms lib0 env_not_json false init_service))
                eq_refl) as [_ Hrq].
    destruct (Hrq forms_rq0 {| status_code := 200; body := None |})
      as [_ Hbody].
    + exists [(forms_rq0, Ok {| status_code := 200; body := None |})].
      split; [reflexivity | left; reflexivity].
    + apply (Hbody eq_refl eq_refl). reflexivity.
  - destruct (list_forms_failure_keeps_snapshot lib0 env_malformed) as [H _].
    destruct (H false init_service
                (snd (list_forms lib0 env_malformed false init_service))
                (fst (list_forms lib0 env_malformed false init_service))
                eq_refl) as [_ Hrq].
    destruct (Hrq forms_rq0
                {| status_code := 200; body := Some malformed_body0 |})
      as [_ Hbody].
    + exists [(forms_rq0, ok_json malformed_body0)].
      split; [reflexivity | left; reflexivity].
    + destruct (Hbody eq_refl eq_refl) as [_ Hkey].
      apply (Hkey malformed_body0 (KeyError "forms") eq_refl eq_refl).
  - intro run.
    destruct (list_forms_failure_keeps_snapshot lib0 env_503) as [_ H].
    destruct (H (PStr "test_form") headers0 init_service (snd run) (fst run)
                eq_refl) as [Hcache Hrq].
    split; [|exact Hcache].
    apply (Hrq fields_rq0 {| status_code := 503; body := None |}).
    + exists [(fields_rq0, Ok {| status_code := 503; body := None |})].
      split; [reflexivity | left; reflexivity].
    + reflexivity.
Defined.

(** C1 as stated fails: a forms response with status 200 and a body that
    has no [forms] member makes [list_forms] raise [KeyError], which carries
    neither the endpoint nor a status. *)
Lemma list_forms_malformed_body_error :
  exists e st',
    list_forms lib0 env_malformed false init_service = (Raise e, st') /\
    made_during init_service st' (forms_rq0, ok_json malformed_body0) /\
    getitem malformed_body0 "forms" = Raise e /\
    exn_endpoint e = None /\ exn_status e = None /\
    (forall u p s, e <> HTTPStatusError u p s).
Proof.
  eexists (KeyError "forms"), _. split; [vm_compute; reflexivity|].
  split; [exists [(forms_rq0, ok_json malformed_body0)];
          split; [reflexivity | left; reflexivity]|].
  repeat split. intros u p s. discriminate.
Qed.

(** C2 (what the code does).  On a freshly constructed service the first
    [get_records] succeeds and leaves the client closed: its [async with]
    block released the client itself.  From then on every method that needs
    the network raises before sending anything. *)
Theorem client_closed_by_first_call :
  exists rs st1,
    get_records lib0 env0 "test_form" None None init_service = (Ok rs, st1) /\
    length rs = 1%nat /\
    _client st1 = CLOSED /\
    get_records lib0 env0 "test_form" None None st1 = (Raise already_closed, st1) /\
    get_record lib0 env0 "test_form" "123" st1 = (Raise already_closed, st1) /\
    create_record lib0 env0 "test_form" new_data0 st1 = (Raise already_closed, st1) /\
    update_record lib0 env0 "test_form" "123" updated_data0 st1
      = (Raise already_closed, st1) /\
    list_forms lib0 env0 false st1 = (Raise already_closed, st1).
Proof.
  eexists _, _. split; [vm_compute; reflexivity|]. repeat split.
Qed.

(** C3 (what the code does).  On a freshly constructed service with two
    forms upstream, [list_forms] raises, forced or not: the block of
    [_get_form_fields] enters a client that the block of [list_forms]
    already holds open.  Only the forms collection was requested, and the
    cache was not updated. *)
Theorem list_forms_refresh_raises :
  list_forms lib0 env0 true init_service =
    (Raise already_open,
     {| cache := Cache.init 300; _client := CLOSED; clock_reads := 0;
        exchanges := [(forms_rq0, ok_json forms_body0)] |})
  /\
  list_forms lib0 env0 false init_service =
    (Raise already_open,
     {| cache := Cache.init 300; _client := CLOSED; clock_reads := 0;
        exchanges := [(forms_rq0, ok_json forms_body0)] |}).
Proof.
  split; reflexivity.
Qed.

Lemma dict_get_key_in {V} (d : dict V) (k : string) (v : V) :
  dict_get d k = Some v -> In k (map fst d).
Proof.
  induction d as [|[k0 v0] d IH]; simpl; [discriminate|].
  destruct (String.eqb_spec k0 k) as [<-|Hne]; [left; reflexivity|].
  intro H. right. exact (IH H).
Qed.

Lemma get_records_params_spec criteria limit :
  (forall v, dict_get (get_records_params criteria limit) "criteria" = Some v <->
             exists s, criteria = Some s /\ s <> EmptyString /\ v = PStr s) /\
  (forall v, dict_get (get_records_params criteria limit) "limit" = Some v <->
             exists n, limit = Some n /\ n <> 0%Z /\ v = PInt n) /\
  (forall k v, dict_get (get_records_params criteria limit) k = Some v ->
               k = "criteria"%string \/ k = "limit"%string) /\
  (forall s n,
      criteria = Some s -> s <> EmptyString -> limit = Some n -> n <> 0%Z ->
      get_records_params criteria limit =
      [("criteria"%string, PStr s); ("limit"%string, PInt n)]) /\
  (criteria = Some EmptyString \/ criteria = None ->
   limit = Some 0%Z \/ limit = None ->
   get_records_params criteria limit = []).
Proof.
  destruct criteria as [[|c s]|]; destruct limit as [[|p|p]|];
    (split; [|split; [|split; [|split]]]).
  all: try (intro v; vm_compute dict_get; split;
            [ intro H;
              first [ discriminate H
                    | injection H as <-; eexists; split; [reflexivity|];
                      split; [discriminate | reflexivity] ]
            | intros (x & Hx & Hne & ->);
              first [ discriminate Hx
                    | injection Hx as <-;
                      first [reflexivity | contradiction Hne; reflexivity] ] ]).
  all: try (intros k v H; apply dict_get_key_in in H; vm_compute in H;
            intuition auto).
  all: try (intros s0 n0 Hs Hne Hn Hnn;
            first [ discriminate Hs | discriminate Hn
                  | injection Hs as <-; injection Hn as <-;
                    first [ reflexivity | contradiction Hne; reflexivity
                          | contradiction Hnn; reflexivity ] ]).
  all: try (intros [Hc | Hc] [Hl | Hl];
            first [discriminate Hc | discriminate Hl | reflexivity]).
Qed.

(** C10.  Every request [get_records] sends is a GET of the records of the
    form, and its query parameters are these and no others: [criteria],
    with the caller's string, exactly when a criteria was given and is not
    the empty string; [limit], with the caller's number, exactly when a
    limit was given and is not 0.  So a non-empty criteria and a non-zero
    limit are forwarded as they are, in that order, while an empty criteria
    and a limit of 0 are left out like absent ones.  On an unopened client
    with headers available exactly one request is sent. *)
Theorem get_records_sends_truthy_params :
  forall (L : Library) (E : Env) (form : string) (criteria : option string)
         (limit : option Z) (st st' : State) (r : result (list ZohoRecord.t)),
    get_records L E form criteria limit st = (r, st') ->
    (forall rq rp,
        made_during st st' (rq, rp) ->
        method rq = GET /\
        url rq = (base_url E ++ "/forms/" ++ form ++ "/records")%string /\
        (forall v, dict_get (params rq) "criteria" = Some v <->
                   exists s, criteria = Some s /\ s <> EmptyString /\
                             v = PStr s) /\
        (forall v, dict_get (params rq) "limit" = Some v <->
                   exists n, limit = Some n /\ n <> 0%Z /\ v = PInt n) /\
        (forall k v, dict_get (params rq) k = Some v ->
                     k = "criteria"%string \/ k = "limit"%string) /\
        (forall s n,
            criteria = Some s -> s <> EmptyString ->
            limit = Some n -> n <> 0%Z ->
            params rq = [("criteria"%string, PStr s); ("limit"%string, PInt n)]) /\
        (criteria = Some EmptyString \/ criteria = None ->
         limit = Some 0%Z \/ limit = None ->
         params rq = []))
    /\ (_client st = UNOPENED ->
        (exists hdrs, get_authorized_headers E (exchanges st) = Ok hdrs) ->
        exists rq rp, exchanges st' = exchanges st ++ [(rq, rp)]).
Proof.
  intros L E form criteria limit st st' r H.
  rewrite get_records_run in H. cbv zeta in H.
  split.
  - intros rq rp Hm.
    assert (Hrq : method rq = GET /\
                  url rq = (base_url E ++ "/forms/" ++ form ++ "/records")%string /\
                  params rq = get_records_params criteria limit).
    { repeat run_step H; injection H as ? ?; subst; exchange_cases;
        repeat split. }
    destruct Hrq as (Hmeth & Hurl & Hparams).
    split; [exact Hmeth|]. split; [exact Hurl|].
    rewrite Hparams. apply get_records_params_spec.
  - intros Hc [hdrs Hh]. rewrite Hh, Hc in H.
    repeat run_step H; injection H as ? ?; subst; simpl; eauto.
Qed.

Lemma get_records_sends_truthy_params_witness :
  (let run := get_records lib0 env0 "test_form" (Some "Status==Open") (Some 25%Z)
                init_service in
   exists rq rp,
     exchanges (snd run) = [(rq, rp)] /\
     params rq = [("criteria"%string, PStr "Status==Open");
                  ("limit"%string, PInt 25)] /\
     dict_get (params rq) "limit" = Some (PInt 25))
  /\
  (let run := get_records lib0 env0 "test_form" (Some EmptyString) (Some 0%Z)
                init_service in
   exists rq rp,
     exchanges (snd run) = [(rq, rp)] /\ params rq = [] /\
     forall v, dict_get (params rq) "limit" <> Some v).
Proof.
  split; intro run.
  - destruct (get_records_sends_truthy_params lib0 env0 "test_form"
                (Some "Status==Open") (Some 25%Z) init_service
                (snd run) (fst run) eq_refl) as (Hsent & Hone).
    destruct (Hone eq_refl (ex_intro _ headers0 eq_refl)) as (rq & rp & Hex).
    exists rq, rp. split; [exact Hex|].
    destruct (Hsent rq rp) as (_ & _ & _ & Hl & _ & Hboth & _).
    + exists [(rq, rp)]. split; [exact Hex | left; reflexivity].
    + split.
      * apply (Hboth "Status==Open"%string 25%Z); try reflexivity; discriminate.
      * apply Hl. exists 25%Z. repeat split. discriminate.
  - destruct (get_records_sends_truthy_params lib0 env0 "test_form"
                (Some EmptyString) (Some 0%Z) init_service
                (snd run) (fst run) eq_refl) as (Hsent & Hone).
    destruct (Hone eq_refl (ex_intro _ headers0 eq_refl)) as (rq & rp & Hex).
    exists rq, rp. split; [exact Hex|].
    destruct (Hsent rq rp) as (_ & _ & _ & Hl & _ & _ & Hnone).
    + exists [(rq, rp)]. split; [exact Hex | left; reflexivity].
    + split.
      * apply Hnone; left; reflexivity.
      * intros v Hv. apply Hl in Hv. destruct Hv as (n & Hn & Hne & _).
        injection Hn as <-. apply Hne. reflexivity.
Defined.

(** C8.  Every record that [get_records], [get_record], [create_record] or
    [update_record] returns has for timestamps the parse of the upstream
    [Created_Time] and [Modified_Time] strings after their [Z] was replaced
    by [+00:00]; so ["2024-01-01T00:00:00Z"] is parsed as
    ["2024-01-01T00:00:00+00:00"] is. *)
Theorem timestamps_normalized_before_parsing :
  forall (L : Library) (E : Env) (form rid : string) (data : dict pyval)
         (criteria : option string) (limit : option Z) (st st' : State),
    (forall rs,
        get_records L E form criteria limit st = (Ok rs, st') ->
        exists rq v rj items,
          answered_with st st' rq v /\
          getitem v "records" = Ok rj /\ py_iter rj = Ok items /\
          Forall2 (timestamps_normalized L) items rs)
    /\ (forall r,
           get_record L E form rid st = (Ok r, st') ->
           exists rq v raw,
             answered_with st st' rq v /\ getitem v "record" = Ok raw /\
             timestamps_normalized L raw r)
    /\ (forall r,
           create_record L E form data st = (Ok r, st') ->
           exists rq v raw,
             answered_with st st' rq v /\ getitem v "record" = Ok raw /\
             timestamps_normalized L raw r)
    /\ (forall r,
           update_record L E form rid data st = (Ok r, st') ->
           exists rq v raw,
             answered_with st st' rq v /\ getitem v "record" = Ok raw /\
             timestamps_normalized L raw r)
    /\ replace "Z" "+00:00" "2024-01-01T00:00:00Z" = "2024-01-01T00:00:00+00:00"
    /\ parse_timestamp L (PStr "2024-01-01T00:00:00Z") =
       parse_timestamp L (PStr "2024-01-01T00:00:00+00:00").
Proof.
  intros L E form rid data criteria limit st st'.
  split; [|split; [|split; [|split; [|split; reflexivity]]]].
  - intros rs H. apply get_records_ok in H.
    destruct H as (rq & v & rj & items & Ha & _ & _ & Hr & Hi & Hall).
    exists rq, v, rj, items. repeat split; try assumption.
    revert Hall. apply Forall2_impl.
    intros item r (_ & _ & _ & Ht). exact Ht.
  - intros r H. apply get_record_ok in H.
    destruct H as (rq & v & raw & Ha & _ & _ & _ & _ & Hr & _ & Ht & _).
    eauto 10.
  - intros r H. apply create_record_ok in H.
    destruct H as (rq & v & raw & Ha & _ & _ & _ & _ & _ & Hr & _ & Ht & _).
    eauto 10.
  - intros r H. apply update_record_ok in H.
    destruct H as (rq & v & raw & Ha & _ & _ & _ & _ & _ & Hr & _ & Ht & _).
    eauto 10.
Qed.

Lemma timestamps_normalized_before_parsing_witness :
  (exists rs st',
      get_records lib0 env0 "test_form" None None init_service = (Ok rs, st') /\
      exists rq v rj items,
        answered_with init_service st' rq v /\
        getitem v "records" = Ok rj /\ py_iter rj = Ok items /\
        Forall2 (timestamps_normalized lib0) items rs) /\
  (exists r st',
      get_record lib0 env0 "test_form" "123" init_service = (Ok r, st') /\
      exists rq v raw,
        answered_with init_service st' rq v /\ getitem v "record" = Ok raw /\
        timestamps_normalized lib0 raw r) /\
  (exists r st',
      create_record lib0 env0 "test_form" new_data0 init_service = (Ok r, st') /\
      exists rq v raw,
        answered_with init_service st' rq v /\ getitem v "record" = Ok raw /\
        timestamps_normalized lib0 raw r) /\
  (exists r st',
      update_record lib0 env0 "test_form" "123" updated_data0 init_service
        = (Ok r, st') /\
      exists rq v raw,
        answered_with init_service st' rq v /\ getitem v "record" = Ok raw /\
        timestamps_normalized lib0 raw r).
Proof.
  split; [|split; [|split]].
  - destruct (get_records lib0 env0 "test_form" None None init_service)
      as [[rs|e] st'] eqn:Hrun; [|vm_compute in Hrun; discriminate Hrun].
    exists rs, st'. split; [reflexivity|].
    destruct (timestamps_normalized_before_parsing lib0 env0 "test_form" "123"
                new_data0 None None init_service st') as (H & _).
    exact (H rs Hrun).
  - destruct (get_record lib0 env0 "test_form" "123" init_service)
      as [[r|e] st'] eqn:Hrun; [|vm_compute in Hrun; discriminate Hrun].
    exists r, st'. split; [reflexivity|].
    destruct (timestamps_normalized_before_parsing lib0 env0 "test_form" "123"
                new_data0 None None init_service st') as (_ & H & _).
    exact (H r Hrun).
  - destruct (create_record lib0 env0 "test_form" new_data0 init_service)
      as [[r|e] st'] eqn:Hrun; [|vm_compute in Hrun; discriminate Hrun].
    exists r, st'. split; [reflexivity|].
    destruct (timestamps_normalized_before_parsing lib0 env0 "test_form" "123"
                new_data0 None None init_service st') as (_ & _ & H & _).
    exact (H r Hrun).
  - destruct (update_record lib0 env0 "test_form" "123" updated_data0
                init_service)
      as [[r|e] st'] eqn:Hrun; [|vm_compute in Hrun; discriminate Hrun].
    exists r, st'. split; [reflexivity|].
    destruct (timestamps_normalized_before_parsing lib0 env0 "test_form" "123"
                updated_data0 None None init_service st') as (_ & _ & _ & H & _).
    exact (H r Hrun).
Defined.

(** C9 (as amended).  A successful [create_record] or [update_record]
    returns the caller's [data] as the record's data, whatever upstream
    echoed, with timestamps from the upstream response; the id of a created
    record is the [ID] of the upstream response, the id of an updated record
    is the caller's [record_id]. *)
Theorem written_record_keeps_caller_data :
  forall (L : Library) (E : Env) (form rid : string) (data : dict pyval)
         (st st' : State) (r : ZohoRecord.t),
    (create_record L E form data st = (Ok r, st') ->
     ZohoRecord.data r = data /\
     exists rq v raw,
       answered_with st st' rq v /\ getitem v "record" = Ok raw /\
       getitem raw "ID" = Ok (PStr (ZohoRecord.id r)) /\
       timestamps_normalized L raw r)
    /\
    (update_record L E form rid data st = (Ok r, st') ->
     ZohoRecord.data r = data /\
     ZohoRecord.id r = rid /\
     exists rq v raw,
       answered_with st st' rq v /\ getitem v "record" = Ok raw /\
       timestamps_normalized L raw r).
Proof.
  intros L E form rid data st st' r. split; intro H.
  - apply create_record_ok in H.
    destruct H as (rq & v & raw & Ha & _ & _ & _ & _ & _ & Hr & Hid & Ht & _ & Hd).
    split; [exact Hd|]. eauto 10.
  - apply update_record_ok in H.
    destruct H as (rq & v & raw & Ha & _ & _ & _ & _ & _ & Hr & Hid & Ht & _ & Hd).
    split; [exact Hd|]. split; [exact Hid|]. eauto 10.
Qed.

Lemma written_record_keeps_caller_data_witness :
  (exists r st',
      create_record lib0 env0 "test_form" new_data0 init_service = (Ok r, st') /\
      ZohoRecord.data r = new_data0) /\
  (exists r st',
      update_record lib0 env0 "test_form" "123" updated_data0 init_service
        = (Ok r, st') /\
      ZohoRecord.data r = updated_data0 /\ ZohoRecord.id r = "123").
Proof.
  split.
  - destruct (create_record lib0 env0 "test_form" new_data0 init_service)
      as [[r|e] st'] eqn:Hrun; [|vm_compute in Hrun; discriminate Hrun].
    exists r, st'. split; [reflexivity|].
    exact (proj1 (proj1 (written_record_keeps_caller_data lib0 env0
                           "test_form" "123" new_data0 init_service st' r)
                    Hrun)).
  - destruct (update_record lib0 env0 "test_form" "123" updated_data0
                init_service)
      as [[r|e] st'] eqn:Hrun; [|vm_compute in Hrun; discriminate Hrun].
    exists r, st'. split; [reflexivity|].
    destruct (proj2 (written_record_keeps_caller_data lib0 env0
                       "test_form" "123" updated_data0 init_service st' r)
                Hrun) as (Hd & Hi & _).
    split; [exact Hd | exact Hi].
Defined.

(** C9 as stated fails for [update_record]: upstream answers the PATCH
    without any [ID], and the record returned has the caller's id. *)
Lemma update_record_id_is_the_argument :
  exists r st' rq v raw,
    update_record lib0 env0 "test_form" "123" updated_data0 init_service
      = (Ok r, st') /\
    answered_with init_service st' rq v /\
    getitem v "record" = Ok raw /\
    getitem raw "ID" = Raise (KeyError "ID") /\
    ZohoRecord.id r = "123".
Proof.
  eexists _, _, _, _, _. split; [vm_compute; reflexivity|].
  split; [eexists; split; [reflexivity | split; reflexivity]|].
  split; [reflexivity|]. split; reflexivity.
Qed.

(** ** The resource router *)

Local Open Scope string_scope.

Lemma string_forallb_app p a b :
  string_forallb p (a ++ b) = string_forallb p a && string_forallb p b.
Proof.
  induction a as [|c a IH]; simpl; [reflexivity|].
  rewrite IH. apply andb_assoc.
Qed.

Lemma string_forallb_impl (p q : ascii -> bool) s :
  (forall c, p c = true -> q c = true) ->
  string_forallb p s = true -> string_forallb q s = true.
Proof.
  intro Hpq. induction s as [|c s IH]; simpl; [reflexivity|].
  intro H. apply andb_true_iff in H. destruct H as [Hc Hs].
  rewrite (Hpq _ Hc), (IH Hs). reflexivity.
Qed.

Lemma remove_chars_id p s :
  string_forallb (fun c => negb (p c)) s = true -> remove_chars p s = s.
Proof.
  induction s as [|c s IH]; simpl; [reflexivity|].
  intro H. apply andb_true_iff in H. destruct H as [Hc Hs].
  apply negb_true_iff in Hc. rewrite Hc, (IH Hs). reflexivity.
Qed.

Lemma break_none p s :
  string_forallb (fun c => negb (p c)) s = true -> break p s = (s, EmptyString).
Proof.
  induction s as [|c s IH]; simpl; [reflexivity|].
  intro H. apply andb_true_iff in H. destruct H as [Hc Hs].
  apply negb_true_iff in Hc. rewrite Hc, (IH Hs). reflexivity.
Qed.

Lemma rstrip_id p s :
  string_forallb (fun c => negb (p c)) s = true -> rstrip p s = s.
Proof.
  induction s as [|c s IH]; simpl; [reflexivity|].
  intro H. apply andb_true_iff in H. destruct H as [Hc Hs].
  apply negb_true_iff in Hc. rewrite (IH Hs), Hc.
  destruct s; reflexivity.
Qed.

Lemma rstrip_app_keep p a b :
  rstrip p b <> EmptyString -> rstrip p (a ++ b) = (a ++ rstrip p b)%string.
Proof.
  intro Hb. induction a as [|c a IH]; simpl; [reflexivity|].
  rewrite IH. destruct (a ++ rstrip p b)%string eqn:Hab; [|reflexivity].
  destruct a; simpl in Hab; [contradiction | discriminate].
Qed.

Lemma split_nosep sep s :
  string_forallb (fun c => negb (is_char sep c)) s = true -> split sep s = [s].
Proof.
  induction s as [|c s IH]; simpl; [reflexivity|].
  intro H. apply andb_true_iff in H. destruct H as [Hc Hs].
  apply negb_true_iff in Hc. unfold is_char in Hc.
  rewrite Ascii.eqb_sym, Hc, (IH Hs). reflexivity.
Qed.

Lemma split_app sep a b :
  string_forallb (fun c => negb (is_char sep c)) a = true ->
  split sep (a ++ String sep b) = a :: split sep b.
Proof.
  induction a as [|c a IH]; simpl.
  - rewrite Ascii.eqb_refl. reflexivity.
  - intro H. apply andb_true_iff in H. destruct H as [Hc Ha].
    apply negb_true_iff in Hc. unfold is_char in Hc.
    rewrite Ascii.eqb_sym, Hc, (IH Ha). reflexivity.
Qed.

Lemma string_forallb_cons p c s :
  p c = true -> string_forallb p s = true -> string_forallb p (String c s) = true.
Proof. intros Hc Hs. simpl. rewrite Hc, Hs. reflexivity. Qed.

Lemma segment_nonempty s : is_segment s = true -> nonempty s = true.
Proof. unfold is_segment. intro H. apply andb_true_iff in H. tauto. Qed.

Lemma segment_clean s : is_segment s = true -> url_clean s = true.
Proof.
  unfold is_segment, url_clean. intro H. apply andb_true_iff in H.
  destruct H as [_ H]. revert H. apply string_forallb_impl.
  intros c Hc. apply negb_true_iff in Hc. apply orb_false_iff in Hc.
  destruct Hc as [Hd Hu]. unfold is_netloc_delim in Hd.
  apply orb_false_iff in Hd. destruct Hd as [Hd Hh].
  apply orb_false_iff in Hd. destruct Hd as [_ Hq].
  rewrite Hq, Hh, Hu. reflexivity.
Qed.

Lemma segment_no_slash s :
  is_segment s = true ->
  string_forallb (fun c => negb (is_char "/" c)) s = true.
Proof.
  unfold is_segment. intro H. apply andb_true_iff in H.
  destruct H as [_ H]. revert H. apply string_forallb_impl.
  intros c Hc. apply negb_true_iff in Hc. apply orb_false_iff in Hc.
  destruct Hc as [Hd _]. unfold is_netloc_delim in Hd.
  apply orb_false_iff in Hd. destruct Hd as [Hd _].
  apply orb_false_iff in Hd. destruct Hd as [Hs _].
  rewrite Hs. reflexivity.
Qed.

Lemma url_clean_app a b : url_clean (a ++ b) = url_clean a && url_clean b.
Proof. apply string_forallb_app. Qed.

Lemma join_slash_nonempty s segs :
  nonempty s = true -> nonempty (join_slash (s :: segs)) = true.
Proof.
  intro Hs. destruct s; [discriminate|]. destruct segs; reflexivity.
Qed.

Lemma nonempty_neq s : nonempty s = true -> s <> "".
Proof. destruct s; [discriminate | discriminate]. Qed.

Lemma rstrip_join segs :
  segs <> [] -> forallb is_segment segs = true ->
  rstrip (is_char "/") (join_slash segs) = join_slash segs.
Proof.
  induction segs as [|s segs IH]; [contradiction|].
  intros _ H. simpl in H. apply andb_true_iff in H. destruct H as [Hs Hrest].
  destruct segs as [|s' segs].
  - simpl. apply rstrip_id. apply segment_no_slash. exact Hs.
  - change (join_slash (s :: s' :: segs))
      with (s ++ "/" ++ join_slash (s' :: segs)).
    assert (Hr : rstrip (is_char "/") (join_slash (s' :: segs)) =
                 join_slash (s' :: segs))
      by (apply IH; [discriminate | exact Hrest]).
    assert (Hne : join_slash (s' :: segs) <> "").
    { apply nonempty_neq, join_slash_nonempty, segment_nonempty.
      simpl in Hrest. apply andb_true_iff in Hrest. tauto. }
    rewrite (rstrip_app_keep _ s ("/" ++ join_slash (s' :: segs))).
    + rewrite (rstrip_app_keep _ "/" (join_slash (s' :: segs)));
        rewrite Hr; [reflexivity | exact Hne].
    + rewrite (rstrip_app_keep _ "/" (join_slash (s' :: segs)));
        rewrite Hr; [discriminate | exact Hne].
Qed.

Lemma lstrip_join s segs :
  is_segment s = true ->
  lstrip (is_char "/") (join_slash (s :: segs)) = join_slash (s :: segs).
Proof.
  intro Hs. pose proof (segment_no_slash s Hs) as Hn.
  pose proof (segment_nonempty s Hs) as Hne.
  destruct s as [|c s]; [discriminate|].
  simpl in Hn. apply andb_true_iff in Hn. destruct Hn as [Hc _].
  apply negb_true_iff in Hc.
  destruct segs; simpl; rewrite Hc; reflexivity.
Qed.

Lemma split_join segs :
  segs <> [] -> forallb is_segment segs = true ->
  split "/" (join_slash segs) = segs.
Proof.
  induction segs as [|s segs IH]; [contradiction|].
  intros _ H. simpl in H. apply andb_true_iff in H. destruct H as [Hs Hrest].
  destruct segs as [|s' segs].
  - simpl. apply split_nosep. apply segment_no_slash. exact Hs.
  - change (join_slash (s :: s' :: segs))
      with (s ++ String "/" (join_slash (s' :: segs))).
    rewrite split_app by (apply segment_no_slash; exact Hs).
    rewrite IH; [reflexivity | discriminate | exact Hrest].
Qed.

Lemma filter_segments segs :
  forallb is_segment segs = true -> filter nonempty segs = segs.
Proof.
  induction segs as [|s segs IH]; [reflexivity|].
  intro H. simpl in H. apply andb_true_iff in H. destruct H as [Hs Hrest].
  simpl. rewrite (segment_nonempty s Hs), (IH Hrest). reflexivity.
Qed.

(** The parts the router sees are the segments the address was written
    with. *)
Lemma path_parts_join segs q f :
  forallb is_segment segs = true ->
  path_parts_of {| scheme := "zoho"; netloc := "report";
                   path := "/" ++ join_slash segs;
                   query := q; fragment := f |} = "report" :: segs.
Proof.
  intro H. unfold path_parts_of. cbn [netloc path].
  assert (Hall : forallb is_segment ("report" :: segs) = true)
    by (simpl; exact H).
  destruct segs as [|s segs].
  - reflexivity.
  - change ("report" ++ "/" ++ join_slash (s :: segs))
      with (join_slash ("report" :: s :: segs)).
    unfold strip. rewrite rstrip_join by (discriminate || exact Hall).
    rewrite lstrip_join by reflexivity.
    rewrite split_join by (discriminate || exact Hall).
    apply filter_segments. exact Hall.
Qed.

Lemma url_clean_join segs :
  forallb is_segment segs = true -> url_clean (join_slash segs) = true.
Proof.
  induction segs as [|s segs IH]; [reflexivity|].
  intro H. simpl in H. apply andb_true_iff in H. destruct H as [Hs Hrest].
  destruct segs as [|s' segs]; [exact (segment_clean s Hs)|].
  change (join_slash (s :: s' :: segs))
    with (s ++ "/" ++ join_slash (s' :: segs)).
  rewrite !url_clean_app, (segment_clean s Hs), (IH Hrest). reflexivity.
Qed.

Lemma kind_unsupported s :
  router_error_of (ValueError ("Unsupported URI scheme: " ++ s)) =
  Some UnsupportedScheme.
Proof. destruct s; reflexivity. Qed.

Lemma kind_missing s :
  router_error_of (ValueError ("Missing link name for resource type: " ++ s)) =
  Some MissingLinkName.
Proof. destruct s; reflexivity. Qed.

Lemma kind_not_found s :
  router_error_of (ValueError ("Form not found: " ++ s)) = Some NotFound.
Proof. destruct s; reflexivity. Qed.

Lemma kind_unknown s :
  router_error_of (ValueError ("Unknown resource type: " ++ s)) =
  Some UnknownResourceType.
Proof. destruct s; reflexivity. Qed.

Section RouterFacts.
Variable L : Library.
Variable E : Env.
Variable list_reports : M (list ZohoReport).

(** An address [zoho://report/<tail>] whose tail has no query, fragment or
    removed characters splits into the netloc [report] and the path
    [/<tail>]. *)
Lemma urlparse_report tail :
  url_clean tail = true ->
  urlparse L ("zoho://report/" ++ tail) =
  Ok {| scheme := "zoho"; netloc := "report"; path := "/" ++ tail;
        query := ""; fragment := "" |}.
Proof.
  intro Hc. unfold urlparse.
  assert (Hrm : remove_chars is_unsafe_url_byte
                  (lstrip is_c0_control_or_space ("zoho://report/" ++ tail)) =
                "zoho://report/" ++ tail).
  { simpl. rewrite remove_chars_id; [reflexivity|].
    revert Hc. apply string_forallb_impl. intros c H.
    apply negb_true_iff in H. apply orb_false_iff in H.
    destruct H as [_ H]. rewrite H. reflexivity. }
  rewrite Hrm. clear Hrm.
  change (split_scheme ("zoho://report/" ++ tail))
    with ("zoho", "//report/" ++ tail).
  cbv iota beta.
  change (split_netloc ("//report/" ++ tail)) with ("report", "/" ++ tail).
  cbv iota beta.
  change (check_brackets L "report") with (Ok tt). cbv iota beta.
  assert (Hf : split_at "#" ("/" ++ tail) = ("/" ++ tail, "")).
  { unfold split_at. rewrite break_none; [reflexivity|].
    apply string_forallb_cons; [reflexivity|]. revert Hc. apply string_forallb_impl. intros c H.
    apply negb_true_iff in H. apply orb_false_iff in H.
    destruct H as [H _]. apply orb_false_iff in H. destruct H as [_ H].
    rewrite H. reflexivity. }
  rewrite Hf. cbv iota beta.
  assert (Hq : split_at "?" ("/" ++ tail) = ("/" ++ tail, "")).
  { unfold split_at. rewrite break_none; [reflexivity|].
    apply string_forallb_cons; [reflexivity|]. revert Hc. apply string_forallb_impl. intros c H.
    apply negb_true_iff in H. apply orb_false_iff in H.
    destruct H as [H _]. apply orb_false_iff in H. destruct H as [H _].
    rewrite H. reflexivity. }
  rewrite Hq. cbv iota beta.
  reflexivity.
Qed.

Lemma handle_after_parse address parsed st :
  urlparse L address = Ok parsed ->
  handle_read_resource L E list_reports address st =
  if negb (String.eqb (scheme parsed) "zoho") then
    (Raise (ValueError ("Unsupported URI scheme: " ++ scheme parsed)), st)
  else
    match path_parts_of parsed with
    | [] => (Raise (ValueError "Empty resource path"), st)
    | resource_type :: rest =>
        if negb (nonempty resource_type) then
          (Raise (ValueError "Empty resource path"), st)
        else if String.eqb resource_type "forms" then
          (forms <- list_forms L E false ;;
           ret {| uri := address; mimeType := "application/json";
                  text := FormsJson
                            (map (fun form =>
                                    (ZohoForm.link_name form,
                                     ZohoForm.display_name form,
                                     length (ZohoForm.fields form))) forms) |}) st
        else if String.eqb resource_type "reports" then
          (reports <- list_reports ;;
           ret {| uri := address; mimeType := "application/json";
                  text := ReportsJson
                            (map (fun report =>
                                    (report_link_name report,
                                     report_display_name report)) reports) |}) st
        else
          match rest with
          | [] =>
              (Raise (ValueError ("Missing link name for resource type: "
                                    ++ resource_type)), st)
          | link_name :: rest' =>
              if String.eqb resource_type "form" then
                (forms <- list_forms L E false ;;
                 match find (fun f => String.eqb (ZohoForm.link_name f) link_name)
                            forms with
                 | None => raise (ValueError ("Form not found: " ++ link_name))
                 | Some form =>
                     ret {| uri := address; mimeType := "application/json";
                            text := FormJson (ZohoForm.link_name form)
                                      (ZohoForm.display_name form)
                                      (ZohoForm.fields form) |}
                 end) st
              else if String.eqb resource_type "report" then
                (records <- get_records L E link_name (criteria_of rest') None ;;
                 ret (report_contents address link_name records)) st
              else
                (Raise (ValueError ("Unknown resource type: " ++ resource_type)), st)
          end
    end.
Proof.
  intro Hp. unfold handle_read_resource. unfold bind at 1, lift at 1.
  rewrite Hp.
  destruct (negb (String.eqb (scheme parsed) "zoho")); [reflexivity|].
  destruct (path_parts_of parsed) as [|t rest]; [reflexivity|].
  destruct (negb (nonempty t)); [reflexivity|].
  destruct (String.eqb t "forms"); [reflexivity|].
  destruct (String.eqb t "reports"); [reflexivity|].
  destruct rest as [|link rest']; [reflexivity|].
  destruct (String.eqb t "form"); [reflexivity|].
  destruct (String.eqb t "report"); reflexivity.
Qed.

Lemma path_parts_nonempty parsed t :
  In t (path_parts_of parsed) -> nonempty t = true.
Proof.
  unfold path_parts_of. intro H. apply filter_In in H. tauto.
Qed.

Lemma find_link_none (forms : list ZohoForm.t) link :
  (forall f, In f forms -> ZohoForm.link_name f <> link) ->
  find (fun f => String.eqb (ZohoForm.link_name f) link) forms = None.
Proof.
  intro Hno. destruct (find _ forms) as [f|] eqn:Hf; [|reflexivity].
  apply find_some in Hf. destruct Hf as [Hin Heq].
  apply String.eqb_eq in Heq. exfalso. exact (Hno f Hin Heq).
Qed.

(** C4 (as amended).  Resolving an address raises the error of its
    malformed shape: a scheme other than [zoho], UnsupportedScheme; no
    non-empty segment, EmptyPath; a single segment other than [forms] and
    [reports], whether [form], [report] or any other word, MissingLinkName;
    [form] with a link name that no form of [list_forms()] carries,
    NotFound; and a first segment other than [forms], [reports], [form],
    [report] that is followed by a second one, UnknownResourceType. *)
Theorem read_resource_error_kinds :
  forall (address : string) (parsed : ParseResult) (st : State),
    urlparse L address = Ok parsed ->
    (scheme parsed <> "zoho" ->
     exists e,
       handle_read_resource L E list_reports address st = (Raise e, st) /\
       e = ValueError ("Unsupported URI scheme: " ++ scheme parsed) /\
       router_error_of e = Some UnsupportedScheme)
    /\
    (scheme parsed = "zoho" ->
     (path_parts_of parsed = [] ->
      exists e,
        handle_read_resource L E list_reports address st = (Raise e, st) /\
        e = ValueError "Empty resource path" /\
        router_error_of e = Some EmptyPath)
     /\
     (forall t,
         path_parts_of parsed = [t] -> t <> "forms" -> t <> "reports" ->
         exists e,
           handle_read_resource L E list_reports address st = (Raise e, st) /\
           e = ValueError ("Missing link name for resource type: " ++ t) /\
           router_error_of e = Some MissingLinkName)
     /\
     (forall link rest forms st',
         path_parts_of parsed = "form" :: link :: rest ->
         list_forms L E false st = (Ok forms, st') ->
         (forall f, In f forms -> ZohoForm.link_name f <> link) ->
         exists e,
           handle_read_resource L E list_reports address st = (Raise e, st') /\
           e = ValueError ("Form not found: " ++ link) /\
           router_error_of e = Some NotFound)
     /\
     (forall t link rest,
         path_parts_of parsed = t :: link :: rest ->
         t <> "forms" -> t <> "reports" -> t <> "form" -> t <> "report" ->
         exists e,
           handle_read_resource L E list_reports address st = (Raise e, st) /\
           e = ValueError ("Unknown resource type: " ++ t) /\
           router_error_of e = Some UnknownResourceType)).
Proof.
  intros address parsed st Hp.
  pose proof (handle_after_parse address parsed st Hp) as Hrun.
  split.
  - intro Hs. apply String.eqb_neq in Hs. rewrite Hs in Hrun. simpl in Hrun.
    eexists. split; [exact Hrun|]. split; [reflexivity|].
    apply kind_unsupported.
  - intro Hs. apply String.eqb_eq in Hs. rewrite Hs in Hrun. simpl in Hrun.
    split; [|split; [|split]].
    + intro Hparts. rewrite Hparts in Hrun.
      eexists. split; [exact Hrun|]. split; reflexivity.
    + intros t Hparts Hf Hr.
      assert (Hne : nonempty t = true)
        by (apply (path_parts_nonempty parsed); rewrite Hparts; left; reflexivity).
      apply String.eqb_neq in Hf, Hr.
      rewrite Hparts, Hne, Hf, Hr in Hrun. simpl in Hrun.
      eexists. split; [exact Hrun|]. split; [reflexivity|].
      apply kind_missing.
    + intros link rest forms st' Hparts Hlist Hno.
      rewrite Hparts in Hrun. simpl in Hrun.
      unfold bind in Hrun. rewrite Hlist in Hrun.
      rewrite (find_link_none forms link Hno) in Hrun.
      eexists. split; [exact Hrun|]. split; [reflexivity|].
      apply kind_not_found.
    + intros t link rest Hparts Hf Hr Hf1 Hr1.
      assert (Hne : nonempty t = true)
        by (apply (path_parts_nonempty parsed); rewrite Hparts; left; reflexivity).
      apply String.eqb_neq in Hf, Hr, Hf1, Hr1.
      rewrite Hparts, Hne, Hf, Hr, Hf1, Hr1 in Hrun. simpl in Hrun.
      eexists. split; [exact Hrun|]. split; [reflexivity|].
      apply kind_unknown.
Qed.

Lemma handle_report_segments link rest st :
  forallb is_segment (link :: rest) = true ->
  handle_read_resource L E list_reports
    ("zoho://report/" ++ join_slash (link :: rest)) st =
  (records <- get_records L E link (criteria_of rest) None ;;
   ret (report_contents ("zoho://report/" ++ join_slash (link :: rest))
          link records)) st.
Proof.
  intro H.
  rewrite (handle_after_parse _ _ st (urlparse_report _ (url_clean_join _ H))).
  cbn [scheme]. rewrite (path_parts_join _ "" "" H). reflexivity.
Qed.

(** C5.  Resolving an address whose parts are [report], a link name,
    [filter] and a criteria segment is calling [get_records(link, criteria)]
    with that segment as it stands in the address, and with any other parts
    after the link name it is calling [get_records(link)] with no criteria.
    So [zoho://report/<link>/filter/<criteria>] passes the criteria verbatim,
    and [get_records] sends it as its [criteria] parameter, while
    [zoho://report/<link>] and [zoho://report/<link>/filter] pass none. *)
Theorem report_criteria_passed_verbatim :
  (forall (address : string) (parsed : ParseResult) (link : string)
          (rest : list string) (st : State),
      urlparse L address = Ok parsed ->
      scheme parsed = "zoho" ->
      path_parts_of parsed = "report" :: link :: rest ->
      handle_read_resource L E list_reports address st =
        (records <- get_records L E link (criteria_of rest) None ;;
         ret (report_contents address link records)) st)
  /\
  (forall criteria more,
      criteria_of ("filter" :: criteria :: more) = Some criteria)
  /\
  forall (link : string) (st : State),
    is_segment link = true ->
    handle_read_resource L E list_reports ("zoho://report/" ++ link) st =
      (records <- get_records L E link None None ;;
       ret (report_contents ("zoho://report/" ++ link) link records)) st
    /\
    handle_read_resource L E list_reports
      ("zoho://report/" ++ link ++ "/filter") st =
      (records <- get_records L E link None None ;;
       ret (report_contents ("zoho://report/" ++ link ++ "/filter")
              link records)) st
    /\
    forall criteria,
      is_segment criteria = true ->
      handle_read_resource L E list_reports
        ("zoho://report/" ++ link ++ "/filter/" ++ criteria) st =
        (records <- get_records L E link (Some criteria) None ;;
         ret (report_contents
                ("zoho://report/" ++ link ++ "/filter/" ++ criteria)
                link records)) st
      /\ get_records_params (Some criteria) None = [("criteria", PStr criteria)].
Proof.
  split; [|split].
  - intros address parsed link rest st Hp Hs Hparts.
    rewrite (handle_after_parse _ _ st Hp), Hs, Hparts. reflexivity.
  - reflexivity.
  - intros link st Hl. split; [|split].
    + apply (handle_report_segments link [] st). simpl. rewrite Hl. reflexivity.
    + apply (handle_report_segments link ["filter"] st).
      simpl. rewrite Hl. reflexivity.
    + intros criteria Hc. split.
      * apply (handle_report_segments link ["filter"; criteria] st).
        simpl. rewrite Hl, Hc. reflexivity.
      * unfold get_records_params, truthy_str.
        rewrite (segment_nonempty criteria Hc). reflexivity.
Qed.

End RouterFacts.

Lemma read_resource_error_kinds_witness :
  (exists e,
      handle_read_resource lib0 env0 list_reports0 "ftp://forms" init_service
        = (Raise e, init_service) /\
      router_error_of e = Some UnsupportedScheme) /\
  (exists e,
      handle_read_resource lib0 env0 list_reports0 "zoho://" init_service
        = (Raise e, init_service) /\
      router_error_of e = Some EmptyPath) /\
  (exists e,
      handle_read_resource lib0 env0 list_reports0 "zoho://report" init_service
        = (Raise e, init_service) /\
      router_error_of e = Some MissingLinkName) /\
  (exists e st',
      handle_read_resource lib0 env_empty list_reports0 "zoho://form/orders"
        init_service = (Raise e, st') /\
      router_error_of e = Some NotFound) /\
  (exists e,
      handle_read_resource lib0 env0 list_reports0 "zoho://widgets/7"
        init_service = (Raise e, init_service) /\
      router_error_of e = Some UnknownResourceType).
Proof.
  repeat split.
  - destruct (read_resource_error_kinds lib0 env0 list_reports0 "ftp://forms"
                {| scheme := "ftp"; netloc := "forms"; path := "";
                   query := ""; fragment := "" |} init_service eq_refl)
      as [H _].
    destruct H as (e & Hrun & _ & Hk); [discriminate|].
    exists e. split; assumption.
  - destruct (read_resource_error_kinds lib0 env0 list_reports0 "zoho://"
                {| scheme := "zoho"; netloc := ""; path := "";
                   query := ""; fragment := "" |} init_service eq_refl)
      as [_ H].
    destruct (H eq_refl) as (Hempty & _).
    destruct (Hempty eq_refl) as (e & Hrun & _ & Hk).
    exists e. split; assumption.
  - destruct (read_resource_error_kinds lib0 env0 list_reports0 "zoho://report"
                {| scheme := "zoho"; netloc := "report"; path := "";
                   query := ""; fragment := "" |} init_service eq_refl)
      as [_ H].
    destruct (H eq_refl) as (_ & Hmissing & _).
    destruct (Hmissing "report" eq_refl) as (e & Hrun & _ & Hk);
      [discriminate | discriminate |].
    exists e. split; assumption.
  - destruct (read_resource_error_kinds lib0 env_empty list_reports0
                "zoho://form/orders"
                {| scheme := "zoho"; netloc := "form"; path := "/orders";
                   query := ""; fragment := "" |} init_service eq_refl)
      as [_ H].
    destruct (H eq_refl) as (_ & _ & Hnotfound & _).
    destruct (Hnotfound "orders" [] []
                (snd (list_forms lib0 env_empty false init_service))
                eq_refl eq_refl)
      as (e & Hrun & _ & Hk).
    + intros f [].
    + exists e, (snd (list_forms lib0 env_empty false init_service)).
      split; assumption.
  - destruct (read_resource_error_kinds lib0 env0 list_reports0
                "zoho://widgets/7"
                {| scheme := "zoho"; netloc := "widgets"; path := "/7";
                   query := ""; fragment := "" |} init_service eq_refl)
      as [_ H].
    destruct (H eq_refl) as (_ & _ & _ & Hunknown).
    destruct (Hunknown "widgets" "7" [] eq_refl) as (e & Hrun & _ & Hk);
      try discriminate.
    exists e. split; assumption.
Defined.

(** C4 as stated fails: an unknown resource type that stands alone is
    reported as a missing link name, not as an unknown resource type. *)
Lemma unknown_type_alone_is_missing_link :
  exists e,
    handle_read_resource lib0 env0 list_reports0 "zoho://widgets" init_service
      = (Raise e, init_service) /\
    e = ValueError "Missing link name for resource type: widgets" /\
    router_error_of e = Some MissingLinkName /\
    router_error_of e <> Some UnknownResourceType.
Proof.
  eexists. split; [vm_compute; reflexivity|].
  split; [reflexivity|]. split; [reflexivity | discriminate].
Qed.

Lemma report_criteria_passed_verbatim_witness :
  (is_segment "Orders" = true /\ is_segment status_open = true /\
   handle_read_resource lib0 env0 list_reports0
     ("zoho://report/Orders/filter/" ++ status_open) init_service =
   (records <- get_records lib0 env0 "Orders" (Some status_open) None ;;
    ret (report_contents ("zoho://report/Orders/filter/" ++ status_open)
           "Orders" records)) init_service) /\
  handle_read_resource lib0 env0 list_reports0
    "zoho://report/Orders/limit/5?page=2" init_service =
  (records <- get_records lib0 env0 "Orders" None None ;;
   ret (report_contents "zoho://report/Orders/limit/5?page=2"
          "Orders" records)) init_service.
Proof.
  destruct (report_criteria_passed_verbatim lib0 env0 list_reports0)
    as (Hparts & _ & Haddress).
  split.
  - split; [reflexivity|]. split; [reflexivity|].
    destruct (Haddress "Orders" init_service eq_refl) as (_ & _ & H).
    exact (proj1 (H status_open eq_refl)).
  - exact (Hparts "zoho://report/Orders/limit/5?page=2"
             {| scheme := "zoho"; netloc := "report"; path := "/Orders/limit/5";
                query := "page=2"; fragment := "" |}
             "Orders" ["limit"; "5"] init_service eq_refl eq_refl eq_refl).
Defined.

(** * Further properties *)

(** ** The cache, continued *)

Local Open Scope list_scope.

Lemma dict_get_not_in {V} (d : dict V) (k : string) :
  ~ In k (keys_of d) -> dict_get d k = None.
Proof.
  induction d as [|[k0 v0] d IH]; simpl; [reflexivity|].
  intro Hn. destruct (String.eqb k0 k) eqn:Hk.
  - apply String.eqb_eq in Hk. exfalso. apply Hn. left. exact Hk.
  - apply IH. intro Hin. apply Hn. right. exact Hin.
Qed.

Lemma dict_set_new {V} (d : dict V) (k : string) (v : V) :
  ~ In k (keys_of d) -> dict_set d k v = d ++ [(k, v)].
Proof.
  induction d as [|[k0 v0] d IH]; simpl; [reflexivity|].
  intro Hn. destruct (String.eqb k0 k) eqn:Hk.
  - apply String.eqb_eq in Hk. exfalso. apply Hn. left. exact Hk.
  - rewrite IH; [reflexivity|]. intro Hin. apply Hn. right. exact Hin.
Qed.

Lemma keys_of_dict_set {V} (d : dict V) (k : string) (v : V) :
  keys_of (dict_set d k v) =
  if existsb (String.eqb k) (keys_of d) then keys_of d else keys_of d ++ [k].
Proof.
  induction d as [|[k0 v0] d IH]; simpl; [reflexivity|].
  rewrite (String.eqb_sym k k0).
  destruct (String.eqb k0 k) eqn:Hk; simpl; [reflexivity|].
  rewrite IH. destruct (existsb (String.eqb k) (keys_of d)); reflexivity.
Qed.

Lemma dict_set_values_in {V} (d : dict V) (k : string) (v : V) k' v' :
  In (k', v') (dict_set d k v) -> (k', v') = (k, v) \/ In (k', v') d.
Proof.
  induction d as [|[k0 v0] d IH]; simpl.
  - intros [H | []]. left. symmetry. exact H.
  - destruct (String.eqb k0 k) eqn:Hk; simpl.
    + apply String.eqb_eq in Hk. subst k0.
      intros [H | H]; [left; symmetry; exact H | right; right; exact H].
    + intros [H | H]; [right; left; exact H|].
      destruct (IH H) as [H1 | H1]; [left; exact H1 | right; right; exact H1].
Qed.

Lemma keys_of_dict_set_NoDup {V} (d : dict V) (k : string) (v : V) :
  NoDup (keys_of d) -> NoDup (keys_of (dict_set d k v)).
Proof.
  intro Hd. rewrite keys_of_dict_set.
  destruct (existsb (String.eqb k) (keys_of d)) eqn:Hex; [exact Hd|].
  apply NoDup_app; [exact Hd | constructor; [intros [] | constructor] |].
  intros x Hx [Heq | []]. subst x.
  assert (existsb (String.eqb k) (keys_of d) = true)
    by (apply existsb_exists; exists k; split;
        [exact Hx | apply String.eqb_refl]).
  congruence.
Qed.

Lemma length_dict_set {V} (d : dict V) (k : string) (v : V) :
  (length (dict_set d k v) <= S (length d))%nat.
Proof.
  induction d as [|[k0 v0] d IH]; simpl; [lia|].
  destruct (String.eqb k0 k); simpl; lia.
Qed.

Lemma find_app_none {A} (p : A -> bool) (l l' : list A) :
  (forall x, In x l -> p x = false) -> find p (l ++ l') = find p l'.
Proof.
  induction l as [|a l IH]; simpl; intro H; [reflexivity|].
  rewrite (H a (or_introl eq_refl)). apply IH.
  intros x Hx. apply H. right. exact Hx.
Qed.

Lemma fold_file_form_distinct (fs : list ZohoForm.t) (d : dict ZohoForm.t) :
  NoDup (keys_of d ++ map ZohoForm.link_name fs) ->
  fold_left file_form fs d = d ++ map (fun f => (ZohoForm.link_name f, f)) fs.
Proof.
  revert d; induction fs as [|f fs IH]; intros d Hnd; simpl.
  - rewrite app_nil_r. reflexivity.
  - unfold file_form at 2. rewrite dict_set_new.
    + rewrite IH.
      * rewrite <- app_assoc. reflexivity.
      * unfold keys_of in *. rewrite map_app. simpl.
        rewrite <- app_assoc. exact Hnd.
    + intro Hin. simpl in Hnd. apply NoDup_remove_2 in Hnd.
      apply Hnd. apply in_or_app. left. exact Hin.
Qed.

Lemma fold_file_form_invariant (fs : list ZohoForm.t) (d : dict ZohoForm.t) :
  NoDup (keys_of d) ->
  (forall k f, In (k, f) d -> ZohoForm.link_name f = k) ->
  NoDup (keys_of (fold_left file_form fs d)) /\
  (forall k f, In (k, f) (fold_left file_form fs d) ->
               ZohoForm.link_name f = k /\ (In (k, f) d \/ In f fs)).
Proof.
  revert d; induction fs as [|f fs IH]; intros d Hnd Hkey; simpl.
  - split; [exact Hnd|]. intros k f Hin. split; [apply Hkey; exact Hin|].
    left. exact Hin.
  - destruct (IH (file_form d f)) as [Hnd' Hall].
    + apply keys_of_dict_set_NoDup. exact Hnd.
    + intros k g Hin. apply dict_set_values_in in Hin.
      destruct Hin as [Heq | Hin]; [|apply Hkey; exact Hin].
      injection Heq as -> ->. reflexivity.
    + split; [exact Hnd'|]. intros k g Hin.
      destruct (Hall k g Hin) as [Hk [Hd | Hfs]].
      * split; [exact Hk|]. apply dict_set_values_in in Hd.
        destruct Hd as [Heq | Hd]; [|left; exact Hd].
        injection Heq as -> ->. right. left. reflexivity.
      * split; [exact Hk|]. right. right. exact Hfs.
Qed.

Lemma dict_get_pairs (fs : list ZohoForm.t) (f : ZohoForm.t) :
  NoDup (map ZohoForm.link_name fs) -> In f fs ->
  dict_get (map (fun f => (ZohoForm.link_name f, f)) fs) (ZohoForm.link_name f)
  = Some f.
Proof.
  induction fs as [|g fs IH]; simpl; [intros _ []|].
  intros Hnd [<- | Hin].
  - rewrite String.eqb_refl. reflexivity.
  - inversion Hnd as [|? ? Hnot Hnd']; subst.
    destruct (String.eqb (ZohoForm.link_name g) (ZohoForm.link_name f)) eqn:Hk.
    + apply String.eqb_eq in Hk. exfalso. apply Hnot. rewrite Hk.
      apply in_map. exact Hin.
    + apply IH; assumption.
Qed.

Lemma update_forms_distinct (c : Cache.t) (fs : list ZohoForm.t) (t0 : Z) :
  NoDup (map ZohoForm.link_name fs) ->
  Cache.forms (Cache.update_forms c fs t0) =
  map (fun f => (ZohoForm.link_name f, f)) fs.
Proof.
  intro Hnd. unfold Cache.update_forms, Cache.forms_by_link_name; simpl.
  exact (fold_file_form_distinct fs [] Hnd).
Qed.

Lemma update_forms_values (c : Cache.t) (fs : list ZohoForm.t) (t0 : Z) :
  NoDup (map ZohoForm.link_name fs) ->
  dict_values (Cache.forms (Cache.update_forms c fs t0)) = fs.
Proof.
  intro Hnd. rewrite update_forms_distinct by exact Hnd.
  unfold dict_values. rewrite map_map. simpl. apply map_id.
Qed.

(** X1.  When the forms handed to [update_forms] have pairwise distinct
    link names, the cache gives every one of them back under its link name,
    and the values of the mapping are the forms in the order given. *)
Theorem update_forms_get_form_round_trip :
  forall (c : Cache.t) (fs : list ZohoForm.t) (t0 : Z),
    NoDup (map ZohoForm.link_name fs) ->
    (forall f, In f fs ->
               Cache.get_form (Cache.update_forms c fs t0) (ZohoForm.link_name f)
               = Some f)
    /\ dict_values (Cache.forms (Cache.update_forms c fs t0)) = fs.
Proof.
  intros c fs t0 Hnd.
  split.
  - intros f Hin. unfold Cache.get_form.
    rewrite update_forms_distinct by exact Hnd.
    apply dict_get_pairs; assumption.
  - apply update_forms_values. exact Hnd.
Qed.

Lemma update_forms_get_form_round_trip_witness :
  NoDup (map ZohoForm.link_name [form_named "a"; form_named "b"]) /\
  Cache.get_form
    (Cache.update_forms (Cache.init 300) [form_named "a"; form_named "b"] 5)
    "b" = Some (form_named "b") /\
  dict_values
    (Cache.forms
       (Cache.update_forms (Cache.init 300) [form_named "a"; form_named "b"] 5))
  = [form_named "a"; form_named "b"].
Proof.
  assert (Hnd : NoDup (map ZohoForm.link_name [form_named "a"; form_named "b"])).
  { simpl. constructor; [intros [H | []]; discriminate H|].
    constructor; [intros [] | constructor]. }
  split; [exact Hnd|].
  destruct (update_forms_get_form_round_trip (Cache.init 300)
              [form_named "a"; form_named "b"] 5 Hnd) as [Hget Hvalues].
  split; [|exact Hvalues].
  apply (Hget (form_named "b")). right. left. reflexivity.
Defined.

(** X2.  Whatever sequence [update_forms] receives, the mapping it builds
    has each key once, files every form under its own link name, holds only
    forms of the sequence and no more entries than the sequence has; of
    several forms with one link name the last is kept. *)
Theorem update_forms_snapshot_invariant :
  forall (c : Cache.t) (fs : list ZohoForm.t) (t0 : Z),
    let d := Cache.forms (Cache.update_forms c fs t0) in
    NoDup (map fst d)
    /\ (forall k f, In (k, f) d -> ZohoForm.link_name f = k /\ In f fs)
    /\ (length d <= length fs)%nat
    /\ (forall before f after,
           fs = before ++ f :: after ->
           (forall g, In g after ->
                      ZohoForm.link_name g <> ZohoForm.link_name f) ->
           Cache.get_form (Cache.update_forms c fs t0) (ZohoForm.link_name f)
           = Some f).
Proof.
  intros c fs t0 d.
  assert (Hd : d = fold_left file_form fs []) by reflexivity.
  destruct (fold_file_form_invariant fs []) as [Hnd Hall];
    [constructor | intros k f [] |].
  split; [rewrite Hd; exact Hnd|].
  split; [|split].
  - intros k f Hin. rewrite Hd in Hin.
    destruct (Hall k f Hin) as [Hk [[] | Hfs]].
    split; assumption.
  - rewrite Hd.
    assert (H : forall d0 : dict ZohoForm.t,
               (length (fold_left file_form fs d0) <= length d0 + length fs)%nat).
    { clear. induction fs as [|f fs IH]; intro d0; simpl; [lia|].
      specialize (IH (file_form d0 f)).
      assert (Hl : (length (file_form d0 f) <= S (length d0))%nat)
        by apply length_dict_set.
      lia. }
    exact (H []).
  - intros before f after Hfs Hlast. rewrite get_form_update_forms.
    rewrite Hfs, rev_app_distr. simpl. rewrite <- app_assoc. simpl.
    rewrite find_app_none.
    + simpl. rewrite String.eqb_refl. reflexivity.
    + intros g Hg. apply in_rev in Hg. apply String.eqb_neq.
      apply Hlast. exact Hg.
Qed.

Lemma update_forms_snapshot_invariant_witness :
  let older := {| ZohoForm.link_name := "a"; ZohoForm.display_name := "older";
                  ZohoForm.fields := []; ZohoForm.access_type := "read";
                  ZohoForm.last_modified := 0 |} in
  let newer := {| ZohoForm.link_name := "a"; ZohoForm.display_name := "newer";
                  ZohoForm.fields := []; ZohoForm.access_type := "all";
                  ZohoForm.last_modified := 1 |} in
  Cache.get_form
    (Cache.update_forms (Cache.init 300) [older; form_named "b"; newer] 5) "a"
  = Some newer /\
  (ZohoForm.link_name newer = "a" /\ In newer [older; form_named "b"; newer]).
Proof.
  intros older newer.
  destruct (update_forms_snapshot_invariant (Cache.init 300)
              [older; form_named "b"; newer] 5) as (_ & Hkey & _ & Hlast).
  split.
  - apply (Hlast [older; form_named "b"] newer []).
    + reflexivity.
    + intros g [].
  - apply (Hkey "a" newer). left. reflexivity.
Defined.

(** X3.  For a given cache state staleness only grows with the clock: once
    [needs_refresh] is true it is true at every later reading, and while it
    is false it was false at every earlier one. *)
Theorem needs_refresh_monotone :
  forall (c : Cache.t) (now later : Z),
    (now <= later)%Z ->
    (Cache.needs_refresh c now = true -> Cache.needs_refresh c later = true) /\
    (Cache.needs_refresh c later = false -> Cache.needs_refresh c now = false).
Proof.
  intros c now later Hle.
  unfold Cache.needs_refresh.
  destruct (Cache.last_refresh c) as [t0|].
  - assert (Hd : (now - t0 <= later - t0)%Z) by lia.
    split; intro H.
    + exact (total_seconds_gt_mono _ _ _ Hd H).
    + destruct (Cache.total_seconds_gt (now - t0) (Cache.ttl c)) eqn:Hn;
        [|reflexivity].
      rewrite (total_seconds_gt_mono _ _ _ Hd Hn) in H. discriminate H.
  - split; [reflexivity | discriminate].
Qed.

Lemma needs_refresh_monotone_witness :
  let c := Cache.update_forms (Cache.init 300) [] 0 in
  (300000001 <= 999000000)%Z /\
  Cache.needs_refresh c 999000000 = true /\
  Cache.needs_refresh c 299000000 = false.
Proof.
  intro c. split; [lia|]. split.
  - apply (proj1 (needs_refresh_monotone c 300000001 999000000 ltac:(lia))).
    reflexivity.
  - apply (proj2 (needs_refresh_monotone c 299000000 300000000 ltac:(lia))).
    reflexivity.
Defined.

(** ** The API client, continued *)

Section ClientFacts.
Variable L : Library.
Variable E : Env.

(** The opening of every method but [list_forms]: the headers, then the
    block around the request. *)
Ltac enter_method :=
  unfold bind at 1; unfold auth_get_authorized_headers;
  match goal with
  | Hh : get_authorized_headers E _ = _ |- _ => rewrite Hh
  end;
  try rewrite request_block.

Lemma get_record_run_failure form rid st hdrs e :
  _client st = UNOPENED ->
  get_authorized_headers E (exchanges st) = Ok hdrs ->
  let rq := get_record_rq E hdrs form rid in
  failure_of rq (upstream E (exchanges st) rq) = Some e ->
  get_record L E form rid st =
  (Raise e, after_send st rq (upstream E (exchanges st) rq) CLOSED).
Proof.
  intros Hc Hh rq Hf. unfold get_record. enter_method.
  fold (get_record_rq E hdrs form rid). fold rq. rewrite Hc.
  unfold failure_of in Hf.
  destruct (upstream E (exchanges st) rq) as [rp|e0].
  - destruct (is_success (status_code rp)); [discriminate|].
    injection Hf as <-. reflexivity.
  - injection Hf as <-. reflexivity.
Qed.

Lemma create_record_run_failure form data st hdrs e :
  _client st = UNOPENED ->
  get_authorized_headers E (exchanges st) = Ok hdrs ->
  let rq := create_record_rq E hdrs form data in
  failure_of rq (upstream E (exchanges st) rq) = Some e ->
  create_record L E form data st =
  (Raise e, after_send st rq (upstream E (exchanges st) rq) CLOSED).
Proof.
  intros Hc Hh rq Hf. unfold create_record. enter_method.
  fold (create_record_rq E hdrs form data). fold rq. rewrite Hc.
  unfold failure_of in Hf.
  destruct (upstream E (exchanges st) rq) as [rp|e0].
  - destruct (is_success (status_code rp)); [discriminate|].
    injection Hf as <-. reflexivity.
  - injection Hf as <-. reflexivity.
Qed.

Lemma update_record_run_failure form rid data st hdrs e :
  _client st = UNOPENED ->
  get_authorized_headers E (exchanges st) = Ok hdrs ->
  let rq := update_record_rq E hdrs form rid data in
  failure_of rq (upstream E (exchanges st) rq) = Some e ->
  update_record L E form rid data st =
  (Raise e, after_send st rq (upstream E (exchanges st) rq) CLOSED).
Proof.
  intros Hc Hh rq Hf. unfold update_record. enter_method.
  fold (update_record_rq E hdrs form rid data). fold rq. rewrite Hc.
  unfold failure_of in Hf.
  destruct (upstream E (exchanges st) rq) as [rp|e0].
  - destruct (is_success (status_code rp)); [discriminate|].
    injection Hf as <-. reflexivity.
  - injection Hf as <-. reflexivity.
Qed.

Lemma get_records_run_failure form criteria limit st hdrs e :
  _client st = UNOPENED ->
  get_authorized_headers E (exchanges st) = Ok hdrs ->
  let rq := get_records_rq E hdrs form criteria limit in
  failure_of rq (upstream E (exchanges st) rq) = Some e ->
  get_records L E form criteria limit st =
  (Raise e, after_send st rq (upstream E (exchanges st) rq) CLOSED).
Proof.
  intros Hc Hh rq Hf. rewrite get_records_run, Hh. cbv zeta. fold rq.
  rewrite Hc. unfold failure_of in Hf.
  destruct (upstream E (exchanges st) rq) as [rp|e0].
  - destruct (is_success (status_code rp)); [discriminate|].
    injection Hf as <-. reflexivity.
  - injection Hf as <-. reflexivity.
Qed.

Lemma list_forms_run_failure st hdrs e :
  _client st = UNOPENED ->
  get_authorized_headers E (exchanges st) = Ok hdrs ->
  let rq := forms_rq E hdrs in
  failure_of rq (upstream E (exchanges st) rq) = Some e ->
  list_forms L E true st =
  (Raise e, after_send st rq (upstream E (exchanges st) rq) CLOSED).
Proof.
  intros Hc Hh rq Hf. rewrite list_forms_run. unfold decide_refresh.
  cbn [negb]. cbv beta iota zeta. rewrite Hh. fold rq. rewrite Hc.
  unfold failure_of in Hf.
  destruct (upstream E (exchanges st) rq) as [rp|e0].
  - destruct (is_success (status_code rp)); [discriminate|].
    injection Hf as <-. reflexivity.
  - injection Hf as <-. reflexivity.
Qed.

End ClientFacts.

(** X4.  The headers are asked for before the client is touched: when the
    auth collaborator raises, every method that needs the network raises
    that same exception and leaves the service exactly as it was, with
    nothing sent and the client not consumed. *)
Theorem auth_failure_leaves_service_untouched :
  forall (L : Library) (E : Env) (st : State) (e : exn),
    get_authorized_headers E (exchanges st) = Raise e ->
    (forall form criteria limit,
        get_records L E form criteria limit st = (Raise e, st)) /\
    (forall form rid, get_record L E form rid st = (Raise e, st)) /\
    (forall form data, create_record L E form data st = (Raise e, st)) /\
    (forall form rid data, update_record L E form rid data st = (Raise e, st)) /\
    list_forms L E true st = (Raise e, st).
Proof.
  intros L E st e Hh. repeat split; intros.
  - unfold get_records, bind at 1, auth_get_authorized_headers.
    rewrite Hh. reflexivity.
  - unfold get_record, bind at 1, auth_get_authorized_headers.
    rewrite Hh. reflexivity.
  - unfold create_record, bind at 1, auth_get_authorized_headers.
    rewrite Hh. reflexivity.
  - unfold update_record, bind at 1, auth_get_authorized_headers.
    rewrite Hh. reflexivity.
  - rewrite list_forms_run. unfold decide_refresh. cbn [negb].
    cbv beta iota zeta. rewrite Hh. reflexivity.
Qed.

Lemma auth_failure_leaves_service_untouched_witness :
  get_records lib0 env_auth_down "test_form" None None init_service
    = (Raise AuthError, init_service) /\
  list_forms lib0 env_auth_down true init_service
    = (Raise AuthError, init_service).
Proof.
  destruct (auth_failure_leaves_service_untouched lib0 env_auth_down
              init_service AuthError eq_refl) as (Hrecords & _ & _ & _ & Hforms).
  split; [apply Hrecords | exact Hforms].
Defined.

(** X5.  On a client not yet opened, a reply that is a transport failure
    makes each method raise the transport's exception, and a reply with a
    status outside 200..299 makes it raise the status error of that
    request: the error carries the URL of the method, the query parameters
    sent with it and the status.  [get_records] is the one method that
    sends parameters, so its error carries the criteria and the limit it
    forwarded.  The one request is on record, the client is closed and the
    cache is as before. *)
Theorem failed_request_raises_and_closes :
  forall (L : Library) (E : Env) (st : State) (hdrs : dict string),
    _client st = UNOPENED ->
    get_authorized_headers E (exchanges st) = Ok hdrs ->
    let failing (A : Type) (run : result A * State) (rq : request) : Prop :=
      (forall e,
          upstream E (exchanges st) rq = Raise e ->
          run = (Raise e, after_send st rq (Raise e) CLOSED)) /\
      (forall rp,
          upstream E (exchanges st) rq = Ok rp ->
          is_success (status_code rp) = false ->
          run = (Raise (HTTPStatusError (url rq) (params rq) (status_code rp)),
                 after_send st rq (Ok rp) CLOSED)) in
    (forall form criteria limit,
        failing _ (get_records L E form criteria limit st)
          (get_records_rq E hdrs form criteria limit)) /\
    (forall form s n rp,
        s <> EmptyString -> n <> 0%Z ->
        upstream E (exchanges st) (get_records_rq E hdrs form (Some s) (Some n))
        = Ok rp ->
        is_success (status_code rp) = false ->
        fst (get_records L E form (Some s) (Some n) st) =
        Raise (HTTPStatusError
                 (base_url E ++ "/forms/" ++ form ++ "/records")%string
                 [("criteria"%string, PStr s); ("limit"%string, PInt n)]
                 (status_code rp))) /\
    (forall form rid,
        failing _ (get_record L E form rid st)
          {| method := GET;
             url := (base_url E ++ "/forms/" ++ form ++ "/records/" ++ rid)%string;
             headers := hdrs; params := []; json := None |}) /\
    (forall form data,
        failing _ (create_record L E form data st)
          {| method := POST;
             url := (base_url E ++ "/forms/" ++ form ++ "/records")%string;
             headers := hdrs; params := [];
             json := Some (PDict [("data"%string, PDict data)]) |}) /\
    (forall form rid data,
        failing _ (update_record L E form rid data st)
          {| method := PATCH;
             url := (base_url E ++ "/forms/" ++ form ++ "/records/" ++ rid)%string;
             headers := hdrs; params := [];
             json := Some (PDict [("data"%string, PDict data)]) |}) /\
    failing _ (list_forms L E true st)
      {| method := GET; url := (base_url E ++ "/forms")%string;
         headers := hdrs; params := []; json := None |}.
Proof.
  intros L E st hdrs Hc Hh failing.
  assert (Hfail : forall (A : Type) (run : result A * State) (rq : request),
             (forall e,
                 failure_of rq (upstream E (exchanges st) rq) = Some e ->
                 run = (Raise e,
                        after_send st rq (upstream E (exchanges st) rq) CLOSED)) ->
             failing A run rq).
  { intros A run rq H. split.
    - intros e Hup. rewrite (H e); rewrite Hup; reflexivity.
    - intros rp Hup Hs.
      rewrite (H (HTTPStatusError (url rq) (params rq) (status_code rp)));
        rewrite Hup; [reflexivity|].
      unfold failure_of. rewrite Hs. reflexivity. }
  split; [|split; [|split; [|split; [|split]]]].
  - intros form criteria limit. apply Hfail. intros e He.
    apply get_records_run_failure; assumption.
  - intros form s n rp Hs Hn Hup Hst.
    rewrite (get_records_run_failure L E form (Some s) (Some n) st hdrs
               (HTTPStatusError
                  (url (get_records_rq E hdrs form (Some s) (Some n)))
                  (params (get_records_rq E hdrs form (Some s) (Some n)))
                  (status_code rp)) Hc Hh).
    + cbn [fst get_records_rq url params].
      destruct (get_records_params_spec (Some s) (Some n))
        as (_ & _ & _ & Hboth & _).
      rewrite (Hboth s n eq_refl Hs eq_refl Hn). reflexivity.
    + cbv zeta. rewrite Hup. unfold failure_of. rewrite Hst. reflexivity.
  - intros form rid. apply Hfail. intros e He.
    apply (get_record_run_failure L E form rid st hdrs e Hc Hh He).
  - intros form data. apply Hfail. intros e He.
    apply (create_record_run_failure L E form data st hdrs e Hc Hh He).
  - intros form rid data. apply Hfail. intros e He.
    apply (update_record_run_failure L E form rid data st hdrs e Hc Hh He).
  - apply Hfail. intros e He.
    apply (list_forms_run_failure L E st hdrs e Hc Hh He).
Qed.

Lemma failed_request_raises_and_closes_witness :
  fst (get_records lib0 env_503 "test_form" (Some "Status==Open") (Some 25%Z)
         init_service)
    = Raise (HTTPStatusError (base0 ++ "/forms/test_form/records")
               [("criteria"%string, PStr "Status==Open");
                ("limit"%string, PInt 25)] 503) /\
  update_record lib0 env_503 "test_form" "123" updated_data0 init_service
    = (Raise (HTTPStatusError (base0 ++ "/forms/test_form/records/123") [] 503),
       after_send init_service
         (update_record_rq env_503 headers0 "test_form" "123" updated_data0)
         (Ok {| status_code := 503; body := None |}) CLOSED) /\
  get_records lib0 env_unreachable "test_form" None None init_service
    = (Raise (RequestError (base0 ++ "/forms/test_form/records")),
       after_send init_service
         (get_records_rq env_unreachable headers0 "test_form" None None)
         (Raise (RequestError (base0 ++ "/forms/test_form/records"))) CLOSED).
Proof.
  split; [|split].
  - destruct (failed_request_raises_and_closes lib0 env_503 init_service
                headers0 eq_refl eq_refl) as (_ & H & _).
    apply (H "test_form" "Status==Open"%string 25%Z
             {| status_code := 503; body := None |});
      first [discriminate | reflexivity].
  - destruct (failed_request_raises_and_closes lib0 env_503 init_service
                headers0 eq_refl eq_refl) as (_ & _ & _ & _ & H & _).
    destruct (H "test_form" "123" updated_data0) as [_ Hstatus].
    apply (Hstatus {| status_code := 503; body := None |}); reflexivity.
  - destruct (failed_request_raises_and_closes lib0 env_unreachable init_service
                headers0 eq_refl eq_refl) as (H & _).
    destruct (H "test_form" None None) as [Htransport _].
    apply Htransport. reflexivity.
Defined.

Lemma for_each_all_ok {A B} (f : A -> M B) (l : list A) (ys : list B) st :
  Forall2 (fun x y => forall s, f x s = (Ok y, s)) l ys ->
  for_each l f st = (Ok ys, st).
Proof.
  intro H. induction H as [|x y l ys Hx _ IH]; simpl; [reflexivity|].
  unfold bind. rewrite Hx. unfold bind in IH. rewrite IH. reflexivity.
Qed.

Lemma for_each_first_failure {A B} (f : A -> M B) (good : list A) (ys : list B)
  (bad : A) (rest : list A) (e : exn) st :
  Forall2 (fun x y => forall s, f x s = (Ok y, s)) good ys ->
  f bad st = (Raise e, st) ->
  for_each (good ++ bad :: rest) f st = (Raise e, st).
Proof.
  intros H Hbad. induction H as [|x y l ys' Hx _ IH]; simpl.
  - unfold bind. rewrite Hbad. reflexivity.
  - unfold bind. rewrite Hx. unfold bind in IH. rewrite IH. reflexivity.
Qed.

Section ClientFacts2.
Variable L : Library.
Variable E : Env.

Lemma record_of_item_converts form item r st :
  converts L form item r -> record_of_item L form item st = (Ok r, st).
Proof.
  intros (Hid & Hitem & Hform & s1 & s2 & Hc & Hm & Hpc & Hpm).
  unfold record_of_item, bind, lift. rewrite Hid, Hc. simpl.
  rewrite Hpc, Hm. simpl. rewrite Hpm. subst item form.
  destruct r; reflexivity.
Qed.

Lemma field_of_item_json item f st :
  is_field_json item f -> field_of_item L item st = (Ok f, st).
Proof.
  intros (d & -> & Ha & Hd & Ht & Hr & Hm & Hm' & Hl & Hl' & Hc & Hc').
  unfold field_of_item, bind, lift, getitem, py_get.
  rewrite Ha, Hd, Ht, Hm, Hl, Hc.
  destruct f as [a dn t m r l c]; simpl in *. subst m l c.
  destruct Hr as [Hr | [Hr ->]]; rewrite Hr; reflexivity.
Qed.

(** Only [list_forms] writes the cache. *)
Lemma record_calls_keep_cache st :
  (forall form criteria limit,
      cache (snd (get_records L E form criteria limit st)) = cache st) /\
  (forall form rid, cache (snd (get_record L E form rid st)) = cache st) /\
  (forall form data, cache (snd (create_record L E form data st)) = cache st) /\
  (forall form rid data,
      cache (snd (update_record L E form rid data st)) = cache st).
Proof.
  repeat split; intros.
  - rewrite get_records_run. cbv zeta. run_cases; reflexivity.
  - unfold get_record, bind at 1, auth_get_authorized_headers.
    destruct (get_authorized_headers E (exchanges st)); [|reflexivity].
    rewrite request_block. unfold bind, lift. run_cases; reflexivity.
  - unfold create_record, bind at 1, auth_get_authorized_headers.
    destruct (get_authorized_headers E (exchanges st)); [|reflexivity].
    rewrite request_block. unfold bind, lift. run_cases; reflexivity.
  - unfold update_record, bind at 1, auth_get_authorized_headers.
    destruct (get_authorized_headers E (exchanges st)); [|reflexivity].
    rewrite request_block. unfold bind, lift. run_cases; reflexivity.
Qed.

(** [list_forms] leaves the cache as it was or replaces it by an empty
    snapshot. *)
Lemma list_forms_cache_after force st :
  cache (snd (list_forms L E force st)) = cache st \/
  exists t, cache (snd (list_forms L E force st)) =
            Cache.update_forms (cache st) [] t.
Proof.
  rewrite list_forms_run.
  assert (Hst : cache (snd (decide_refresh E force st)) = cache st).
  { unfold decide_refresh. destruct force; [reflexivity|].
    destruct (Cache.last_refresh (cache st)); reflexivity. }
  destruct (decide_refresh E force st) as [refresh st0]. cbn [snd] in Hst.
  destruct refresh; cbn [negb]; cbv beta iota zeta; [|left; exact Hst].
  run_cases; cbn [snd];
    first [left; exact Hst
          | right; eexists; cbn; rewrite Hst; reflexivity].
Qed.

End ClientFacts2.

Lemma record0_converts :
  converts lib0 "test_form" (PDict record0) record0_converted.
Proof.
  repeat split.
  exists "2024-01-01T00:00:00Z", "2024-01-02T08:30:00Z".
  repeat split.
Qed.

(** X6.  Only [list_forms] writes the cache: whatever they return or raise,
    [get_records], [get_record], [create_record], [update_record] and
    [close] leave the forms mapping and [last_refresh] as they were. *)
Theorem record_methods_keep_cache :
  forall (L : Library) (E : Env) (st : State),
    (forall form criteria limit,
        cache (snd (get_records L E form criteria limit st)) = cache st) /\
    (forall form rid, cache (snd (get_record L E form rid st)) = cache st) /\
    (forall form data, cache (snd (create_record L E form data st)) = cache st) /\
    (forall form rid data,
        cache (snd (update_record L E form rid data st)) = cache st) /\
    cache (snd (close st)) = cache st.
Proof.
  intros L E st.
  destruct (record_calls_keep_cache L E st) as (H1 & H2 & H3 & H4).
  repeat split; auto.
Qed.

(** X7.  [get_records] returns one record per item of the upstream
    [records] list, in the same order; each record has the [ID] of its item
    as id, the whole item as data and the requested form as
    [form_link_name].  [get_record] returns the id it was asked for and the
    whole upstream record as data. *)
Theorem read_records_keep_upstream_objects :
  forall (L : Library) (E : Env) (form rid : string)
         (criteria : option string) (limit : option Z) (st st' : State),
    (forall rs,
        get_records L E form criteria limit st = (Ok rs, st') ->
        exists rq v rj items,
          answered_with st st' rq v /\
          getitem v "records" = Ok rj /\ py_iter rj = Ok items /\
          Forall2 (converts L form) items rs /\
          length rs = length items)
    /\
    (forall r,
        get_record L E form rid st = (Ok r, st') ->
        exists rq v,
          answered_with st st' rq v /\
          getitem v "record" = Ok (PDict (ZohoRecord.data r)) /\
          ZohoRecord.id r = rid /\
          ZohoRecord.form_link_name r = form).
Proof.
  intros L E form rid criteria limit st st'. split.
  - intros rs H. apply get_records_ok in H.
    destruct H as (rq & v & rj & items & Ha & _ & _ & Hr & Hi & Hall).
    exists rq, v, rj, items. repeat split; try assumption.
    symmetry. exact (Forall2_length Hall).
  - intros r H. apply get_record_ok in H.
    destruct H as (rq & v & raw & Ha & _ & _ & _ & _ & Hr & Hid & _ & Hf & Hraw).
    exists rq, v. subst raw. repeat split; assumption.
Qed.

Lemma read_records_keep_upstream_objects_witness :
  (exists rs st',
      get_records lib0 env0 "test_form" None None init_service = (Ok rs, st') /\
      exists items, Forall2 (converts lib0 "test_form") items rs /\
                    length rs = length items) /\
  (exists r st',
      get_record lib0 env0 "test_form" "123" init_service = (Ok r, st') /\
      ZohoRecord.id r = "123" /\ ZohoRecord.form_link_name r = "test_form").
Proof.
  split.
  - destruct (get_records lib0 env0 "test_form" None None init_service)
      as [[rs|e] st'] eqn:Hrun; [|vm_compute in Hrun; discriminate Hrun].
    exists rs, st'. split; [reflexivity|].
    destruct (proj1 (read_records_keep_upstream_objects lib0 env0 "test_form"
                       "123" None None init_service st') rs Hrun)
      as (rq & v & rj & items & _ & _ & _ & Hall & Hlen).
    exists items. split; assumption.
  - destruct (get_record lib0 env0 "test_form" "123" init_service)
      as [[r|e] st'] eqn:Hrun; [|vm_compute in Hrun; discriminate Hrun].
    exists r, st'. split; [reflexivity|].
    destruct (proj2 (read_records_keep_upstream_objects lib0 env0 "test_form"
                       "123" None None init_service st') r Hrun)
      as (rq & v & _ & _ & Hid & Hf).
    split; assumption.
Defined.

(** X8.  On a client not yet opened, when upstream answers a success
    status with a [records] list whose items all convert (an object with a
    string [ID] and two timestamps [fromisoformat] accepts after
    normalization), [get_records] returns exactly the converted records and
    leaves the client closed; an empty list gives an empty result. *)
Theorem get_records_returns_converted_records :
  forall (L : Library) (E : Env) (form : string) (criteria : option string)
         (limit : option Z) (st : State) (hdrs : dict string) (rp : response)
         (v rj : pyval) (items : list pyval) (rs : list ZohoRecord.t),
    _client st = UNOPENED ->
    get_authorized_headers E (exchanges st) = Ok hdrs ->
    let rq := get_records_rq E hdrs form criteria limit in
    upstream E (exchanges st) rq = Ok rp ->
    is_success (status_code rp) = true ->
    body rp = Some v ->
    getitem v "records" = Ok rj ->
    py_iter rj = Ok items ->
    Forall2 (converts L form) items rs ->
    get_records L E form criteria limit st =
    (Ok rs, after_send st rq (Ok rp) CLOSED).
Proof.
  intros L E form criteria limit st hdrs rp v rj items rs Hc Hh rq Hup Hs Hb
         Hr Hi Hall.
  rewrite get_records_run, Hh. cbv zeta. fold rq.
  rewrite Hc, Hup, Hs, Hb, Hr, Hi.
  rewrite (for_each_all_ok (record_of_item L form) items rs).
  - reflexivity.
  - revert Hall. apply Forall2_impl. intros item r Hconv s.
    apply record_of_item_converts. exact Hconv.
Qed.

Lemma get_records_returns_converted_records_witness :
  get_records lib0 env0 "test_form" None None init_service =
  (Ok [record0_converted],
   after_send init_service
     (get_records_rq env0 headers0 "test_form" None None)
     (ok_json (PDict [("records", PList [PDict record0])])) CLOSED).
Proof.
  apply (get_records_returns_converted_records lib0 env0 "test_form" None None
           init_service headers0
           {| status_code := 200;
              body := Some (PDict [("records", PList [PDict record0])]) |}
           (PDict [("records", PList [PDict record0])])
           (PList [PDict record0]) [PDict record0]);
    try reflexivity.
  constructor; [exact record0_converts | constructor].
Defined.

(** X9.  [get_records] returns all records or none: when an item of the
    upstream list has no [ID] to read, or a [Created_Time] that is not a
    string, the call raises that item's error ([KeyError], [TypeError],
    [AttributeError]) although the items before it converted, and the
    client is closed all the same. *)
Theorem get_records_fails_on_first_bad_record :
  forall (L : Library) (E : Env) (form : string) (criteria : option string)
         (limit : option Z) (st : State) (hdrs : dict string) (rp : response)
         (v rj : pyval) (good rest : list pyval) (bad : pyval)
         (rs : list ZohoRecord.t),
    _client st = UNOPENED ->
    get_authorized_headers E (exchanges st) = Ok hdrs ->
    let rq := get_records_rq E hdrs form criteria limit in
    upstream E (exchanges st) rq = Ok rp ->
    is_success (status_code rp) = true ->
    body rp = Some v ->
    getitem v "records" = Ok rj ->
    py_iter rj = Ok (good ++ bad :: rest) ->
    Forall2 (converts L form) good rs ->
    (forall e,
        getitem bad "ID" = Raise e ->
        get_records L E form criteria limit st =
        (Raise e, after_send st rq (Ok rp) CLOSED))
    /\
    (forall idv created,
        getitem bad "ID" = Ok idv ->
        getitem bad "Created_Time" = Ok created ->
        (forall s, created <> PStr s) ->
        get_records L E form criteria limit st =
        (Raise AttributeError, after_send st rq (Ok rp) CLOSED)).
Proof.
  intros L E form criteria limit st hdrs rp v rj good rest bad rs Hc Hh rq Hup
         Hs Hb Hr Hi Hall.
  assert (Hgood : Forall2 (fun x y => forall s,
                             record_of_item L form x s = (Ok y, s)) good rs).
  { revert Hall. apply Forall2_impl. intros item r Hconv s.
    apply record_of_item_converts. exact Hconv. }
  split.
  - intros e Hid.
    rewrite get_records_run, Hh. cbv zeta. fold rq.
    rewrite Hc, Hup, Hs, Hb, Hr, Hi.
    rewrite (for_each_first_failure _ good rs bad rest e); [reflexivity | exact Hgood |].
    unfold record_of_item, bind, lift. rewrite Hid. reflexivity.
  - intros idv created Hid Hcreated Hnot.
    rewrite get_records_run, Hh. cbv zeta. fold rq.
    rewrite Hc, Hup, Hs, Hb, Hr, Hi.
    rewrite (for_each_first_failure _ good rs bad rest AttributeError);
      [reflexivity | exact Hgood |].
    unfold record_of_item, bind, lift. rewrite Hid, Hcreated.
    destruct created; try reflexivity. exfalso. exact (Hnot s eq_refl).
Qed.

Lemma get_records_fails_on_first_bad_record_witness :
  get_records lib0 env_record_without_id "test_form" None None init_service =
  (Raise (KeyError "ID"),
   after_send init_service (get_records_rq env_record_without_id headers0
                              "test_form" None None)
     (ok_json (PDict [("records", PList [PDict record0; PDict patched0])]))
     CLOSED).
Proof.
  destruct (get_records_fails_on_first_bad_record lib0 env_record_without_id
              "test_form" None None init_service headers0
              {| status_code := 200;
                 body := Some (PDict [("records",
                                       PList [PDict record0; PDict patched0])]) |}
              (PDict [("records", PList [PDict record0; PDict patched0])])
              (PList [PDict record0; PDict patched0])
              [PDict record0] [] (PDict patched0) [record0_converted]
              eq_refl eq_refl eq_refl eq_refl eq_refl eq_refl eq_refl)
    as [Hmissing _].
  - constructor; [exact record0_converts | constructor].
  - apply Hmissing. reflexivity.
Defined.

Section Lifecycle.
Variable L : Library.
Variable E : Env.

Ltac enter_call :=
  unfold bind at 1; unfold auth_get_authorized_headers;
  match goal with
  | Hh : get_authorized_headers E _ = _ |- _ => rewrite Hh
  end;
  try rewrite request_block.

(** A client that is open or closed refuses the block of every call. *)
Lemma used_client_refuses c st hdrs :
  _client st <> UNOPENED ->
  get_authorized_headers E (exchanges st) = Ok hdrs ->
  exists msg, run_call L E c st = (Some (RuntimeError msg), st).
Proof.
  intros Hc Hh.
  destruct (_client st) eqn:Hs; [contradiction | |].
  - exists "Cannot open a client instance more than once.".
    destruct c; unfold run_call.
    + rewrite get_records_run, Hh. cbv zeta. rewrite Hs. reflexivity.
    + unfold get_record. enter_call. rewrite Hs. reflexivity.
    + unfold create_record. enter_call. rewrite Hs. reflexivity.
    + unfold update_record. enter_call. rewrite Hs. reflexivity.
    + rewrite list_forms_run. unfold decide_refresh. cbn [negb].
      cbv beta iota zeta. rewrite Hh, Hs. reflexivity.
  - exists "Cannot reopen a client instance, once it has been closed.".
    destruct c; unfold run_call.
    + rewrite get_records_run, Hh. cbv zeta. rewrite Hs. reflexivity.
    + unfold get_record. enter_call. rewrite Hs. reflexivity.
    + unfold create_record. enter_call. rewrite Hs. reflexivity.
    + unfold update_record. enter_call. rewrite Hs. reflexivity.
    + rewrite list_forms_run. unfold decide_refresh. cbn [negb].
      cbv beta iota zeta. rewrite Hh, Hs. reflexivity.
Qed.

(** A call that got its headers leaves the client used. *)
Lemma call_uses_client c st hdrs :
  get_authorized_headers E (exchanges st) = Ok hdrs ->
  _client (snd (run_call L E c st)) <> UNOPENED.
Proof.
  intro Hh.
  destruct (_client st) eqn:Hs.
  - destruct (first_call_closes_client L E st hdrs Hs Hh)
      as (H1 & H2 & H3 & H4 & H5).
    assert (Hr : forall A (r : result A * State),
               snd (raised_by r) = snd r).
    { intros A [[a|e] s]; reflexivity. }
    destruct c; unfold run_call; rewrite Hr;
      [rewrite H1 | rewrite H2 | rewrite H3 | rewrite H4 | rewrite H5];
      discriminate.
  - destruct (used_client_refuses c st hdrs) as (msg & ->);
      [rewrite Hs; discriminate | exact Hh |].
    cbn [snd]. rewrite Hs. discriminate.
  - destruct (used_client_refuses c st hdrs) as (msg & ->);
      [rewrite Hs; discriminate | exact Hh |].
    cbn [snd]. rewrite Hs. discriminate.
Qed.

End Lifecycle.

(** X10.  A service reaches the network in one call only.  After any of
    [get_records], [get_record], [create_record], [update_record] or a
    forced [list_forms] got its headers, returning or raising, every
    further such call that gets its headers raises the client's
    [RuntimeError], sends nothing and leaves the service as it was. *)
Theorem second_network_call_raises :
  forall (L : Library) (E : Env) (c1 c2 : call) (st : State)
         (hdrs hdrs' : dict string),
    get_authorized_headers E (exchanges st) = Ok hdrs ->
    let st1 := snd (run_call L E c1 st) in
    get_authorized_headers E (exchanges st1) = Ok hdrs' ->
    exists msg, run_call L E c2 st1 = (Some (RuntimeError msg), st1).
Proof.
  intros L E c1 c2 st hdrs hdrs' Hh st1 Hh'.
  apply (used_client_refuses L E c2 st1 hdrs'); [|exact Hh'].
  apply (call_uses_client L E c1 st hdrs). exact Hh.
Qed.

Lemma second_network_call_raises_witness :
  run_call lib0 env0 (CreateRecord "test_form" new_data0) init_service =
  (None, after_send init_service
           (create_record_rq env0 headers0 "test_form" new_data0)
           (ok_json (PDict [("record", PDict record0)])) CLOSED)
  /\
  exists msg,
    run_call lib0 env0 (GetRecord "test_form" "123")
      (snd (run_call lib0 env0 (CreateRecord "test_form" new_data0)
              init_service)) =
    (Some (RuntimeError msg),
     snd (run_call lib0 env0 (CreateRecord "test_form" new_data0)
            init_service)).
Proof.
  split; [vm_compute; reflexivity|].
  apply (second_network_call_raises lib0 env0
           (CreateRecord "test_form" new_data0) (GetRecord "test_form" "123")
           init_service headers0 headers0); reflexivity.
Defined.

(** X11.  A refresh by [list_forms] returns only when upstream listed no
    form: it then returns the empty list, has sent the one forms request,
    leaves the client closed and the cache emptied, with [last_refresh]
    set to the clock reading taken by [update_forms]. *)
Theorem list_forms_refresh_returns_only_empty :
  forall (L : Library) (E : Env) (force : bool) (st st' : State)
         (forms : list ZohoForm.t),
    fst (decide_refresh E force st) = true ->
    list_forms L E force st = (Ok forms, st') ->
    let st0 := snd (decide_refresh E force st) in
    forms = [] /\
    Cache.forms (cache st') = [] /\
    Cache.last_refresh (cache st') = Some (now E (clock_reads st0)) /\
    Cache.ttl (cache st') = Cache.ttl (cache st) /\
    _client st' = CLOSED /\
    clock_reads st' = S (clock_reads st0) /\
    exists hdrs v,
      get_authorized_headers E (exchanges st0) = Ok hdrs /\
      answered_with st st' (forms_rq E hdrs) v /\
      (exists fj, getitem v "forms" = Ok fj /\ py_iter fj = Ok []).
Proof.
  intros L E force st st' forms Hd H st0. subst st0.
  rewrite list_forms_run in H.
  assert (Hst : exchanges (snd (decide_refresh E force st)) = exchanges st
                /\ cache (snd (decide_refresh E force st)) = cache st).
  { unfold decide_refresh. destruct force; [split; reflexivity|].
    destruct (Cache.last_refresh (cache st)); split; reflexivity. }
  destruct Hst as [Hex Hca].
  destruct (decide_refresh E force st) as [refresh st0].
  cbn [fst snd] in *. subst refresh. cbn [negb] in H. cbv beta iota zeta in H.
  repeat run_step H. injection H as <- <-.
  cbn. rewrite Hca. repeat split.
  eexists _, _. split; [reflexivity|]. split.
  - eexists. cbn. rewrite Hex. repeat split; eassumption.
  - eexists. split; eassumption.
Qed.

Lemma list_forms_refresh_returns_only_empty_witness :
  exists st',
    list_forms lib0 env_empty false init_service = (Ok [], st') /\
    Cache.forms (cache st') = [] /\
    Cache.last_refresh (cache st') = Some 0%Z /\
    _client st' = CLOSED.
Proof.
  destruct (list_forms lib0 env_empty false init_service)
    as [[forms|e] st'] eqn:Hrun; [|vm_compute in Hrun; discriminate Hrun].
  destruct (list_forms_refresh_returns_only_empty lib0 env_empty false
              init_service st' forms eq_refl Hrun)
    as (-> & Hf & Hl & _ & Hc & _).
  exists st'. repeat split; assumption.
Defined.

(** X12.  When the forms request is answered with a listing that has at
    least one item, a refresh on an unopened client raises whatever the rest
    of the listing holds: the lookup error of the first item when it has no
    [link_name] to read, the client's [RuntimeError] otherwise, as
    [_get_form_fields] opens the client a second time.  One request went
    out, the fields were never requested and the cache is untouched. *)
Theorem list_forms_nonempty_listing_raises :
  forall (L : Library) (E : Env) (st : State) (hdrs : dict string)
         (rp : response) (v fj x : pyval) (rest : list pyval),
    _client st = UNOPENED ->
    get_authorized_headers E (exchanges st) = Ok hdrs ->
    upstream E (exchanges st) (forms_rq E hdrs) = Ok rp ->
    is_success (status_code rp) = true ->
    body rp = Some v ->
    getitem v "forms" = Ok fj ->
    py_iter fj = Ok (x :: rest) ->
    list_forms L E true st =
    (Raise match getitem x "link_name" with
           | Raise e => e
           | Ok _ => already_open
           end,
     after_send st (forms_rq E hdrs) (Ok rp) CLOSED).
Proof.
  intros L E st hdrs rp v fj x rest Hc Hh Hup Hs Hb Hf Hi.
  rewrite list_forms_run. unfold decide_refresh. cbn [negb].
  cbv beta iota zeta. rewrite Hh, Hc, Hup, Hs, Hb, Hf, Hi. reflexivity.
Qed.

Lemma list_forms_nonempty_listing_raises_witness :
  list_forms lib0 env0 true init_service =
  (Raise already_open,
   after_send init_service (forms_rq env0 headers0) (ok_json forms_body0)
     CLOSED).
Proof.
  exact (list_forms_nonempty_listing_raises lib0 env0 init_service headers0
           {| status_code := 200; body := Some forms_body0 |} forms_body0 _ _ _
           eq_refl eq_refl eq_refl eq_refl eq_refl eq_refl eq_refl).
Defined.

(** X13.  While the cache is fresh, [list_forms()] answers from it whatever
    the state of the client and of the auth collaborator: nothing is sent,
    the clock is read once, and when the cached forms had distinct link
    names the answer is the list [update_forms] was given, in its order. *)
Theorem list_forms_serves_fresh_cache :
  forall (L : Library) (E : Env) (st : State) (c : Cache.t)
         (fs : list ZohoForm.t) (t0 : Z),
    cache st = Cache.update_forms c fs t0 ->
    NoDup (map ZohoForm.link_name fs) ->
    (now E (clock_reads st) - t0 <= Cache.ttl c * 1000000)%Z ->
    list_forms L E false st = (Ok fs, tick st).
Proof.
  intros L E st c fs t0 Hca Hnd Hfresh.
  rewrite (list_forms_cached L E st t0).
  - rewrite Hca, update_forms_values by exact Hnd. reflexivity.
  - rewrite Hca. reflexivity.
  - rewrite Hca. unfold Cache.needs_refresh. cbn.
    apply total_seconds_gt_le. exact Hfresh.
Qed.

Lemma list_forms_serves_fresh_cache_witness :
  list_forms lib0 env_auth_down false
    (cached_service [orders_form; form_named "a"]) =
  (Ok [orders_form; form_named "a"],
   tick (cached_service [orders_form; form_named "a"])).
Proof.
  apply (list_forms_serves_fresh_cache lib0 env_auth_down
           (cached_service [orders_form; form_named "a"]) (Cache.init 300)
           [orders_form; form_named "a"] 0).
  - reflexivity.
  - simpl. constructor; [intros [H | []]; discriminate H|].
    constructor; [intros [] | constructor].
  - vm_compute. discriminate.
Defined.

(** X14.  [close] never raises and sends nothing; it keeps the cache, and
    closing twice is closing once.  After it every call that needs the
    network raises the closed client's [RuntimeError] without sending,
    while a fresh cache still answers [list_forms()]. *)
Theorem close_ends_network_use :
  forall (L : Library) (E : Env) (st : State),
    let st1 := snd (close st) in
    fst (close st) = Ok tt /\
    cache st1 = cache st /\ exchanges st1 = exchanges st /\
    clock_reads st1 = clock_reads st /\
    close st1 = (Ok tt, st1) /\
    (forall c hdrs,
        get_authorized_headers E (exchanges st) = Ok hdrs ->
        run_call L E c st1 = (Some already_closed, st1)) /\
    (forall t0,
        Cache.last_refresh (cache st) = Some t0 ->
        Cache.needs_refresh (cache st) (now E (clock_reads st)) = false ->
        list_forms L E false st1 =
        (Ok (dict_values (Cache.forms (cache st))), tick st1)).
Proof.
  intros L E st st1. subst st1. unfold close, aclose. cbn [fst snd].
  repeat split.
  - intros c hdrs Hh.
    destruct (closed_client_refuses L E (with_client st CLOSED) hdrs eq_refl Hh)
      as (H1 & H2 & H3 & H4 & H5).
    destruct c; unfold run_call;
      [rewrite H1 | rewrite H2 | rewrite H3 | rewrite H4 | rewrite H5];
      reflexivity.
  - intros t0 Hl Hn.
    exact (list_forms_cached L E (with_client st CLOSED) t0 Hl Hn).
Qed.

Lemma close_ends_network_use_witness :
  run_call lib0 env0 (GetRecords "test_form" None None)
    (snd (close init_service)) =
  (Some already_closed, snd (close init_service)) /\
  list_forms lib0 env0 false
    (snd (close (cached_service [orders_form]))) =
  (Ok [orders_form], tick (snd (close (cached_service [orders_form])))).
Proof.
  split.
  - destruct (close_ends_network_use lib0 env0 init_service)
      as (_ & _ & _ & _ & _ & Hcall & _).
    exact (Hcall (GetRecords "test_form" None None) headers0 eq_refl).
  - destruct (close_ends_network_use lib0 env0 (cached_service [orders_form]))
      as (_ & _ & _ & _ & _ & _ & Hlist).
    exact (Hlist 0%Z eq_refl eq_refl).
Defined.

(** X15.  Called on its own on an unopened client, [_get_form_fields]
    returns one field per item of the upstream [fields] list, in order,
    when every item is an object with string [api_name], [display_name]
    and [type]: a missing [required] reads as [False], and missing
    [max_length], [lookup] and [choices] as [None].  The client is closed
    afterwards and the cache untouched. *)
Theorem get_form_fields_fills_defaults :
  forall (L : Library) (E : Env) (link : pyval) (hdrs : dict string)
         (st : State) (rp : response) (v fj : pyval) (items : list pyval)
         (fs : list ZohoField.t),
    _client st = UNOPENED ->
    upstream E (exchanges st) (fields_rq L E link hdrs) = Ok rp ->
    is_success (status_code rp) = true ->
    body rp = Some v ->
    getitem v "fields" = Ok fj ->
    py_iter fj = Ok items ->
    Forall2 is_field_json items fs ->
    _get_form_fields L E link hdrs st =
    (Ok fs, after_send st (fields_rq L E link hdrs) (Ok rp) CLOSED).
Proof.
  intros L E link hdrs st rp v fj items fs Hc Hup Hs Hb Hf Hi Hall.
  rewrite get_form_fields_run. cbv zeta.
  rewrite Hc, Hup, Hs, Hb, Hf, Hi.
  rewrite (for_each_all_ok (field_of_item L) items fs); [reflexivity|].
  revert Hall. apply Forall2_impl. intros item f Hj s.
  apply field_of_item_json. exact Hj.
Qed.

Lemma get_form_fields_fills_defaults_witness :
  _get_form_fields lib0 env0 (PStr "orders") headers0 init_service =
  (Ok [{| ZohoField.api_name := "test_field";
          ZohoField.display_name := "Test Field";
          ZohoField.field_type := "text";
          ZohoField.max_length := None;
          ZohoField.required := true;
          ZohoField.lookup := None;
          ZohoField.choices := None |}],
   after_send init_service (fields_rq lib0 env0 (PStr "orders") headers0)
     (ok_json fields_body0) CLOSED).
Proof.
  apply (get_form_fields_fills_defaults lib0 env0 (PStr "orders") headers0
           init_service {| status_code := 200; body := Some fields_body0 |}
           fields_body0 _ _ _ eq_refl eq_refl eq_refl eq_refl eq_refl eq_refl).
  constructor; [|constructor].
  eexists. split; [reflexivity|]. cbn.
  repeat split. left. reflexivity.
Defined.

(** ** The resource router, continued *)

Local Open Scope string_scope.

Lemma append_empty_r (s : string) : s ++ "" = s.
Proof. induction s as [|c s IH]; simpl; [|rewrite IH]; reflexivity. Qed.

Lemma append_assoc (a b c : string) : (a ++ b) ++ c = a ++ (b ++ c).
Proof. induction a as [|x a IH]; simpl; [|rewrite IH]; reflexivity. Qed.

Lemma remove_chars_app p a b :
  remove_chars p (a ++ b) = remove_chars p a ++ remove_chars p b.
Proof.
  induction a as [|c a IH]; simpl; [reflexivity|].
  destruct (p c); rewrite IH; reflexivity.
Qed.

Lemma break_app_skip p a b :
  string_forallb (fun c => negb (p c)) a = true ->
  break p (a ++ b) = (a ++ fst (break p b), snd (break p b)).
Proof.
  induction a as [|c a IH]; simpl.
  - intros _. destruct (break p b); reflexivity.
  - intro H. apply andb_true_iff in H. destruct H as [Hc Ha].
    apply negb_true_iff in Hc. rewrite Hc, (IH Ha). reflexivity.
Qed.

Lemma break_app_hit p a c b :
  string_forallb (fun c => negb (p c)) a = true -> p c = true ->
  break p (a ++ String c b) = (a, String c b).
Proof.
  intros Ha Hc. rewrite break_app_skip by exact Ha.
  simpl. rewrite Hc. simpl. rewrite append_empty_r. reflexivity.
Qed.

Lemma string_existsb_none p s :
  string_forallb (fun c => negb (p c)) s = true -> string_existsb p s = false.
Proof. intro H. unfold string_existsb. rewrite H. reflexivity. Qed.

Lemma rstrip_app_drop p a b :
  rstrip p b = "" -> rstrip p (a ++ b) = rstrip p a.
Proof.
  intro Hb. induction a as [|c a IH]; simpl; [exact Hb|].
  rewrite IH. reflexivity.
Qed.

Lemma alpha_of_lower c :
  is_lower (lower_char c) = true -> is_ascii_alpha c = true.
Proof.
  destruct c as [[] [] [] [] [] [] [] []]; vm_compute; intro H;
    first [reflexivity | discriminate H].
Qed.

Lemma alpha_facts c :
  is_ascii_alpha c = true ->
  is_c0_control_or_space c = false /\ is_unsafe_url_byte c = false /\
  is_char ":" c = false /\ is_scheme_char c = true.
Proof.
  destruct c as [[] [] [] [] [] [] [] []]; vm_compute; intro H;
    first [discriminate H | repeat split].
Qed.

(** A scheme that reads [zoho] once lowered is four letters. *)
Lemma zoho_scheme_letters sch :
  is_zoho_scheme sch = true ->
  exists c1 c2 c3 c4,
    sch = String c1 (String c2 (String c3 (String c4 ""))) /\
    is_ascii_alpha c1 = true /\ is_ascii_alpha c2 = true /\
    is_ascii_alpha c3 = true /\ is_ascii_alpha c4 = true /\
    lower sch = "zoho".
Proof.
  unfold is_zoho_scheme. intro H. apply String.eqb_eq in H.
  destruct sch as [|c1 [|c2 [|c3 [|c4 [|c5 r]]]]]; try discriminate H.
  exists c1, c2, c3, c4. split; [reflexivity|].
  pose proof H as H0. simpl in H. injection H as H1 H2 H3 H4.
  repeat split; try apply alpha_of_lower;
    first [rewrite H1 | rewrite H2 | rewrite H3 | rewrite H4 | exact H0];
    reflexivity.
Qed.

Lemma split_netloc_none url :
  prefix "//" url = false -> split_netloc url = ("", url).
Proof.
  destruct url as [|a [|b r]]; intro H.
  - reflexivity.
  - destruct a as [[] [] [] [] [] [] [] []]; reflexivity.
  - destruct (Ascii.eqb_spec a "/") as [->|Ha].
    + destruct (Ascii.eqb_spec b "/") as [->|Hb].
      * simpl in H. destruct r; discriminate H.
      * destruct b as [[] [] [] [] [] [] [] []];
          first [reflexivity | exfalso; apply Hb; reflexivity].
    + destruct a as [[] [] [] [] [] [] [] []];
        first [reflexivity | exfalso; apply Ha; reflexivity].
Qed.

Lemma lstrip_keep p c s : p c = false -> lstrip p (String c s) = String c s.
Proof. intro H. simpl. rewrite H. reflexivity. Qed.

Lemma clean_address sch rest :
  is_zoho_scheme sch = true ->
  remove_chars is_unsafe_url_byte (lstrip is_c0_control_or_space (sch ++ rest))
  = sch ++ remove_chars is_unsafe_url_byte rest.
Proof.
  intro Hz. destruct (zoho_scheme_letters sch Hz)
    as (c1 & c2 & c3 & c4 & -> & A1 & A2 & A3 & A4 & _).
  destruct (alpha_facts c1 A1) as (Z1 & U1 & _).
  destruct (alpha_facts c2 A2) as (_ & U2 & _).
  destruct (alpha_facts c3 A3) as (_ & U3 & _).
  destruct (alpha_facts c4 A4) as (_ & U4 & _).
  cbn [append]. rewrite lstrip_keep by exact Z1.
  cbn [remove_chars]. rewrite U1, U2, U3, U4. reflexivity.
Qed.

Lemma split_scheme_zoho sch rest :
  is_zoho_scheme sch = true ->
  split_scheme (sch ++ String ":" rest) = ("zoho", rest).
Proof.
  intro Hz. destruct (zoho_scheme_letters sch Hz)
    as (c1 & c2 & c3 & c4 & Hs & A1 & A2 & A3 & A4 & Hlow).
  destruct (alpha_facts c1 A1) as (_ & _ & K1 & S1).
  destruct (alpha_facts c2 A2) as (_ & _ & K2 & S2).
  destruct (alpha_facts c3 A3) as (_ & _ & K3 & S3).
  destruct (alpha_facts c4 A4) as (_ & _ & K4 & S4).
  unfold split_scheme. rewrite break_app_hit.
  - rewrite Hlow. subst sch. cbn [string_forallb].
    rewrite A1, S1, S2, S3, S4. reflexivity.
  - subst sch. cbn [string_forallb]. rewrite K1, K2, K3, K4. reflexivity.
  - reflexivity.
Qed.

Lemma plain_host_facts host :
  is_plain_host host = true ->
  string_forallb (fun c => negb (is_netloc_delim c)) host = true /\
  string_forallb (fun c => negb (is_unsafe_url_byte c)) host = true /\
  string_forallb (fun c => negb (is_char "[" c)) host = true /\
  string_forallb (fun c => negb (is_char "]" c)) host = true /\
  string_forallb is_ascii_char host = true.
Proof.
  unfold is_plain_host. intro H.
  repeat split; revert H; apply string_forallb_impl; intros c Hc;
    apply andb_true_iff in Hc; destruct Hc as [Ha Hn];
    try exact Ha;
    apply negb_true_iff in Hn;
    apply orb_false_iff in Hn; destruct Hn as [Hn H4];
    apply orb_false_iff in Hn; destruct Hn as [Hn H3];
    apply orb_false_iff in Hn; destruct Hn as [H1 H2];
    apply negb_true_iff; assumption.
Qed.

Lemma url_clean_facts s :
  url_clean s = true ->
  string_forallb (fun c => negb (is_char "?" c)) s = true /\
  string_forallb (fun c => negb (is_char "#" c)) s = true /\
  string_forallb (fun c => negb (is_unsafe_url_byte c)) s = true.
Proof.
  unfold url_clean. intro H.
  repeat split; revert H; apply string_forallb_impl; intros c Hc;
    apply negb_true_iff in Hc;
    apply orb_false_iff in Hc; destruct Hc as [Hc H3];
    apply orb_false_iff in Hc; destruct Hc as [H1 H2];
    apply negb_true_iff; assumption.
Qed.

(** What [urlsplit] makes of the part after the netloc: the path is what
    stands before the first [?] or [#]. *)
Lemma split_query_fragment tail suffix :
  url_clean tail = true -> is_suffix suffix = true ->
  exists q f,
    (let (url, fragment) := split_at "#" (tail ++ suffix) in
     let (url, query) := split_at "?" url in (url, query, fragment)) =
    (tail, q, f).
Proof.
  intros Hc Hs. destruct (url_clean_facts tail Hc) as (Hq & Hh & _).
  destruct suffix as [|c r].
  - exists "", "". rewrite append_empty_r. unfold split_at.
    rewrite (break_none _ tail Hh). rewrite (break_none _ tail Hq).
    reflexivity.
  - unfold is_suffix in Hs. apply orb_true_iff in Hs. destruct Hs as [Hs | Hs];
      unfold is_char in Hs; apply Ascii.eqb_eq in Hs; subst c.
    + (* a query, and maybe a fragment after it *)
      exists (fst (break (is_char "#") r)).
      unfold split_at at 1.
      replace (tail ++ String "?" r) with ((tail ++ "?") ++ r)
        by (rewrite append_assoc; reflexivity).
      rewrite break_app_skip.
      2:{ rewrite string_forallb_app, Hh. reflexivity. }
      cbn [fst snd].
      destruct (break (is_char "#") r) as [q rest]. cbn [fst snd].
      exists (match rest with String _ t => t | EmptyString => "" end).
      assert (Hsp : split_at "?" ((tail ++ "?") ++ q) = (tail, q)).
      { rewrite append_assoc. unfold split_at.
        change ("?" ++ q) with (String "?" q).
        rewrite break_app_hit by (exact Hq || reflexivity). reflexivity. }
      destruct rest; rewrite Hsp; reflexivity.
    + exists "", r. unfold split_at.
      rewrite break_app_hit by (exact Hh || reflexivity).
      rewrite (break_none _ tail Hq). reflexivity.
Qed.

Lemma remove_chars_suffix p body suffix :
  string_forallb (fun c => negb (p c)) body = true ->
  remove_chars p (body ++ suffix) = body ++ remove_chars p suffix.
Proof.
  intro H. rewrite remove_chars_app, (remove_chars_id p body H). reflexivity.
Qed.

Lemma is_suffix_clean suffix :
  is_suffix suffix = true ->
  is_suffix (remove_chars is_unsafe_url_byte suffix) = true.
Proof.
  destruct suffix as [|c r]; [reflexivity|].
  unfold is_suffix. intro H. apply orb_true_iff in H.
  destruct H as [H | H]; unfold is_char in H; apply Ascii.eqb_eq in H;
    subst c; reflexivity.
Qed.

Section Addresses.
Variable L : Library.

(** An address with an authority part: [sch://host] and then a path. *)
Lemma urlparse_authority sch host tail suffix :
  is_zoho_scheme sch = true ->
  is_plain_host host = true ->
  url_clean tail = true ->
  (tail = "" \/ exists t, tail = String "/" t) ->
  is_suffix suffix = true ->
  exists q f,
    urlparse L (sch ++ String ":" ("//" ++ host ++ tail ++ suffix)) =
    Ok {| scheme := "zoho"; netloc := host; path := tail;
          query := q; fragment := f |}.
Proof.
  intros Hz Hhost Hc Htail Hs0.
  destruct (plain_host_facts host Hhost) as (Hd & Hu & Ho & Hcl & Ha).
  destruct (url_clean_facts tail Hc) as (_ & _ & Htu).
  unfold urlparse. rewrite clean_address by exact Hz.
  replace (String ":" ("//" ++ host ++ tail ++ suffix))
    with (String ":" ("//" ++ host ++ tail) ++ suffix)
    by (cbn [append]; rewrite append_assoc; reflexivity).
  rewrite remove_chars_suffix.
  2:{ apply string_forallb_cons; [reflexivity|].
      apply string_forallb_cons; [reflexivity|].
      apply string_forallb_cons; [reflexivity|].
      rewrite string_forallb_app, Hu, Htu. reflexivity. }
  pose proof (is_suffix_clean suffix Hs0) as Hs.
  set (suffix' := remove_chars is_unsafe_url_byte suffix) in *.
  clearbody suffix'. clear Hs0 suffix. rename suffix' into suffix.
  replace (String ":" ("//" ++ host ++ tail) ++ suffix)
    with (String ":" ("//" ++ host ++ tail ++ suffix))
    by (cbn [append]; rewrite append_assoc; reflexivity).
  rewrite split_scheme_zoho by exact Hz. cbv iota beta.
  assert (Hn : split_netloc ("//" ++ host ++ tail ++ suffix) =
               (host, tail ++ suffix)).
  { change (split_netloc ("//" ++ host ++ tail ++ suffix))
      with (break is_netloc_delim (host ++ tail ++ suffix)).
    destruct Htail as [-> | (t & ->)].
    - destruct suffix as [|c r].
      + simpl. rewrite append_empty_r. apply break_none. exact Hd.
      + change ("" ++ String c r) with (String c r).
        apply break_app_hit; [exact Hd|].
        unfold is_suffix in Hs. unfold is_netloc_delim.
        apply orb_true_iff in Hs. destruct Hs as [Hs | Hs]; rewrite Hs;
          rewrite ?orb_true_r; reflexivity.
    - change (String "/" t ++ suffix) with (String "/" (t ++ suffix)).
      apply break_app_hit; [exact Hd | reflexivity]. }
  rewrite Hn. cbv iota beta.
  assert (Hb : check_brackets L host = Ok tt).
  { unfold check_brackets.
    rewrite (string_existsb_none _ host Ho), (string_existsb_none _ host Hcl).
    reflexivity. }
  rewrite Hb. cbv iota beta.
  assert (Hk : checknetloc L host = Ok tt).
  { unfold checknetloc. rewrite Ha, orb_true_r. reflexivity. }
  destruct (split_query_fragment tail suffix Hc Hs) as (q & f & Hqf).
  exists q, f.
  destruct (split_at "#" (tail ++ suffix)) as [url fragment].
  destruct (split_at "?" url) as [url' query].
  injection Hqf as -> -> ->. rewrite Hk. reflexivity.
Qed.

(** An address without authority part: [sch:] and then a path that does
    not start with two slashes. *)
Lemma urlparse_path_only sch p suffix :
  is_zoho_scheme sch = true ->
  url_clean p = true ->
  prefix "//" (p ++ suffix) = false ->
  is_suffix suffix = true ->
  exists q f,
    urlparse L (sch ++ String ":" (p ++ suffix)) =
    Ok {| scheme := "zoho"; netloc := ""; path := p;
          query := q; fragment := f |}.
Proof.
  intros Hz Hc Hp Hs0.
  destruct (url_clean_facts p Hc) as (_ & _ & Hpu).
  unfold urlparse. rewrite clean_address by exact Hz.
  change (String ":" (p ++ suffix)) with (String ":" p ++ suffix).
  rewrite remove_chars_suffix
    by (apply string_forallb_cons; [reflexivity | exact Hpu]).
  pose proof (is_suffix_clean suffix Hs0) as Hs.
  assert (Hp' : prefix "//" (p ++ remove_chars is_unsafe_url_byte suffix)
                = false).
  { destruct p as [|a [|b p]].
    - destruct suffix as [|c r]; [reflexivity|].
      unfold is_suffix in Hs0. apply orb_true_iff in Hs0.
      destruct Hs0 as [H | H]; unfold is_char in H; apply Ascii.eqb_eq in H;
        subst c; reflexivity.
    - destruct suffix as [|c r]; [exact Hp|].
      unfold is_suffix in Hs0. apply orb_true_iff in Hs0.
      destruct Hs0 as [H | H]; unfold is_char in H; apply Ascii.eqb_eq in H;
        subst c; cbn [append remove_chars];
        change (is_unsafe_url_byte "?") with false;
        change (is_unsafe_url_byte "#") with false; cbv iota;
        destruct (Ascii.eqb_spec a "/") as [->|Ha]; try reflexivity;
        unfold prefix; destruct (ascii_dec "/" a) as [He|He];
        try reflexivity; exfalso; apply Ha; symmetry; exact He.
    - cbn [append prefix] in Hp |- *.
      destruct (ascii_dec "/" a); [|reflexivity].
      destruct (ascii_dec "/" b); [|reflexivity].
      destruct (p ++ suffix); discriminate Hp. }
  set (suffix' := remove_chars is_unsafe_url_byte suffix) in *.
  clearbody suffix'. clear Hs0 Hp suffix. rename suffix' into suffix.
  change (String ":" p ++ suffix) with (String ":" (p ++ suffix)).
  rewrite split_scheme_zoho by exact Hz. cbv iota beta.
  rewrite split_netloc_none by exact Hp'. cbv iota beta.
  change (check_brackets L "") with (Ok tt : result unit). cbv iota beta.
  destruct (split_query_fragment p suffix Hc Hs) as (q & f & Hqf).
  exists q, f.
  destruct (split_at "#" (p ++ suffix)) as [url fragment].
  destruct (split_at "?" url) as [url' query].
  injection Hqf as -> -> ->. reflexivity.
Qed.

End Addresses.

Lemma join_slash_cons s segs :
  join_slash (s :: segs) =
  s ++ match segs with [] => "" | _ :: _ => "/" ++ join_slash segs end.
Proof.
  destruct segs; [|reflexivity]. simpl. rewrite append_empty_r. reflexivity.
Qed.

Lemma trail_cases trail :
  is_trail trail = true -> trail = "" \/ trail = "/".
Proof.
  unfold is_trail. cbn [existsb]. intro H.
  apply orb_true_iff in H. destruct H as [H | H];
    [left; apply String.eqb_eq; exact H|].
  apply orb_true_iff in H. destruct H as [H | H]; [|discriminate H].
  right. apply String.eqb_eq. exact H.
Qed.

Lemma lead_cases lead :
  is_lead lead = true ->
  lead = "" \/ lead = "/" \/ lead = "//" \/ lead = "///".
Proof.
  unfold is_lead. cbn [existsb]. intro H.
  repeat (apply orb_true_iff in H; destruct H as [H | H];
          [apply String.eqb_eq in H; auto|]).
  discriminate H.
Qed.

(** A path written with one slash, or none, on either side, stripped. *)
Lemma strip_of_join pre s0 segs trail :
  pre = "" \/ pre = "/" ->
  forallb is_segment (s0 :: segs) = true ->
  is_trail trail = true ->
  strip (is_char "/") (pre ++ join_slash (s0 :: segs) ++ trail) =
  join_slash (s0 :: segs).
Proof.
  intros Hpre Hall Ht.
  assert (Hs0 : is_segment s0 = true)
    by (simpl in Hall; apply andb_true_iff in Hall; tauto).
  assert (Hr : rstrip (is_char "/") (join_slash (s0 :: segs) ++ trail) =
               join_slash (s0 :: segs)).
  { destruct (trail_cases trail Ht) as [-> | ->].
    - rewrite append_empty_r. apply rstrip_join; [discriminate | exact Hall].
    - rewrite rstrip_app_drop by reflexivity.
      apply rstrip_join; [discriminate | exact Hall]. }
  assert (Hne : join_slash (s0 :: segs) <> "").
  { apply nonempty_neq. apply join_slash_nonempty.
    apply segment_nonempty. exact Hs0. }
  unfold strip. rewrite rstrip_app_keep by (rewrite Hr; exact Hne).
  rewrite Hr.
  destruct Hpre as [-> | ->].
  - apply lstrip_join. exact Hs0.
  - change (lstrip (is_char "/") ("/" ++ join_slash (s0 :: segs)))
      with (lstrip (is_char "/") (join_slash (s0 :: segs))).
    apply lstrip_join. exact Hs0.
Qed.

Lemma parts_of_join pre s0 segs trail :
  pre = "" \/ pre = "/" ->
  forallb is_segment (s0 :: segs) = true ->
  is_trail trail = true ->
  filter nonempty
    (split "/" (strip (is_char "/") (pre ++ join_slash (s0 :: segs) ++ trail)))
  = (s0 :: segs)%list.
Proof.
  intros Hpre Hall Ht. rewrite strip_of_join by assumption.
  rewrite split_join by (discriminate || exact Hall).
  apply filter_segments. exact Hall.
Qed.

Lemma trail_clean trail : is_trail trail = true -> url_clean trail = true.
Proof. intro H. destruct (trail_cases trail H) as [-> | ->]; reflexivity. Qed.

Lemma segment_head s :
  is_segment s = true ->
  exists c r, s = String c r /\ Ascii.eqb c "/" = false.
Proof.
  intro Hs. pose proof (segment_no_slash s Hs) as Hn.
  pose proof (segment_nonempty s Hs) as Hne.
  destruct s as [|c r]; [discriminate Hne|].
  exists c, r. split; [reflexivity|].
  simpl in Hn. apply andb_true_iff in Hn. destruct Hn as [Hc _].
  apply negb_true_iff in Hc. unfold is_char in Hc.
  rewrite Ascii.eqb_sym. exact Hc.
Qed.

Section Spellings.
Variable L : Library.
Variable E : Env.
Variable list_reports : M (list ZohoReport).

(** However a [zoho] address is spelled, the router sees its segments. *)
Lemma spelled_parts sch lead s0 segs trail suffix :
  is_zoho_scheme sch = true ->
  is_lead lead = true ->
  is_plain_host s0 = true ->
  forallb is_segment (s0 :: segs) = true ->
  is_trail trail = true ->
  is_suffix suffix = true ->
  exists parsed,
    urlparse L (spelled sch lead (s0 :: segs) trail suffix) = Ok parsed /\
    scheme parsed = "zoho" /\
    path_parts_of parsed = (s0 :: segs)%list.
Proof.
  intros Hz Hlead Hhost Hall Ht Hs.
  assert (Hs0 : is_segment s0 = true)
    by (simpl in Hall; apply andb_true_iff in Hall; tauto).
  pose proof (url_clean_join (s0 :: segs) Hall) as Hcj.
  pose proof (trail_clean trail Ht) as Hct.
  destruct (segment_head s0 Hs0) as (c0 & r0 & Hs0eq & Hc0).
  assert (Hnp : forall rest,
             prefix "//" (join_slash (s0 :: segs) ++ rest) = false).
  { intro rest. rewrite join_slash_cons, Hs0eq. cbn [append prefix].
    destruct (ascii_dec "/" c0) as [He|]; [|reflexivity].
    subst c0. discriminate Hc0. }
  assert (Hnp1 : forall rest,
             prefix "//" ("/" ++ join_slash (s0 :: segs) ++ rest) = false).
  { intro rest. rewrite join_slash_cons, Hs0eq. cbn [append prefix].
    destruct (ascii_dec "/" "/"); [|reflexivity].
    destruct (ascii_dec "/" c0) as [He|]; [|reflexivity].
    subst c0. discriminate Hc0. }
  unfold spelled.
  destruct (lead_cases lead Hlead) as [-> | [-> | [-> | ->]]].
  - (* sch:segments *)
    destruct (urlparse_path_only L sch (join_slash (s0 :: segs) ++ trail)
                suffix Hz) as (q & f & Hp).
    + rewrite url_clean_app, Hcj, Hct. reflexivity.
    + rewrite append_assoc. apply Hnp.
    + exact Hs.
    + eexists. split.
      { change (":" ++ "" ++ join_slash (s0 :: segs) ++ trail ++ suffix)
          with (String ":" (join_slash (s0 :: segs) ++ trail ++ suffix)).
        rewrite <- append_assoc. exact Hp. }
      split; [reflexivity|].
      unfold path_parts_of. cbn [netloc path].
        apply (parts_of_join "" s0 segs trail); auto.
  - (* sch:/segments *)
    destruct (urlparse_path_only L sch
                ("/" ++ join_slash (s0 :: segs) ++ trail) suffix Hz)
      as (q & f & Hp).
    + change ("/" ++ join_slash (s0 :: segs) ++ trail)
        with (String "/" (join_slash (s0 :: segs) ++ trail)).
      unfold url_clean. apply string_forallb_cons; [reflexivity|].
      fold (url_clean (join_slash (s0 :: segs) ++ trail)).
      rewrite url_clean_app, Hcj, Hct. reflexivity.
    + change (("/" ++ join_slash (s0 :: segs) ++ trail) ++ suffix)
        with ("/" ++ (join_slash (s0 :: segs) ++ trail) ++ suffix).
      rewrite append_assoc. apply Hnp1.
    + exact Hs.
    + eexists. split.
      { change (":" ++ "/" ++ join_slash (s0 :: segs) ++ trail ++ suffix)
          with (String ":" ("/" ++ join_slash (s0 :: segs) ++ trail ++ suffix)).
        change (("/" ++ join_slash (s0 :: segs) ++ trail) ++ suffix)
          with ("/" ++ (join_slash (s0 :: segs) ++ trail) ++ suffix) in Hp.
        rewrite append_assoc in Hp. exact Hp. }
      split; [reflexivity|].
      unfold path_parts_of. cbn [netloc path].
        apply (parts_of_join "/" s0 segs trail); auto.
  - (* sch://host/segments *)
    set (rest := match segs with
                 | [] => ""
                 | (_ :: _)%list => "/" ++ join_slash segs
                 end).
    assert (Hj : join_slash (s0 :: segs) = s0 ++ rest)
      by apply join_slash_cons.
    assert (Hcr : url_clean rest = true).
    { rewrite Hj, url_clean_app in Hcj. apply andb_true_iff in Hcj. tauto. }
    destruct (urlparse_authority L sch s0 (rest ++ trail) suffix Hz Hhost)
      as (q & f & Hp).
    + rewrite url_clean_app, Hcr, Hct. reflexivity.
    + subst rest. destruct segs as [|s1 segs'].
      * destruct (trail_cases trail Ht) as [-> | ->];
          [left; reflexivity | right; exists ""; reflexivity].
      * right. eexists. reflexivity.
    + exact Hs.
    + eexists. split.
      { rewrite Hj.
        change (":" ++ "//" ++ (s0 ++ rest) ++ trail ++ suffix)
          with (String ":" ("//" ++ (s0 ++ rest) ++ trail ++ suffix)).
        rewrite (append_assoc s0 rest), <- (append_assoc rest trail).
        exact Hp. }
      split; [reflexivity|].
      unfold path_parts_of. cbn [netloc path].
        rewrite <- append_assoc, <- Hj.
        apply (parts_of_join "" s0 segs trail); auto.
  - (* sch:///segments *)
    destruct (urlparse_authority L sch ""
                ("/" ++ join_slash (s0 :: segs) ++ trail) suffix Hz eq_refl)
      as (q & f & Hp).
    + change ("/" ++ join_slash (s0 :: segs) ++ trail)
        with (String "/" (join_slash (s0 :: segs) ++ trail)).
      unfold url_clean. apply string_forallb_cons; [reflexivity|].
      fold (url_clean (join_slash (s0 :: segs) ++ trail)).
      rewrite url_clean_app, Hcj, Hct. reflexivity.
    + right. eexists. reflexivity.
    + exact Hs.
    + eexists. split.
      { change (":" ++ "///" ++ join_slash (s0 :: segs) ++ trail ++ suffix)
          with (String ":" ("//" ++ "" ++ "/" ++
                            join_slash (s0 :: segs) ++ trail ++ suffix)).
        change (("/" ++ join_slash (s0 :: segs) ++ trail) ++ suffix)
          with ("/" ++ (join_slash (s0 :: segs) ++ trail) ++ suffix) in Hp.
        rewrite append_assoc in Hp. exact Hp. }
      split; [reflexivity|].
      unfold path_parts_of. cbn [netloc path].
        apply (parts_of_join "/" s0 segs trail); auto.
Qed.

(** The router reads the scheme and the parts of an address, and echoes
    the address; nothing else of it reaches the answer. *)
Lemma handle_depends_on_parts a1 a2 p1 p2 st :
  urlparse L a1 = Ok p1 -> urlparse L a2 = Ok p2 ->
  scheme p1 = scheme p2 ->
  path_parts_of p1 = path_parts_of p2 ->
  same_answer (handle_read_resource L E list_reports a1 st)
              (handle_read_resource L E list_reports a2 st).
Proof.
  intros H1 H2 Hs Hp.
  rewrite (handle_after_parse L E list_reports a1 p1 st H1).
  rewrite (handle_after_parse L E list_reports a2 p2 st H2).
  rewrite Hs, Hp. unfold same_answer.
  destruct (negb (String.eqb (scheme p2) "zoho")); [split; reflexivity|].
  destruct (path_parts_of p2) as [|t rest]; [split; reflexivity|].
  destruct (negb (nonempty t)); [split; reflexivity|].
  destruct (String.eqb t "forms").
  { unfold bind, ret.
    destruct (list_forms L E false st) as [[forms|e] st'];
      split; try reflexivity. split; reflexivity. }
  destruct (String.eqb t "reports").
  { unfold bind, ret.
    destruct (list_reports st) as [[reports|e] st'];
      split; try reflexivity. split; reflexivity. }
  destruct rest as [|link rest']; [split; reflexivity|].
  destruct (String.eqb t "form").
  { unfold bind, ret, raise.
    destruct (list_forms L E false st) as [[forms|e] st'];
      [|split; reflexivity].
    destruct (find _ forms); split; try reflexivity. split; reflexivity. }
  destruct (String.eqb t "report"); [|split; reflexivity].
  unfold bind, ret.
  destruct (get_records L E link (criteria_of rest') None st)
    as [[records|e] st']; split; try reflexivity. split; reflexivity.
Qed.

End Spellings.

(** X16.  The answer to an address depends on its segments alone.  The
    scheme is read in any letter case; the first segment may stand as the
    host or in the path, after no slash or up to three; a slash after the
    last segment, and a query or fragment after that, are dropped.  Two
    addresses that spell the same segments get the same result or the same
    error, and leave the service in the same state; only the [uri] echoed
    back differs. *)
Theorem address_spelling_is_irrelevant :
  forall (L : Library) (E : Env) (list_reports : M (list ZohoReport))
         (sch1 sch2 lead1 lead2 trail1 trail2 suffix1 suffix2 s0 : string)
         (segs : list string) (st : State),
    is_zoho_scheme sch1 = true -> is_zoho_scheme sch2 = true ->
    is_lead lead1 = true -> is_lead lead2 = true ->
    is_trail trail1 = true -> is_trail trail2 = true ->
    is_suffix suffix1 = true -> is_suffix suffix2 = true ->
    is_plain_host s0 = true ->
    forallb is_segment (s0 :: segs) = true ->
    same_answer
      (handle_read_resource L E list_reports
         (spelled sch1 lead1 (s0 :: segs) trail1 suffix1) st)
      (handle_read_resource L E list_reports
         (spelled sch2 lead2 (s0 :: segs) trail2 suffix2) st).
Proof.
  intros L E list_reports sch1 sch2 lead1 lead2 trail1 trail2 suffix1 suffix2
         s0 segs st Hz1 Hz2 Hl1 Hl2 Ht1 Ht2 Hs1 Hs2 Hhost Hall.
  destruct (spelled_parts L sch1 lead1 s0 segs trail1 suffix1
              Hz1 Hl1 Hhost Hall Ht1 Hs1) as (p1 & Hp1 & Hsch1 & Hparts1).
  destruct (spelled_parts L sch2 lead2 s0 segs trail2 suffix2
              Hz2 Hl2 Hhost Hall Ht2 Hs2) as (p2 & Hp2 & Hsch2 & Hparts2).
  apply (handle_depends_on_parts L E list_reports _ _ p1 p2 st Hp1 Hp2).
  - rewrite Hsch1, Hsch2. reflexivity.
  - rewrite Hparts1, Hparts2. reflexivity.
Qed.

Lemma address_spelling_is_irrelevant_witness :
  same_answer
    (handle_read_resource lib0 env0 list_reports0
       "Zoho:/report/test_form/filter/Status/?page=2#top" init_service)
    (handle_read_resource lib0 env0 list_reports0
       "zoho://report/test_form/filter/Status" init_service).
Proof.
  exact (address_spelling_is_irrelevant lib0 env0 list_reports0
           "Zoho" "zoho" "/" "//" "/" "" "?page=2#top" "" "report"
           ["test_form"; "filter"; "Status"]%list init_service
           eq_refl eq_refl eq_refl eq_refl eq_refl eq_refl eq_refl eq_refl
           eq_refl eq_refl).
Defined.

Lemma snd_raised_by {A} (r : result A * State) : snd (raised_by r) = snd r.
Proof. destruct r as [[a|e] s]; reflexivity. Qed.

Lemma find_unique (fs : list ZohoForm.t) (f : ZohoForm.t) :
  NoDup (map ZohoForm.link_name fs) -> In f fs ->
  find (fun g => String.eqb (ZohoForm.link_name g) (ZohoForm.link_name f)) fs
  = Some f.
Proof.
  induction fs as [|g fs IH]; simpl; [intros _ []|].
  intros Hnd [<- | Hin].
  - rewrite String.eqb_refl. reflexivity.
  - inversion Hnd as [|? ? Hnot Hnd']; subst.
    destruct (String.eqb (ZohoForm.link_name g) (ZohoForm.link_name f)) eqn:Hk.
    + apply String.eqb_eq in Hk. exfalso. apply Hnot. rewrite Hk.
      apply in_map. exact Hin.
    + apply IH; assumption.
Qed.

Section Lifetime.
Variable L : Library.
Variable E : Env.

Ltac settle_step :=
  first [ left; split; [first [assumption | reflexivity] | reflexivity]
        | right; split; [first [assumption | reflexivity]|];
          split; [reflexivity|]; eexists; reflexivity ].

Lemma record_call_step st :
  (forall form criteria limit,
      one_step st (snd (get_records L E form criteria limit st))) /\
  (forall form rid, one_step st (snd (get_record L E form rid st))) /\
  (forall form data, one_step st (snd (create_record L E form data st))) /\
  (forall form rid data,
      one_step st (snd (update_record L E form rid data st))).
Proof.
  repeat split; intros.
  - rewrite get_records_run. cbv zeta.
    run_cases; unfold one_step; cbn; settle_step.
  - unfold get_record, bind at 1, auth_get_authorized_headers.
    destruct (get_authorized_headers E (exchanges st));
      [|unfold one_step; cbn; settle_step].
    rewrite request_block. unfold bind, lift.
    run_cases; unfold one_step; cbn; settle_step.
  - unfold create_record, bind at 1, auth_get_authorized_headers.
    destruct (get_authorized_headers E (exchanges st));
      [|unfold one_step; cbn; settle_step].
    rewrite request_block. unfold bind, lift.
    run_cases; unfold one_step; cbn; settle_step.
  - unfold update_record, bind at 1, auth_get_authorized_headers.
    destruct (get_authorized_headers E (exchanges st));
      [|unfold one_step; cbn; settle_step].
    rewrite request_block. unfold bind, lift.
    run_cases; unfold one_step; cbn; settle_step.
Qed.

Lemma list_forms_step force st :
  one_step st (snd (list_forms L E force st)).
Proof.
  rewrite list_forms_run.
  assert (Hst : _client (snd (decide_refresh E force st)) = _client st /\
                exchanges (snd (decide_refresh E force st)) = exchanges st).
  { unfold decide_refresh. destruct force; [split; reflexivity|].
    destruct (Cache.last_refresh (cache st)); split; reflexivity. }
  destruct (decide_refresh E force st) as [refresh st0]. cbn [snd] in Hst.
  destruct Hst as [Hc Hx].
  destruct refresh; cbn [negb]; cbv beta iota zeta;
    [|left; split; assumption].
  run_cases; unfold one_step; cbn; rewrite <- ?Hx;
    first [ left; split; [congruence | reflexivity]
          | right; split; [congruence|]; split; [reflexivity|];
            eexists; reflexivity ].
Qed.

(** A listing that comes out of an empty cache is empty. *)
Lemma list_forms_of_empty_cache force st forms st' :
  Cache.forms (cache st) = [] ->
  list_forms L E force st = (Ok forms, st') -> forms = [].
Proof.
  intros Hempty H.
  destruct (fst (decide_refresh E force st)) eqn:Hd.
  - exact (list_forms_refresh_returns_nothing L E force st forms st' Hd H).
  - rewrite list_forms_run in H.
    assert (Hst : cache (snd (decide_refresh E force st)) = cache st).
    { unfold decide_refresh. destruct force; [reflexivity|].
      destruct (Cache.last_refresh (cache st)); reflexivity. }
    destruct (decide_refresh E force st) as [refresh st0].
    cbn [fst snd] in *. subst refresh. cbn [negb] in H. cbv iota in H.
    injection H as <- _. rewrite Hst, Hempty. reflexivity.
Qed.

Lemma reachable_invariant st :
  reachable L E st ->
  Cache.forms (cache st) = [] /\
  Cache.ttl (cache st) = 300%Z /\
  _client st <> OPENED /\
  (length (exchanges st) <= 1)%nat /\
  (_client st = UNOPENED -> exchanges st = []).
Proof.
  assert (Hstep : forall st st',
             one_step st st' ->
             _client st <> OPENED /\
             (length (exchanges st) <= 1)%nat /\
             (_client st = UNOPENED -> exchanges st = []) ->
             _client st' <> OPENED /\
             (length (exchanges st') <= 1)%nat /\
             (_client st' = UNOPENED -> exchanges st' = [])).
  { intros s s' [[Hc Hx] | (Hu & Hc & x & Hx)] (I1 & I2 & I3).
    - rewrite Hc, Hx. auto.
    - rewrite Hc, Hx, (I3 Hu). repeat split; [discriminate | simpl; lia|].
      discriminate. }
  assert (Hcache : forall st st',
             (cache st' = cache st \/
              exists t, cache st' = Cache.update_forms (cache st) [] t) ->
             Cache.forms (cache st) = [] /\ Cache.ttl (cache st) = 300%Z ->
             Cache.forms (cache st') = [] /\ Cache.ttl (cache st') = 300%Z).
  { intros s s' [-> | (t & ->)] [F T]; [auto|]. split; [reflexivity | exact T]. }
  induction 1 as [|c st Hr IH|st Hr IH|st Hr IH].
  - repeat split; try reflexivity; [discriminate | simpl; lia].
  - destruct IH as (F & T & I).
    destruct (record_calls_keep_cache L E st) as (K1 & K2 & K3 & K4).
    destruct (record_call_step st) as (S1 & S2 & S3 & S4).
    assert (Hboth :
              (cache (snd (run_call L E c st)) = cache st \/
               exists t, cache (snd (run_call L E c st)) =
                         Cache.update_forms (cache st) [] t) /\
              one_step st (snd (run_call L E c st))).
    { destruct c; unfold run_call; rewrite snd_raised_by.
      - split; [left; apply K1 | apply S1].
      - split; [left; apply K2 | apply S2].
      - split; [left; apply K3 | apply S3].
      - split; [left; apply K4 | apply S4].
      - split; [apply list_forms_cache_after | apply list_forms_step]. }
    destruct Hboth as [Hk Hs].
    destruct (Hcache _ _ Hk (conj F T)) as [F' T'].
    destruct (Hstep _ _ Hs I) as (I1 & I2 & I3).
    repeat split; assumption.
  - destruct IH as (F & T & I).
    destruct (Hcache _ _ (list_forms_cache_after L E false st) (conj F T))
      as [F' T'].
    destruct (Hstep _ _ (list_forms_step false st) I) as (I1 & I2 & I3).
    repeat split; assumption.
  - destruct IH as (F & T & I1 & I2 & I3).
    unfold close, aclose. cbn. repeat split; try assumption; discriminate.
Qed.

End Lifetime.

(** X17.  The service of this module sends at most one request in its
    life, and its cache never holds a form.  In every state reached from
    construction by calls of [list_forms], [get_records], [get_record],
    [create_record], [update_record] and [close], in any order and whatever
    they returned or raised: the forms mapping is empty, the ttl is the
    default of 300 seconds, the client is not left open, at most one
    exchange with upstream has taken place, and none while the client is
    still unopened. *)
Theorem service_lifetime_invariant :
  forall (L : Library) (E : Env) (st : State),
    reachable L E st ->
    Cache.forms (cache st) = [] /\
    Cache.ttl (cache st) = 300%Z /\
    _client st <> OPENED /\
    (length (exchanges st) <= 1)%nat /\
    (_client st = UNOPENED -> exchanges st = []).
Proof. intros L E st Hr. exact (reachable_invariant L E st Hr). Qed.

Lemma service_lifetime_invariant_witness :
  let st := snd (run_call lib0 env0 (GetRecord "test_form" "123")
                   (snd (close
                      (snd (list_forms lib0 env0 false
                              (snd (run_call lib0 env0
                                      (CreateRecord "test_form" new_data0)
                                      init_service))))))) in
  Cache.forms (cache st) = [] /\ (length (exchanges st) <= 1)%nat.
Proof.
  intro st.
  destruct (service_lifetime_invariant lib0 env0 st) as (F & _ & _ & X & _).
  - apply reach_call, reach_close, reach_list_forms, reach_call, reach_init.
  - split; assumption.
Defined.

(** X18.  While the cache is fresh the router answers the [forms] and
    [form] addresses from it, whatever the state of the client, and sends
    nothing.  [forms], with or without further segments, lists the cached
    forms in order, each with its link name, display name and number of
    fields; [form/<link>] returns the link name, display name and fields of
    the cached form of that link name. *)
Theorem router_answers_from_fresh_cache :
  forall (L : Library) (E : Env) (list_reports : M (list ZohoReport))
         (address : string) (parsed : ParseResult) (st : State)
         (c : Cache.t) (fs : list ZohoForm.t) (t0 : Z) (rest : list string),
    urlparse L address = Ok parsed ->
    scheme parsed = "zoho" ->
    cache st = Cache.update_forms c fs t0 ->
    NoDup (map ZohoForm.link_name fs) ->
    (now E (clock_reads st) - t0 <= Cache.ttl c * 1000000)%Z ->
    (path_parts_of parsed = ("forms" :: rest)%list ->
     handle_read_resource L E list_reports address st =
     (Ok {| uri := address; mimeType := "application/json";
            text := FormsJson
                      (map (fun form => (ZohoForm.link_name form,
                                         ZohoForm.display_name form,
                                         length (ZohoForm.fields form))) fs) |},
      tick st))
    /\
    (forall f,
        In f fs ->
        path_parts_of parsed = ("form" :: ZohoForm.link_name f :: rest)%list ->
        handle_read_resource L E list_reports address st =
        (Ok {| uri := address; mimeType := "application/json";
               text := FormJson (ZohoForm.link_name f)
                         (ZohoForm.display_name f) (ZohoForm.fields f) |},
         tick st)).
Proof.
  intros L E list_reports address parsed st c fs t0 rest Hp Hs Hca Hnd Hfresh.
  assert (Hlist : list_forms L E false st = (Ok fs, tick st)).
  { rewrite (list_forms_cached L E st t0).
    - rewrite Hca, update_forms_values by exact Hnd. reflexivity.
    - rewrite Hca. reflexivity.
    - rewrite Hca. unfold Cache.needs_refresh. cbn.
      apply total_seconds_gt_le. exact Hfresh. }
  split.
  - intro Hparts.
    rewrite (handle_after_parse L E list_reports _ _ st Hp), Hs, Hparts.
    cbn [negb String.eqb Ascii.eqb Bool.eqb nonempty].
    unfold bind, ret. rewrite Hlist. reflexivity.
  - intros f Hin Hparts.
    rewrite (handle_after_parse L E list_reports _ _ st Hp), Hs, Hparts.
    cbn [negb String.eqb Ascii.eqb Bool.eqb nonempty].
    unfold bind, ret. rewrite Hlist, (find_unique fs f Hnd Hin). reflexivity.
Qed.

Lemma router_answers_from_fresh_cache_witness :
  handle_read_resource lib0 env_auth_down list_reports0 "zoho://forms/all"
    (cached_service [orders_form; form_named "a"]) =
  (Ok {| uri := "zoho://forms/all"; mimeType := "application/json";
         text := FormsJson [("orders", "Orders", 0%nat); ("a", "a", 0%nat)] |},
   tick (cached_service [orders_form; form_named "a"]))
  /\
  handle_read_resource lib0 env_auth_down list_reports0 "zoho://form/orders"
    (cached_service [orders_form; form_named "a"]) =
  (Ok {| uri := "zoho://form/orders"; mimeType := "application/json";
         text := FormJson "orders" "Orders" [] |},
   tick (cached_service [orders_form; form_named "a"])).
Proof.
  assert (Hnd : NoDup (map ZohoForm.link_name [orders_form; form_named "a"])).
  { simpl. constructor; [intros [H | []]; discriminate H|].
    constructor; [intros [] | constructor]. }
  assert (Hfresh : (now env_auth_down
                      (clock_reads (cached_service [orders_form; form_named "a"]))
                    - 0 <= Cache.ttl (Cache.init 300) * 1000000)%Z).
  { vm_compute. discriminate. }
  split.
  - destruct (router_answers_from_fresh_cache lib0 env_auth_down list_reports0
                "zoho://forms/all"
                {| scheme := "zoho"; netloc := "forms"; path := "/all";
                   query := ""; fragment := "" |}
                (cached_service [orders_form; form_named "a"])
                (Cache.init 300) [orders_form; form_named "a"] 0 ["all"]%list
                eq_refl eq_refl eq_refl Hnd Hfresh) as [Hforms _].
    exact (Hforms eq_refl).
  - destruct (router_answers_from_fresh_cache lib0 env_auth_down list_reports0
                "zoho://form/orders"
                {| scheme := "zoho"; netloc := "form"; path := "/orders";
                   query := ""; fragment := "" |}
                (cached_service [orders_form; form_named "a"])
                (Cache.init 300) [orders_form; form_named "a"] 0 []%list
                eq_refl eq_refl eq_refl Hnd Hfresh) as [_ Hform].
    exact (Hform orders_form (or_introl eq_refl) eq_refl).
Defined.

(** X19.  On a service reached from construction by calls of its methods
    the router never shows a form: an answer to [forms] is the empty
    listing, and [form/<link>] does not return at all, it raises the
    error of [list_forms] or, once [list_forms] has returned its empty
    list, [Form not found]. *)
Theorem router_never_shows_a_form :
  forall (L : Library) (E : Env) (list_reports : M (list ZohoReport))
         (address : string) (parsed : ParseResult) (st : State)
         (rest : list string),
    reachable L E st ->
    urlparse L address = Ok parsed ->
    scheme parsed = "zoho" ->
    (path_parts_of parsed = ("forms" :: rest)%list ->
     forall r st',
       handle_read_resource L E list_reports address st = (Ok r, st') ->
       text r = FormsJson [])
    /\
    (forall link,
        path_parts_of parsed = ("form" :: link :: rest)%list ->
        exists e st',
          handle_read_resource L E list_reports address st = (Raise e, st') /\
          (list_forms L E false st = (Raise e, st') \/
           (list_forms L E false st = (Ok [], st') /\
            e = ValueError ("Form not found: " ++ link)))).
Proof.
  intros L E list_reports address parsed st rest Hr Hp Hs.
  destruct (reachable_invariant L E st Hr) as (Hempty & _).
  pose proof (list_forms_of_empty_cache L E false st) as Hnil.
  split.
  - intros Hparts r st' H.
    rewrite (handle_after_parse L E list_reports _ _ st Hp), Hs, Hparts in H.
    cbn [negb String.eqb Ascii.eqb Bool.eqb nonempty] in H.
    unfold bind, ret in H.
    destruct (list_forms L E false st) as [[forms|e] st1] eqn:Hl;
      [|discriminate H].
    rewrite (Hnil forms st1 Hempty eq_refl) in H.
    injection H as <- _. reflexivity.
  - intros link Hparts.
    rewrite (handle_after_parse L E list_reports _ _ st Hp), Hs, Hparts.
    cbn [negb String.eqb Ascii.eqb Bool.eqb nonempty].
    unfold bind, ret, raise.
    destruct (list_forms L E false st) as [[forms|e] st1] eqn:Hl.
    + rewrite (Hnil forms st1 Hempty eq_refl). cbn [find].
      eexists _, _. split; [reflexivity|]. right. split; reflexivity.
    + eexists _, _. split; [reflexivity|]. left. reflexivity.
Qed.

Lemma router_never_shows_a_form_witness :
  exists e st',
    handle_read_resource lib0 env0 list_reports0 "zoho://form/orders"
      init_service = (Raise e, st') /\
    (list_forms lib0 env0 false init_service = (Raise e, st') \/
     (list_forms lib0 env0 false init_service = (Ok [], st') /\
      e = ValueError ("Form not found: " ++ "orders"))).
Proof.
  destruct (router_never_shows_a_form lib0 env0 list_reports0
              "zoho://form/orders"
              {| scheme := "zoho"; netloc := "form"; path := "/orders";
                 query := ""; fragment := "" |}
              init_service []%list (reach_init lib0 env0) eq_refl eq_refl)
    as [_ Hform].
  exact (Hform "orders" eq_refl).
Defined.

(** ** The earlier server *)

Section LegacyFacts.
Variable L : Library.
Variable E : Env.

(** An address [zoho://host] and then a path. *)
Lemma legacy_parse host tail :
  is_plain_host host = true ->
  url_clean tail = true ->
  (tail = "" \/ exists t, tail = String "/" t) ->
  exists q f,
    urlparse L ("zoho://" ++ host ++ tail) =
    Ok {| scheme := "zoho"; netloc := host; path := tail;
          query := q; fragment := f |}.
Proof.
  intros Hh Hc Ht.
  destruct (urlparse_authority L "zoho" host tail "" eq_refl Hh Hc Ht eq_refl)
    as (q & f & Hp).
  exists q, f. rewrite append_empty_r in Hp. exact Hp.
Qed.

Lemma create_record_dyn_typed form data :
  LegacyServer.create_record_dyn L E (PStr form) (PDict data) =
  create_record L E form data.
Proof. reflexivity. Qed.

End LegacyFacts.

(** X20.  The earlier [handle_read_resource] takes the resource type from
    the path alone and never looks at the host.  So [zoho://forms], and
    any address that is a host and nothing more, is refused as an unknown
    resource type with an empty name; [zoho://forms/<link>] is refused as
    the unknown type [<link>]; and the list of forms is served at
    [zoho://<any host>/forms].  Refusals send nothing and leave the
    service as it was. *)
Theorem legacy_reader_ignores_host :
  forall (L : Library) (E : Env) (host s1 : string) (segs : list string)
         (st : State),
    is_plain_host host = true ->
    forallb is_segment (s1 :: segs) = true ->
    LegacyServer.handle_read_resource L E ("zoho://" ++ host) st =
    (LegacyServer.Raised
       (LegacyServer.Exn (ValueError "Unknown resource type: ")), st)
    /\
    (s1 <> "forms" ->
     LegacyServer.handle_read_resource L E
       ("zoho://" ++ host ++ "/" ++ join_slash (s1 :: segs)) st =
     (LegacyServer.Raised
        (LegacyServer.Exn (ValueError ("Unknown resource type: " ++ s1))), st))
    /\
    LegacyServer.handle_read_resource L E ("zoho://" ++ host ++ "/forms") st =
    match list_forms L E false st with
    | (Raise e, st1) => (LegacyServer.Raised (LegacyServer.Exn e), st1)
    | (Ok forms, st1) =>
        (LegacyServer.Returned
           {| LegacyServer.uri := "zoho://" ++ host ++ "/forms";
              LegacyServer.mimeType := "application/json";
              LegacyServer.text :=
                map (fun form => (ZohoForm.link_name form,
                                  ZohoForm.display_name form,
                                  length (ZohoForm.fields form))) forms |},
         st1)
    end.
Proof.
  intros L E host s1 segs st Hh Hall. split; [|split].
  - destruct (legacy_parse L host "" Hh eq_refl (or_introl eq_refl))
      as (q & f & Hp).
    rewrite append_empty_r in Hp.
    unfold LegacyServer.handle_read_resource. rewrite Hp. reflexivity.
  - intro Hne.
    destruct (legacy_parse L host ("/" ++ join_slash (s1 :: segs)) Hh)
      as (q & f & Hp).
    + change ("/" ++ join_slash (s1 :: segs))
        with (String "/" (join_slash (s1 :: segs))).
      unfold url_clean. apply string_forallb_cons; [reflexivity|].
      exact (url_clean_join (s1 :: segs) Hall).
    + right. eexists. reflexivity.
    + unfold LegacyServer.handle_read_resource. rewrite Hp.
      cbn [scheme negb String.eqb Ascii.eqb Bool.eqb].
      unfold LegacyServer.path_parts_of. cbn [path].
      pose proof (strip_of_join "/" s1 segs "" (or_intror eq_refl) Hall
                    eq_refl) as Hstrip.
      rewrite append_empty_r in Hstrip. rewrite Hstrip.
      rewrite split_join by (discriminate || exact Hall).
      apply String.eqb_neq in Hne. rewrite Hne. reflexivity.
  - destruct (legacy_parse L host "/forms" Hh eq_refl)
      as (q & f & Hp); [right; eexists; reflexivity|].
    unfold LegacyServer.handle_read_resource. rewrite Hp. reflexivity.
Qed.

Lemma legacy_reader_ignores_host_witness :
  LegacyServer.handle_read_resource lib0 env0 "zoho://forms" init_service =
  (LegacyServer.Raised
     (LegacyServer.Exn (ValueError "Unknown resource type: ")), init_service)
  /\
  LegacyServer.handle_read_resource lib0 env0 "zoho://forms/orders/filter/x"
    init_service =
  (LegacyServer.Raised
     (LegacyServer.Exn (ValueError "Unknown resource type: orders")),
   init_service).
Proof.
  destruct (legacy_reader_ignores_host lib0 env0 "forms" "orders"
              ["filter"; "x"]%list init_service eq_refl eq_refl)
    as (Hhost & Hlink & _).
  split; [exact Hhost|]. apply Hlink. discriminate.
Defined.

(** X21.  The earlier [handle_read_resource] never returns the data of a
    form.  For an address whose path is [forms] followed by a link name and
    anything more, every run ends in an exception, and which one is fixed
    by what the service does: the error of [list_forms] when that raises;
    [Form not found] with the link name when [list_forms] returns an empty
    list; with a non-empty list, [IndexError] when the path ends in
    [filter], otherwise the error of [get_records] when that raises, and
    [AttributeError] when [get_records] returned, since the handler asks
    the list of forms for a [display_name].  On a service reached from
    construction by calls of its methods only the first two occur. *)
Theorem legacy_form_address_never_returns :
  forall (L : Library) (E : Env) (address : string) (parsed : ParseResult)
         (link : string) (rest : list string) (st : State),
    urlparse L address = Ok parsed ->
    scheme parsed = "zoho" ->
    LegacyServer.path_parts_of parsed = ("forms" :: link :: rest)%list ->
    (exists r st',
        LegacyServer.handle_read_resource L E address st =
        (LegacyServer.Raised r, st'))
    /\
    (forall e st1,
        list_forms L E false st = (Raise e, st1) ->
        LegacyServer.handle_read_resource L E address st =
        (LegacyServer.Raised (LegacyServer.Exn e), st1))
    /\
    (forall st1,
        list_forms L E false st = (Ok []%list, st1) ->
        LegacyServer.handle_read_resource L E address st =
        (LegacyServer.Raised
           (LegacyServer.Exn (ValueError ("Form not found: " ++ link))), st1))
    /\
    (forall f fs st1,
        list_forms L E false st = (Ok (f :: fs)%list, st1) ->
        (rest = ["filter"]%list ->
         LegacyServer.handle_read_resource L E address st =
         (LegacyServer.Raised LegacyServer.IndexError, st1))
        /\
        (rest <> ["filter"]%list ->
         (forall e st2,
             get_records L E link (criteria_of rest) None st1 = (Raise e, st2) ->
             LegacyServer.handle_read_resource L E address st =
             (LegacyServer.Raised (LegacyServer.Exn e), st2))
         /\
         (forall records st2,
             get_records L E link (criteria_of rest) None st1
             = (Ok records, st2) ->
             LegacyServer.handle_read_resource L E address st =
             (LegacyServer.Raised (LegacyServer.Exn AttributeError), st2))))
    /\
    (reachable L E st ->
     exists e st1,
       LegacyServer.handle_read_resource L E address st =
       (LegacyServer.Raised (LegacyServer.Exn e), st1) /\
       (list_forms L E false st = (Raise e, st1) \/
        (list_forms L E false st = (Ok []%list, st1) /\
         e = ValueError ("Form not found: " ++ link)))).
Proof.
  intros L E address parsed link rest st Hp Hs Hparts.
  assert (Hcrit :
            rest <> ["filter"]%list ->
            match rest with
            | (part2 :: rest'')%list =>
                if String.eqb part2 "filter" then
                  match rest'' with
                  | (part3 :: _)%list => LegacyServer.Returned (Some part3)
                  | []%list => LegacyServer.Raised LegacyServer.IndexError
                  end
                else LegacyServer.Returned None
            | []%list => LegacyServer.Returned None
            end = LegacyServer.Returned (criteria_of rest)).
  { intro Hnf.
    destruct rest as [|part2 [|part3 rest]]; cbn [criteria_of];
      try reflexivity.
    - destruct (String.eqb part2 "filter") eqn:Hf; [|reflexivity].
      apply String.eqb_eq in Hf. subst part2. contradiction Hnf. reflexivity.
    - destruct (String.eqb part2 "filter"); reflexivity. }
  unfold LegacyServer.handle_read_resource. rewrite Hp, Hs, Hparts.
  cbn [negb String.eqb Ascii.eqb Bool.eqb].
  split; [|split; [|split; [|split]]].
  - destruct (list_forms L E false st) as [[[|f fs]|e] st1];
      [eexists _, _; reflexivity | | eexists _, _; reflexivity].
    destruct rest as [|part2 [|part3 rest]].
    + destruct (get_records L E link None None st1) as [[rs|e] st2];
        eexists _, _; reflexivity.
    + destruct (String.eqb part2 "filter");
        [eexists _, _; reflexivity|].
      destruct (get_records L E link None None st1) as [[rs|e] st2];
        eexists _, _; reflexivity.
    + destruct (String.eqb part2 "filter");
        [destruct (get_records L E link (Some part3) None st1)
           as [[rs|e] st2]
        |destruct (get_records L E link None None st1) as [[rs|e] st2]];
        eexists _, _; reflexivity.
  - intros e st1 Hl. rewrite Hl. reflexivity.
  - intros st1 Hl. rewrite Hl. reflexivity.
  - intros f fs st1 Hl. rewrite Hl. split.
    + intros ->. reflexivity.
    + intro Hnf.
      cbv zeta. rewrite (Hcrit Hnf).
      split.
      * intros e st2 Hg. rewrite Hg. reflexivity.
      * intros records st2 Hg. rewrite Hg. reflexivity.
  - intro Hr.
    destruct (reachable_invariant L E st Hr) as (Hempty & _).
    destruct (list_forms L E false st) as [[forms|e] st1] eqn:Hl.
    + rewrite (list_forms_of_empty_cache L E false st forms st1 Hempty Hl).
      eexists _, _. split; [reflexivity|]. right. split; reflexivity.
    + eexists _, _. split; [reflexivity|]. left. reflexivity.
Qed.

Lemma legacy_form_address_never_returns_witness :
  (exists st1,
      LegacyServer.handle_read_resource lib0 env_empty "zoho:///forms/test_form"
        init_service =
      (LegacyServer.Raised
         (LegacyServer.Exn (ValueError "Form not found: test_form")), st1))
  /\
  LegacyServer.handle_read_resource lib0 env0 "zoho:///forms/test_form"
    init_service =
  (LegacyServer.Raised (LegacyServer.Exn already_open),
   snd (list_forms lib0 env0 false init_service))
  /\
  LegacyServer.handle_read_resource lib0 env0 "zoho:///forms/test_form"
    (with_client (cached_service [orders_form]) UNOPENED) =
  (LegacyServer.Raised (LegacyServer.Exn AttributeError),
   snd (get_records lib0 env0 "test_form" None None
          (tick (with_client (cached_service [orders_form]) UNOPENED)))).
Proof.
  split; [|split].
  - destruct (list_forms lib0 env_empty false init_service)
      as [[[|f fs]|e] st1] eqn:Hl;
      [|vm_compute in Hl; discriminate Hl|vm_compute in Hl; discriminate Hl].
    exists st1.
    destruct (legacy_form_address_never_returns lib0 env_empty
                "zoho:///forms/test_form"
                {| scheme := "zoho"; netloc := ""; path := "/forms/test_form";
                   query := ""; fragment := "" |}
                "test_form" []%list init_service eq_refl eq_refl eq_refl)
      as (_ & _ & Hnone & _).
    exact (Hnone st1 Hl).
  - destruct (list_forms lib0 env0 false init_service)
      as [[forms|e] st1] eqn:Hl; [vm_compute in Hl; discriminate Hl|].
    assert (He : e = already_open)
      by (vm_compute in Hl; injection Hl as <- _; reflexivity).
    subst e.
    destruct (legacy_form_address_never_returns lib0 env0
                "zoho:///forms/test_form"
                {| scheme := "zoho"; netloc := ""; path := "/forms/test_form";
                   query := ""; fragment := "" |}
                "test_form" []%list init_service eq_refl eq_refl eq_refl)
      as (_ & Hraise & _).
    exact (Hraise already_open st1 Hl).
  - destruct (get_records lib0 env0 "test_form" None None
                (tick (with_client (cached_service [orders_form]) UNOPENED)))
      as [[records|e] st2] eqn:Hg; [|vm_compute in Hg; discriminate Hg].
    destruct (legacy_form_address_never_returns lib0 env0
                "zoho:///forms/test_form"
                {| scheme := "zoho"; netloc := ""; path := "/forms/test_form";
                   query := ""; fragment := "" |}
                "test_form" []%list
                (with_client (cached_service [orders_form]) UNOPENED)
                eq_refl eq_refl eq_refl) as (_ & _ & _ & Hsome & _).
    destruct (Hsome orders_form []%list
                (tick (with_client (cached_service [orders_form]) UNOPENED)))
      as [_ Hrecords].
    + vm_compute. reflexivity.
    + destruct (Hrecords ltac:(discriminate)) as [_ Hattr].
      exact (Hattr records st2 Hg).
Defined.

(** X22.  The earlier [handle_call_tool] refuses before it reaches the
    service: a tool name other than [create-record] raises [Unknown tool]
    with that name, and a [create-record] call without [form_name], or
    with [form_name] but without [data], raises the [KeyError] of the
    missing argument.  Nothing is sent and the service is as it was. *)
Theorem legacy_tool_call_refusals :
  forall (L : Library) (E : Env) (name : string) (arguments : dict pyval)
         (st : State),
    (name <> "create-record" ->
     LegacyServer.handle_call_tool L E name arguments st =
     (Raise (ValueError ("Unknown tool: " ++ name)), st))
    /\
    (dict_get arguments "form_name" = None ->
     LegacyServer.handle_call_tool L E "create-record" arguments st =
     (Raise (KeyError "form_name"), st))
    /\
    (forall v,
        dict_get arguments "form_name" = Some v ->
        dict_get arguments "data" = None ->
        LegacyServer.handle_call_tool L E "create-record" arguments st =
        (Raise (KeyError "data"), st)).
Proof.
  intros L E name arguments st. split; [|split].
  - intro Hn. apply String.eqb_neq in Hn.
    unfold LegacyServer.handle_call_tool. rewrite Hn. reflexivity.
  - intro Hf. unfold LegacyServer.handle_call_tool.
    cbn [String.eqb Ascii.eqb Bool.eqb]. unfold bind at 1, lift at 1.
    cbn [getitem]. rewrite Hf. reflexivity.
  - intros v Hf Hd. unfold LegacyServer.handle_call_tool.
    cbn [String.eqb Ascii.eqb Bool.eqb]. unfold bind at 1, lift at 1.
    cbn [getitem]. rewrite Hf. unfold bind at 1, lift at 1.
    cbn [getitem]. rewrite Hd. reflexivity.
Qed.

Lemma legacy_tool_call_refusals_witness :
  LegacyServer.handle_call_tool lib0 env0 "update-record"
    [("form_name", PStr "test_form")]%list init_service =
  (Raise (ValueError "Unknown tool: update-record"), init_service)
  /\
  LegacyServer.handle_call_tool lib0 env0 "create-record"
    [("form_name", PStr "test_form")]%list init_service =
  (Raise (KeyError "data"), init_service).
Proof.
  destruct (legacy_tool_call_refusals lib0 env0 "update-record"
              [("form_name", PStr "test_form")]%list init_service)
    as (Hname & _ & _).
  destruct (legacy_tool_call_refusals lib0 env0 "create-record"
              [("form_name", PStr "test_form")]%list init_service)
    as (_ & _ & Hdata).
  split.
  - apply Hname. discriminate.
  - apply (Hdata (PStr "test_form")); reflexivity.
Defined.

(** X23.  The [create-record] tool of the earlier server, given a string
    [form_name] and an object [data], is [create_record] on those two:
    it raises what [create_record] raises, and when that returns a record
    it answers with one message that carries the id and the creation time
    of that record. *)
Theorem legacy_create_record_tool :
  forall (L : Library) (E : Env) (arguments : dict pyval)
         (form : string) (data : dict pyval) (st : State),
    dict_get arguments "form_name" = Some (PStr form) ->
    dict_get arguments "data" = Some (PDict data) ->
    LegacyServer.handle_call_tool L E "create-record" arguments st =
    match create_record L E form data st with
    | (Ok record, st') =>
        (Ok [{| LegacyServer.message := "Record created successfully";
                LegacyServer.record_id := ZohoRecord.id record;
                LegacyServer.created_time := ZohoRecord.created_time record |}]%list,
         st')
    | (Raise e, st') => (Raise e, st')
    end.
Proof.
  intros L E arguments form data st Hf Hd.
  unfold LegacyServer.handle_call_tool.
  cbn [String.eqb Ascii.eqb Bool.eqb]. unfold bind at 1, lift at 1.
  cbn [getitem]. rewrite Hf. unfold bind at 1, lift at 1.
  cbn [getitem]. rewrite Hd. unfold bind at 1.
  rewrite create_record_dyn_typed.
  destruct (create_record L E form data st) as [[record|e] st'];
    reflexivity.
Qed.

Lemma legacy_create_record_tool_witness :
  LegacyServer.handle_call_tool lib0 env0 "create-record"
    [("data", PDict new_data0); ("form_name", PStr "test_form")]%list
    init_service =
  (Ok [{| LegacyServer.message := "Record created successfully";
          LegacyServer.record_id := "123";
          LegacyServer.created_time :=
            {| year := 2024; month := 1; day := 1; hour := 0; minute := 0;
               second := 0; microsecond := 0; utcoffset := Some 0%Z |} |}]%list,
   after_send init_service
     (create_record_rq env0 headers0 "test_form" new_data0)
     (ok_json (PDict [("record", PDict record0)]%list)) CLOSED).
Proof.
  rewrite (legacy_create_record_tool lib0 env0
             [("data", PDict new_data0); ("form_name", PStr "test_form")]%list
             "test_form" new_data0 init_service eq_refl eq_refl).
  vm_compute. reflexivity.
Defined.

(** X24.  The [create-record] tool of the earlier server checks the type
    of [data] only when it builds the record it returns.  Given a [data]
    that is not an object, it still posts it to the records of the form,
    as the [data] member of the body, and when upstream accepts it and
    answers with a record, the call raises the validation error of
    [ZohoRecord] after the request. *)
Theorem legacy_tool_validates_after_sending :
  forall (L : Library) (E : Env) (arguments : dict pyval) (form : string)
         (data : pyval) (st : State) (hdrs : dict string) (rp : response)
         (v record id created modified : pyval) (t1 t2 : datetime),
    dict_get arguments "form_name" = Some (PStr form) ->
    dict_get arguments "data" = Some data ->
    validate_dict data = None ->
    _client st = UNOPENED ->
    get_authorized_headers E (exchanges st) = Ok hdrs ->
    let rq := {| method := POST;
                 url := base_url E ++ "/forms/" ++ form ++ "/records";
                 headers := hdrs; params := []%list;
                 json := Some (PDict [("data", data)]%list) |} in
    upstream E (exchanges st) rq = Ok rp ->
    is_success (status_code rp) = true ->
    body rp = Some v ->
    getitem v "record" = Ok record ->
    getitem record "ID" = Ok id ->
    getitem record "Created_Time" = Ok created ->
    parse_timestamp L created = Ok t1 ->
    getitem record "Modified_Time" = Ok modified ->
    parse_timestamp L modified = Ok t2 ->
    LegacyServer.handle_call_tool L E "create-record" arguments st =
    (Raise ValidationError, after_send st rq (Ok rp) CLOSED).
Proof.
  intros L E arguments form data st hdrs rp v record id created modified
         t1 t2 Hf Hd Hv Hc Hh rq Hup Hs Hb Hr Hid Hct Hpc Hmt Hpm.
  unfold LegacyServer.handle_call_tool.
  cbn [String.eqb Ascii.eqb Bool.eqb]. unfold bind at 1, lift at 1.
  cbn [getitem]. rewrite Hf. unfold bind at 1, lift at 1.
  cbn [getitem]. rewrite Hd. unfold bind at 1.
  unfold LegacyServer.create_record_dyn. unfold bind at 1.
  unfold auth_get_authorized_headers. rewrite Hh.
  rewrite request_block. cbn [fstr]. fold rq. rewrite Hc, Hup, Hs, Hb.
  unfold bind, lift. rewrite Hr, Hid, Hct, Hpc, Hmt, Hpm.
  cbn [validate_str]. unfold new_ZohoRecord. rewrite Hv.
  destruct (validate_str id); reflexivity.
Qed.

Lemma legacy_tool_validates_after_sending_witness :
  LegacyServer.handle_call_tool lib0 env0 "create-record"
    [("form_name", PStr "test_form"); ("data", PStr "x")]%list init_service =
  (Raise ValidationError,
   after_send init_service
     {| method := POST;
        url := base0 ++ "/forms/" ++ "test_form" ++ "/records";
        headers := headers0; params := []%list;
        json := Some (PDict [("data", PStr "x")]%list) |}
     (ok_json (PDict [("record", PDict record0)]%list)) CLOSED).
Proof.
  exact (legacy_tool_validates_after_sending lib0 env0
           [("form_name", PStr "test_form"); ("data", PStr "x")]%list
           "test_form" (PStr "x") init_service headers0
           {| status_code := 200;
              body := Some (PDict [("record", PDict record0)]%list) |}
           (PDict [("record", PDict record0)]%list) (PDict record0)
           (PStr "123") (PStr "2024-01-01T00:00:00Z")
           (PStr "2024-01-02T08:30:00Z")
           {| year := 2024; month := 1; day := 1; hour := 0; minute := 0;
              second := 0; microsecond := 0; utcoffset := Some 0%Z |}
           {| year := 2024; month := 1; day := 2; hour := 8; minute := 30;
              second := 0; microsecond := 0; utcoffset := Some 0%Z |}
           eq_refl eq_refl eq_refl eq_refl eq_refl eq_refl eq_refl eq_refl
           eq_refl eq_refl eq_refl eq_refl eq_refl eq_refl).
Defined.
